(** * AltmansExam: the persistence component and the form-to-record adapter

    A shallow embedding of [src/database/database_manager.py] and of the
    summary logic of [src/ui/main_window.py].

    The Python code runs against three external collaborators: the file
    system ([os.path.exists], [shutil.copy]), Qt's SQL module over SQLite
    ([QSqlDatabase], [QSqlQuery]) and the logger.  They are modelled here
    as operations on one explicit process state; the functions of the
    repository are then written in a small state-and-exception monad on
    top of them, statement by statement. *)

From Stdlib Require Import ZArith Lia String Ascii.
From stdpp Require Import gmap strings list fin_maps pretty.

Local Open Scope Z_scope.

(* ===================================================================== *)
(** ** Python control flow: state and exceptions *)
(* ===================================================================== *)

(** The exception classes that occur in the modelled code.  All of them
    are subclasses of Python's [Exception]. *)
Inductive Exn :=
| OSError (msg : string)
| ValueError (msg : string)
| AttributeError (msg : string).

(** [str(e)] *)
Definition str (e : Exn) : string :=
  match e with
  | OSError m => m
  | ValueError m => m
  | AttributeError m => m
  end.

Definition is_ValueError (e : Exn) : bool :=
  match e with ValueError _ => true | _ => false end.

Inductive Res (A : Type) :=
| Ok (a : A)
| Raise (e : Exn).
Arguments Ok {A} a.
Arguments Raise {A} e.

(** A computation over a state [S]: it returns normally or raises, and in
    both cases leaves a state behind (Python undoes nothing on [raise]). *)
Definition M (S A : Type) : Type := S → Res A * S.

Definition ret {S A} (a : A) : M S A := λ s, (Ok a, s).

Definition bind {S A B} (m : M S A) (k : A → M S B) : M S B :=
  λ s, match m s with
       | (Ok a, s') => k a s'
       | (Raise e, s') => (Raise e, s')
       end.

Definition raise {S A} (e : Exn) : M S A := λ s, (Raise e, s).

Definition gets {S A} (f : S → A) : M S A := λ s, (Ok (f s), s).

Definition modify {S} (f : S → S) : M S unit := λ s, (Ok tt, f s).

(** [try: body  except ... as e: handler e] *)
Definition try_except {S A} (body : M S A) (handler : Exn → M S A) : M S A :=
  λ s, match body s with
       | (Ok a, s') => (Ok a, s')
       | (Raise e, s') => handler e s'
       end.

(** [for x in xs: body x] *)
Fixpoint for_each {S X} (xs : list X) (body : X → M S unit) : M S unit :=
  match xs with
  | [] => ret tt
  | x :: rest => bind (body x) (λ _, for_each rest body)
  end.

(** Run a computation on the second component of a pair state. *)
Definition on_process {X P A} (m : M P A) : M (X * P) A :=
  λ s, let (r, p') := m (snd s) in (r, (fst s, p')).

Declare Scope py_scope.
Delimit Scope py_scope with py.
Notation "x <- m ;; k" := (bind m (λ x, k))
  (at level 100, m at next level, right associativity) : py_scope.
Notation "m ;; k" := (bind m (λ _, k))
  (at level 100, right associativity) : py_scope.
Local Open Scope py_scope.

Definition returns_normally {A S} (r : Res A * S) : Prop :=
  match fst r with Ok _ => True | Raise _ => False end.

(* ===================================================================== *)
(** ** The store: SQLite database images in a file system *)
(* ===================================================================== *)

(** A Python value handed to [addBindValue]: the insert operation binds
    [str] and [int] objects. *)
Inductive Value :=
| VStr (s : string)
| VInt (z : Z).

Inductive ColType := INTEGER_PRIMARY_KEY_AUTOINCREMENT | TEXT | INTEGER.

(** The columns [setup_altman_table] declares (lines 91-102). *)
Definition altman_table_columns : list (string * ColType) :=
  [("id", INTEGER_PRIMARY_KEY_AUTOINCREMENT);
   ("altman_date", TEXT); ("altman_time", TEXT);
   ("altmans_sleep", INTEGER); ("altmans_speech", INTEGER);
   ("altmans_activity", INTEGER); ("altmans_cheer", INTEGER);
   ("altmans_confidence", INTEGER); ("altmans_summary", INTEGER)].

(** SQLite's integers have 64 bits. *)
Definition max_rowid : Z := 9223372036854775807.

Definition int64 (z : Z) : bool := (- max_rowid - 1 <=? z) && (z <=? max_rowid).

(** A stored value.  A text bound to a TEXT column is stored as that text,
    and an integer of 64 bits bound to an INTEGER column as that integer.
    In every other pairing the driver and the column affinity of SQLite
    decide what is stored; the model does not compute it and keeps the
    pairing ([Converted]).  A Python [int] outside 64 bits in particular
    is never stored as that integer: SQLite has no such integer, and holds
    a floating-point number or a text in its place. *)
Inductive Stored :=
| StoredText (s : string)
| StoredInteger (z : Z)
| Converted (affinity : ColType) (v : Value).

Definition store (affinity : ColType) (v : Value) : Stored :=
  match affinity, v with
  | TEXT, VStr s => StoredText s
  | INTEGER, VInt z => if int64 z then StoredInteger z else Converted INTEGER v
  | _, _ => Converted affinity v
  end.

Record Row := mkRow {
  row_id : Z;
  cells : list (string * Stored)   (* column name, stored value *)
}.

(** A table of the model is a table with the columns above and no further
    constraint, whatever its name: the layout [setup_altman_table]
    declares.  It is held as its rows and the counter SQLite keeps for it
    in [sqlite_sequence] (0 as long as there is no entry). *)
Record Table := mkTable {
  entries : list Row;
  seq : Z
}.

(** The rows as a read returns them: in the order of their ids. *)
Fixpoint insert_by_id (r : Row) (l : list Row) : list Row :=
  match l with
  | [] => [r]
  | x :: rest => if row_id r <? row_id x then r :: l else x :: insert_by_id r rest
  end.

Definition by_id (l : list Row) : list Row := foldr insert_by_id [] l.

Definition rows (t : Table) : list Row := by_id (entries t).

(** The tables a user of the engine has made, by name.  The tables SQLite
    keeps for itself ([sqlite_master], [sqlite_sequence]) are not entries
    of this map: of [sqlite_sequence] the model holds the counter of each
    table, in [seq]. *)
Abbreviation Database := (gmap string Table).

(** What a regular file holds, as far as the engine tells files apart: a
    database ([Sqlite d]), or something the engine refuses to read as one
    ([NotADatabase]); which byte strings those are is SQLite's matter, so
    such a content is named, not spelled out.  Files with the same bytes
    have the same content.  The file of length zero is read as the
    database without tables, [Sqlite ∅]. *)
Inductive Content :=
| Sqlite (d : Database)
| NotADatabase (content : string).

Definition as_database (c : Content) : option Database :=
  match c with
  | Sqlite d => Some d
  | NotADatabase _ => None
  end.

Inductive Node :=
| Directory
| File (c : Content).

(* ===================================================================== *)
(** ** The process state *)
(* ===================================================================== *)

Inductive Level := INFO | ERROR.

(** One call of the logger: [logger.<level>(message, *args, exc_info=...)]. *)
Record LogRecord := mkLog {
  level : Level;
  message : string;
  args : list string;
  exc_info : bool
}.

(** A [QSqlDatabase] connection.  Every [addDatabase] of the program uses
    the default connection name, so adding a connection removes the one
    before it: handles to the old one stay around but are no longer valid. *)
Record Connection := mkConnection {
  driver : string;
  valid : bool;
  databaseName : string;
  opened : bool
}.

(** The state of a [QSqlQuery] object. *)
Record Query := mkQuery {
  q_connection : option nat;       (* the connection it was created on *)
  q_prepared : option string;      (* the statement [prepare] has compiled *)
  q_bound : list Value;            (* values added by [addBindValue] *)
  q_lastError : string
}.

Inductive QVariant :=
| QInt (z : Z)
| QByteArray (b : string).

(** The failures of a statement, and the call of [QSqlQuery] in which one
    is met. *)
Inductive SqlError :=
| NoDriver                   (* the query has no connection *)
| DatabaseNotOpen
| UnableToOpenFile
| FileIsNotADatabase
| SyntaxError
| NoSuchTable (name : string)
| ParameterCountMismatch
| NoStatement
| ReadOnlyDatabase
| DatabaseFull.

Inductive Call := in_exec_str | in_prepare | in_exec.

Record Process := mkProcess {
  fs : gmap string Node;           (* path -> what is there *)
  writable : bool;                 (* does the environment accept writes *)
  connections : list Connection;   (* a QSqlDatabase handle is an index *)
  queries : list Query;            (* a QSqlQuery handle is an index *)
  log : list LogRecord;            (* calls of the logger, oldest first *)
  qsettings : gmap string QVariant; (* the QSettings store *)
  error_text : Call → SqlError → string
    (* [lastError().text()] after each failure: the wording is Qt's and
       SQLite's, and differs with their versions and with the translation
       in use, so it belongs to the environment *)
}.

Definition set_fs (f : gmap string Node → gmap string Node) (p : Process) : Process :=
  mkProcess (f (fs p)) (writable p) (connections p) (queries p) (log p) (qsettings p)
    (error_text p).

Definition set_connections (f : list Connection → list Connection) (p : Process) : Process :=
  mkProcess (fs p) (writable p) (f (connections p)) (queries p) (log p) (qsettings p)
    (error_text p).

Definition set_queries (f : list Query → list Query) (p : Process) : Process :=
  mkProcess (fs p) (writable p) (connections p) (f (queries p)) (log p) (qsettings p)
    (error_text p).

Definition set_log (f : list LogRecord → list LogRecord) (p : Process) : Process :=
  mkProcess (fs p) (writable p) (connections p) (queries p) (f (log p)) (qsettings p)
    (error_text p).

Definition set_qsettings (f : gmap string QVariant → gmap string QVariant) (p : Process) : Process :=
  mkProcess (fs p) (writable p) (connections p) (queries p) (log p) (f (qsettings p))
    (error_text p).

(* ===================================================================== *)
(** ** The logger *)
(* ===================================================================== *)

Module logger.
Definition info (msg : string) : M Process unit :=
  modify (set_log (λ l, l ++ [mkLog INFO msg [] false])).

Definition error (msg : string) (args : list string) (exc_info : bool) : M Process unit :=
  modify (set_log (λ l, l ++ [mkLog ERROR msg args exc_info])).

(** [logger.exception] logs at level ERROR with the traceback attached. *)
Definition exception (msg : string) : M Process unit :=
  modify (set_log (λ l, l ++ [mkLog ERROR msg [] true])).
End logger.

(* ===================================================================== *)
(** ** The file system: [os.path.exists] and [shutil.copy] *)
(* ===================================================================== *)

Definition os_path_exists (path : string) : M Process bool :=
  gets (λ p, match fs p !! path with Some _ => true | None => false end).

(** [shutil.copy(src, dst)] for a [dst] that does not exist yet: the
    content of the regular file [src] is written to the new file [dst]. *)
Definition shutil_copy (src dst : string) : M Process unit :=
  λ p, match fs p !! src with
       | None => (Raise (OSError "No such file or directory"), p)
       | Some Directory => (Raise (OSError "Is a directory"), p)
       | Some (File c) =>
           if writable p
           then (Ok tt, set_fs (λ f, <[dst := File c]> f) p)
           else (Raise (OSError "Permission denied"), p)
       end.

(* ===================================================================== *)
(** ** The SQL engine, for the two statements of the program *)
(* ===================================================================== *)

(** [s.count(c)] for a one-character [c]. *)
Fixpoint count_char (c : ascii) (s : string) : nat :=
  match s with
  | EmptyString => 0%nat
  | String a rest => ((if Ascii.eqb a c then 1 else 0) + count_char c rest)%nat
  end.

(** The statement text of [setup_altman_table] (lines 91-102). *)
Definition create_altman_table_sql : string :=
"
                        CREATE TABLE IF NOT EXISTS altman_table (
                        id INTEGER PRIMARY KEY AUTOINCREMENT,
                         altman_date TEXT,
                         altman_time TEXT,
                         altmans_sleep INTEGER,
                         altmans_speech INTEGER,
                         altmans_activity INTEGER,
                         altmans_cheer INTEGER,
                         altmans_confidence INTEGER,
                         altmans_summary INTEGER
                        )".

(** The statement text of [insert_into_altman_table] (lines 137-146). *)
Definition insert_altman_table_sql : string :=
"INSERT INTO altman_table(
        altman_date,
        altman_time,
        altmans_sleep,
        altmans_speech,
        altmans_activity,
        altmans_cheer,
        altmans_confidence,
        altmans_summary
        ) VALUES (?, ?, ?, ?, ?, ?, ?, ?)".

Inductive Stmt :=
| CreateTableIfNotExists (name : string) (cols : list (string * ColType))
| InsertInto (name : string) (cols : list (string * ColType)) (placeholders : nat).

(** The engine reads the two statements above; any other text is a syntax
    error.  The number of parameters of the INSERT is the number of [?]
    marks in its text; its columns come with the affinity the layout
    gives them. *)
Definition sql_parse (sql : string) : option Stmt :=
  if String.eqb sql create_altman_table_sql then
    Some (CreateTableIfNotExists "altman_table"
            [("id", INTEGER_PRIMARY_KEY_AUTOINCREMENT);
             ("altman_date", TEXT); ("altman_time", TEXT);
             ("altmans_sleep", INTEGER); ("altmans_speech", INTEGER);
             ("altmans_activity", INTEGER); ("altmans_cheer", INTEGER);
             ("altmans_confidence", INTEGER); ("altmans_summary", INTEGER)])
  else if String.eqb sql insert_altman_table_sql then
    Some (InsertInto "altman_table"
            [("altman_date", TEXT); ("altman_time", TEXT);
             ("altmans_sleep", INTEGER); ("altmans_speech", INTEGER);
             ("altmans_activity", INTEGER); ("altmans_cheer", INTEGER);
             ("altmans_confidence", INTEGER); ("altmans_summary", INTEGER)]
            (count_char "?" sql))
  else None.

Definition parameters (st : Stmt) : nat :=
  match st with
  | CreateTableIfNotExists _ _ => 0%nat
  | InsertInto _ _ placeholders => placeholders
  end.

(** The largest id of the rows, when there is a row. *)
Definition largest_id (l : list Row) : option Z :=
  foldr (λ r m, Some (match m with
                      | None => row_id r
                      | Some k => Z.max (row_id r) k
                      end)) None l.

(** AUTOINCREMENT: the id of a new row is one above the largest id in the
    table (1 in an empty table), and above the counter of the table.  Once
    the largest 64-bit integer has been used, in the table or by the
    counter, the table takes no further row. *)
Definition next_id (t : Table) : Z :=
  Z.max (seq t + 1)
    (match largest_id (entries t) with
     | None => 1
     | Some m => m + 1
     end).

Definition table_full (t : Table) : bool :=
  (max_rowid <=? seq t)
  || match largest_id (entries t) with
     | None => false
     | Some m => max_rowid <=? m
     end.

(** The cells of a new row: each bound value as its column stores it. *)
Definition store_cells (cols : list (string * ColType)) (bound : list Value)
  : list (string * Stored) :=
  zip_with (λ c v, (fst c, store (snd c) v)) cols bound.

(** What compiling a statement against a database finds wrong with it. *)
Definition sql_compile (st : Stmt) (d : Database) : option SqlError :=
  match st with
  | CreateTableIfNotExists _ _ => None
  | InsertInto name _ _ =>
      match d !! name with
      | None => Some (NoSuchTable name)
      | Some _ => None
      end
  end.

(** One compiled statement against a database that can or cannot be
    written: an error, or [None] when there is nothing to write, or the
    database to write back. *)
Definition sql_step (can_write : bool) (st : Stmt) (bound : list Value) (d : Database)
  : SqlError + option Database :=
  match st with
  | CreateTableIfNotExists name cols =>
      match d !! name with
      | Some _ => inr None
      | None =>
          if can_write then inr (Some (<[name := mkTable [] 0]> d))
          else inl ReadOnlyDatabase
      end
  | InsertInto name cols placeholders =>
      match d !! name with
      | None => inl (NoSuchTable name)
      | Some t =>
          if negb can_write then inl ReadOnlyDatabase
          else if table_full t then inl DatabaseFull
          else
            let new_id := next_id t in
            inr (Some (<[name := mkTable
                                   (entries t ++ [mkRow new_id (store_cells cols bound)])
                                   new_id]> d))
      end
  end.

(** The database behind the connection of a query, with its path. *)
Definition database_of (conn : option nat) (p : Process) : SqlError + (string * Database) :=
  match conn with
  | None => inl NoDriver
  | Some h =>
      match connections p !! h with
      | None => inl NoDriver
      | Some c =>
          if negb (valid c && opened c) then inl DatabaseNotOpen
          else
            match fs p !! databaseName c with
            | Some (File content) =>
                match as_database content with
                | None => inl FileIsNotADatabase
                | Some d => inr (databaseName c, d)
                end
            | _ => inl UnableToOpenFile
            end
      end
  end.

(** Compiling a statement text on a connection: what [prepare] does, and
    what [exec(sql)] does first. *)
Definition sqlite_prepare (conn : option nat) (sql : string) (p : Process)
  : SqlError + (string * Database * Stmt) :=
  match database_of conn p with
  | inl err => inl err
  | inr (path, d) =>
      match sql_parse sql with
      | None => inl SyntaxError
      | Some st =>
          match sql_compile st d with
          | Some err => inl err
          | None => inr (path, d, st)
          end
      end
  end.

(** One statement on a connection of the process, compiled and run with
    the bound values: the failure, or the process after the statement. *)
Definition sqlite_exec (conn : option nat) (sql : string) (bound : list Value)
    (p : Process) : SqlError + Process :=
  match sqlite_prepare conn sql p with
  | inl err => inl err
  | inr (path, d, st) =>
      if negb (length bound =? parameters st)%nat then inl ParameterCountMismatch
      else
        match sql_step (writable p) st bound d with
        | inl err => inl err
        | inr None => inr p
        | inr (Some d') => inr (set_fs (λ f, <[path := File (Sqlite d')]> f) p)
        end
  end.

(** The full-table read [SELECT * FROM name] of a user's table [name] in
    the store at [path]. *)
Definition read_table (path name : string) (p : Process) : option (list Row) :=
  match fs p !! path with
  | Some (File content) =>
      match as_database content with
      | Some d => rows <$> d !! name
      | None => None
      end
  | _ => None
  end.

(* ===================================================================== *)
(** ** Qt's SQL module: [QSqlDatabase] and [QSqlQuery] *)
(* ===================================================================== *)

Module QSqlDatabase.
Definition invalidate (c : Connection) : Connection :=
  mkConnection (driver c) false (databaseName c) false.

(** [QSqlDatabase.addDatabase(driver)]: the new default connection; the
    handle returned is its index. *)
Definition addDatabase (drv : string) : M Process nat :=
  λ p, (Ok (length (connections p)),
        set_connections
          (λ cs, (invalidate <$> cs) ++ [mkConnection drv (String.eqb drv "QSQLITE") "" false]) p).

Definition setDatabaseName (h : nat) (name : string) : M Process unit :=
  modify (set_connections (alter (λ c,
    if valid c then mkConnection (driver c) (valid c) name (opened c) else c) h)).

Definition set_opened (h : nat) (b : bool) : Process → Process :=
  set_connections (alter (λ c, mkConnection (driver c) (valid c) (databaseName c) b) h).

(** [db.open()]: SQLite opens a regular file as it is and creates a
    missing one, empty, when the environment lets it. *)
Definition open (h : nat) : M Process bool :=
  λ p, match connections p !! h with
       | None => (Ok false, p)
       | Some c =>
           if negb (valid c) then (Ok false, p)
           else
             match fs p !! databaseName c with
             | Some (File _) => (Ok true, set_opened h true p)
             | Some Directory => (Ok false, set_opened h false p)
             | None =>
                 if writable p
                 then (Ok true,
                       set_opened h true
                         (set_fs (λ f, <[databaseName c := File (Sqlite ∅)]> f) p))
                 else (Ok false, set_opened h false p)
             end
       end.

(** [db.close()]: a handle that is no longer valid closes nothing. *)
Definition close_connection (c : Connection) : Connection :=
  if valid c then mkConnection (driver c) (valid c) (databaseName c) false else c.

Definition close (h : nat) : M Process unit :=
  modify (set_connections (alter close_connection h)).

(** Is the connection behind the handle [h] open. *)
Definition is_open (h : nat) (p : Process) : bool :=
  match connections p !! h with
  | Some c => valid c && opened c
  | None => false
  end.

Definition isOpen (h : nat) : M Process bool :=
  gets (is_open h).
End QSqlDatabase.

Module QSqlQuery.
(** [QSqlQuery()]: a query on the default connection, when there is one. *)
Definition new : M Process nat :=
  λ p, (Ok (length (queries p)),
        set_queries
          (λ qs, qs ++ [mkQuery (match connections p with
                                 | [] => None
                                 | _ :: _ => Some (length (connections p) - 1)%nat
                                 end) None [] ""]) p).

(** The end of a call that ran a statement: the failure is kept for
    [lastError()], in the words of the environment. *)
Definition finish (call : Call) (q : nat) (outcome : SqlError + Process) (p : Process)
  : Res bool * Process :=
  match outcome with
  | inl err =>
      (Ok false,
       set_queries (alter (λ st, mkQuery (q_connection st) (q_prepared st)
                                    (q_bound st) (error_text p call err)) q) p)
  | inr p' =>
      (Ok true,
       set_queries (alter (λ st, mkQuery (q_connection st) (q_prepared st)
                                    (q_bound st) "") q) p')
  end.

(** [query.exec(sql)] *)
Definition exec_str (q : nat) (sql : string) : M Process bool :=
  λ p, match queries p !! q with
       | None => (Ok false, p)
       | Some st => finish in_exec_str q (sqlite_exec (q_connection st) sql [] p) p
       end.

(** The query after [prepare(sql)]: it holds the statement when the text
    could be compiled on its connection, and no statement otherwise.  The
    binding starts over: the values of the last [exec()] are not among
    those the next [addBindValue] calls add. *)
Definition prepared (sql : string) (p : Process) (st : Query) : Query :=
  match sqlite_prepare (q_connection st) sql p with
  | inl err => mkQuery (q_connection st) None [] (error_text p in_prepare err)
  | inr _ => mkQuery (q_connection st) (Some sql) [] ""
  end.

(** [query.prepare(sql)].  The program never looks at the result. *)
Definition prepare (q : nat) (sql : string) : M Process bool :=
  λ p, (Ok (match queries p !! q with
            | Some st =>
                match q_prepared (prepared sql p st) with Some _ => true | None => false end
            | None => false
            end),
        set_queries (alter (prepared sql p) q) p).

Definition addBindValue (q : nat) (v : Value) : M Process unit :=
  modify (set_queries (alter (λ st, mkQuery (q_connection st) (q_prepared st)
                                       (q_bound st ++ [v]) (q_lastError st)) q)).

(** Is the connection of a query open. *)
Definition connection_open (conn : option nat) (p : Process) : bool :=
  match conn with
  | None => false
  | Some h =>
      match connections p !! h with
      | Some c => valid c && opened c
      | None => false
      end
  end.

(** What [exec()] runs.  A query holds a statement when its last [prepare]
    compiled one and the connection is still open (closing a connection
    drops its statements).  Without a statement there are no parameters:
    Qt reports a parameter count mismatch as soon as a value is bound. *)
Definition exec_outcome (st : Query) (p : Process) : SqlError + Process :=
  match (if connection_open (q_connection st) p then q_prepared st else None) with
  | Some sql => sqlite_exec (q_connection st) sql (q_bound st) p
  | None =>
      inl (match q_bound st with
           | [] => NoStatement
           | _ :: _ => ParameterCountMismatch
           end)
  end.

(** [query.exec()]: runs the prepared statement with the bound values. *)
Definition exec (q : nat) : M Process bool :=
  λ p, match queries p !! q with
       | None => (Ok false, p)
       | Some st => finish in_exec q (exec_outcome st p) p
       end.

(** [query.lastError().text()] *)
Definition lastError_text (q : nat) : M Process string :=
  gets (λ p, match queries p !! q with
             | Some st => q_lastError st
             | None => ""
             end).
End QSqlQuery.

(* ===================================================================== *)
(** ** database_manager.py *)
(* ===================================================================== *)

(** Lines 13-38.  [db_path] and [target_db_path] are the module constants
    of lines 9-10; their values come from the working directory, the home
    directory and [tracker_config.DB_NAME]. *)
Definition initialize_database (db_path target_db_path : string) : M Process unit :=
  try_except
    (target_exists <- os_path_exists target_db_path ;;
     if negb target_exists then
       source_exists <- os_path_exists db_path ;;
       if source_exists then
         shutil_copy db_path target_db_path
       else
         db <- QSqlDatabase.addDatabase "QSQLITE" ;;
         QSqlDatabase.setDatabaseName db target_db_path ;;
         ok <- QSqlDatabase.open db ;;
         (if negb ok then logger.error "Error: Unable to create database" [] false
          else ret tt) ;;
         QSqlDatabase.close db
     else ret tt)
    (λ e, logger.error "Error: Unable to create database" [str e] false).

Module DataManager.

(** An instance: its attributes are set by [__init__], one after the other. *)
Record t := mk {
  db : option nat;       (* self.db: a QSqlDatabase handle *)
  query : option nat     (* self.query: a QSqlQuery handle *)
}.

Definition blank : t := mk None None.

(** Methods run on the object and the process. *)
Abbreviation Method A := (M (t * Process) A).

Definition self_db : Method nat :=
  λ s, match db (fst s) with
       | Some h => (Ok h, s)
       | None => (Raise (AttributeError "'DataManager' object has no attribute 'db'"), s)
       end.

Definition self_query : Method nat :=
  λ s, match query (fst s) with
       | Some q => (Ok q, s)
       | None => (Raise (AttributeError "'DataManager' object has no attribute 'query'"), s)
       end.

Definition set_self_db (h : nat) : Method unit :=
  modify (λ s, (mk (Some h) (query (fst s)), snd s)).

Definition set_self_query (q : nat) : Method unit :=
  modify (λ s, (mk (db (fst s)) (Some q), snd s)).

(** Lines 73-104. *)
Definition setup_altman_table : Method unit :=
  q <- self_query ;;
  ok <- on_process (QSqlQuery.exec_str q create_altman_table_sql) ;;
  if negb ok then
    q <- self_query ;;
    err <- on_process (QSqlQuery.lastError_text q) ;;
    on_process (logger.error "Error creating table: altman_table" [err] false)
  else ret tt.

(** Lines 66-71. *)
Definition setup_tables : Method unit :=
  setup_altman_table.

(** Lines 43-64. *)
Definition __init__ (db_name : string) : Method unit :=
  try_except
    (h <- on_process (QSqlDatabase.addDatabase "QSQLITE") ;;
     set_self_db h ;;
     h <- self_db ;;
     on_process (QSqlDatabase.setDatabaseName h db_name) ;;
     h <- self_db ;;
     ok <- on_process (QSqlDatabase.open h) ;;
     (if negb ok then on_process (logger.error "Error: Unable to open database" [] false)
      else ret tt) ;;
     on_process (logger.info "DB INITIALIZING") ;;
     q <- on_process QSqlQuery.new ;;
     set_self_query q ;;
     setup_tables)
    (λ e, on_process (logger.error ("Error: Unable to open database " +:+ str e) [] true)).

(** [DataManager(db_name)]: a blank object, initialised. *)
Definition new (db_name : string) : M Process t :=
  λ p, match __init__ db_name (blank, p) with
       | (Ok _, (self, p')) => (Ok self, p')
       | (Raise e, (_, p')) => (Raise e, p')
       end.

(** Line 147. *)
Definition bind_values_of (altman_date altman_time : string)
    (altmans_sleep altmans_speech altmans_activity altmans_cheer
     altmans_confidence altmans_summary : Z) : list Value :=
  [VStr altman_date; VStr altman_time; VInt altmans_sleep; VInt altmans_speech;
   VInt altmans_activity; VInt altmans_cheer; VInt altmans_confidence;
   VInt altmans_summary].

(** Lines 149-151: prepare the statement and bind the values. *)
Definition prepare_and_bind (sql : string) (bind_values : list Value) : Method unit :=
  q <- self_query ;;
  on_process (QSqlQuery.prepare q sql) ;;
  for_each bind_values (λ value,
    q <- self_query ;;
    on_process (QSqlQuery.addBindValue q value)).

(** Lines 152-154: the count check. *)
Definition check_bind_count (sql : string) (bind_values : list Value) : Method unit :=
  if negb (count_char "?" sql =? length bind_values)%nat then
    raise (ValueError ("Mismatch: altman_table Expected " +:+ pretty (count_char "?" sql)
                       +:+ "
                    bind values, got " +:+ pretty (length bind_values) +:+ "."))
  else ret tt.

(** Lines 155-157: run the statement. *)
Definition exec_and_report : Method unit :=
  q <- self_query ;;
  ok <- on_process (QSqlQuery.exec q) ;;
  if negb ok then
    q <- self_query ;;
    err <- on_process (QSqlQuery.lastError_text q) ;;
    on_process (logger.error ("Error inserting data: altman_table - " +:+ err) [] false)
  else ret tt.

(** Lines 148-161: the [try] statement, over the locals [sql] and
    [bind_values]. *)
Definition insert_try (sql : string) (bind_values : list Value) : Method unit :=
  try_except
    (prepare_and_bind sql bind_values ;;
     check_bind_count sql bind_values ;;
     exec_and_report)
    (λ e, if is_ValueError e
          then on_process (logger.error ("ValueError altman_table: " +:+ str e) [] false)
          else on_process (logger.error ("Error during data insertion: altman_table " +:+ str e)
                             [] true)).

(** Lines 106-161. *)
Definition insert_into_altman_table (altman_date altman_time : string)
    (altmans_sleep altmans_speech altmans_activity altmans_cheer
     altmans_confidence altmans_summary : Z) : Method unit :=
  let sql := insert_altman_table_sql in
  let bind_values :=
    bind_values_of altman_date altman_time altmans_sleep altmans_speech
      altmans_activity altmans_cheer altmans_confidence altmans_summary in
  insert_try sql bind_values.

End DataManager.

(** Lines 164-184.  The function stands at module level, after the class:
    it is not a method of [DataManager], and takes the object whose [db]
    it closes as its argument. *)
Definition close_database : M (DataManager.t * Process) unit :=
  try_except
    (on_process (logger.info "if database is open") ;;
     h <- DataManager.self_db ;;
     is_open <- on_process (QSqlDatabase.isOpen h) ;;
     if (is_open : bool) then
       on_process (logger.info "the database is closed successfully") ;;
       h <- DataManager.self_db ;;
       on_process (QSqlDatabase.close h)
     else ret tt)
    (λ e, on_process (logger.exception ("Error closing database: " +:+ str e))).

(* ===================================================================== *)
(** ** Qt widgets: the integer input widgets of the form *)
(* ===================================================================== *)

(** A slider or spin box: Qt keeps its value inside its range. *)
Record Slider := mkSlider {
  value : Z;
  minimum : Z;
  maximum : Z;
  enabled : bool
}.

(** Qt's [qBound(lo, v, hi)]. *)
Definition qBound (lo v hi : Z) : Z := Z.max lo (Z.min hi v).

Definition setValue (v : Z) (w : Slider) : Slider :=
  mkSlider (qBound (minimum w) v (maximum w)) (minimum w) (maximum w) (enabled w).

Definition setRange (lo hi : Z) (w : Slider) : Slider :=
  mkSlider (qBound lo (value w) (Z.max lo hi)) lo (Z.max lo hi) (enabled w).

Definition setEnabled (b : bool) (w : Slider) : Slider :=
  mkSlider (value w) (minimum w) (maximum w) b.

(* ===================================================================== *)
(** ** main_window.py *)
(* ===================================================================== *)

(** The five scale widgets. *)
Inductive Scale := sleep | speech | activity | cheer | confidence.

#[global] Instance Scale_eq_dec : EqDecision Scale.
Proof. solve_decision. Defined.

(** The signals the modelled handlers are connected to. *)
Inductive Signal :=
| valueChanged (w : Scale)
| actionCommit_triggered
| currentChanged.

Inductive Slot :=
| slot_update_altmans_summary
| slot_add_altmans_data
| slot_on_page_changed.

Definition Signal_eqb (a b : Signal) : bool :=
  match a, b with
  | valueChanged sleep, valueChanged sleep
  | valueChanged speech, valueChanged speech
  | valueChanged activity, valueChanged activity
  | valueChanged cheer, valueChanged cheer
  | valueChanged confidence, valueChanged confidence
  | actionCommit_triggered, actionCommit_triggered
  | currentChanged, currentChanged => true
  | _, _ => false
  end.

(** The window: the widgets of the form (created by [setupUi], in the
    generated [ui/main_ui/gui.py]), the signal connections made so far,
    the database manager and the window geometry. *)
Record MainWindow := mkMainWindow {
  altman_date : string;
  altman_time : string;
  altmans_sleep : Slider;
  altmans_speech : Slider;
  altmans_activity : Slider;
  altmans_cheer : Slider;
  altmans_confidence : Slider;
  altmans_summary : Slider;
  connected : list (Signal * Slot);
  db_manager : DataManager.t;
  geometry : string;
  windowState : string
}.

Abbreviation Window A := (M (MainWindow * Process) A).

Definition scale_widget (w : Scale) (mw : MainWindow) : Slider :=
  match w with
  | sleep => altmans_sleep mw
  | speech => altmans_speech mw
  | activity => altmans_activity mw
  | cheer => altmans_cheer mw
  | confidence => altmans_confidence mw
  end.

Definition set_scale_widget (w : Scale) (s : Slider) (mw : MainWindow) : MainWindow :=
  mkMainWindow (altman_date mw) (altman_time mw)
    (match w with sleep => s | _ => altmans_sleep mw end)
    (match w with speech => s | _ => altmans_speech mw end)
    (match w with activity => s | _ => altmans_activity mw end)
    (match w with cheer => s | _ => altmans_cheer mw end)
    (match w with confidence => s | _ => altmans_confidence mw end)
    (altmans_summary mw) (connected mw) (db_manager mw) (geometry mw) (windowState mw).

Definition set_altmans_summary (s : Slider) (mw : MainWindow) : MainWindow :=
  mkMainWindow (altman_date mw) (altman_time mw) (altmans_sleep mw) (altmans_speech mw)
    (altmans_activity mw) (altmans_cheer mw) (altmans_confidence mw)
    s (connected mw) (db_manager mw) (geometry mw) (windowState mw).

Definition set_connected (c : list (Signal * Slot)) (mw : MainWindow) : MainWindow :=
  mkMainWindow (altman_date mw) (altman_time mw) (altmans_sleep mw) (altmans_speech mw)
    (altmans_activity mw) (altmans_cheer mw) (altmans_confidence mw)
    (altmans_summary mw) c (db_manager mw) (geometry mw) (windowState mw).

Definition set_db_manager (d : DataManager.t) (mw : MainWindow) : MainWindow :=
  mkMainWindow (altman_date mw) (altman_time mw) (altmans_sleep mw) (altmans_speech mw)
    (altmans_activity mw) (altmans_cheer mw) (altmans_confidence mw)
    (altmans_summary mw) (connected mw) d (geometry mw) (windowState mw).

Definition set_date_time (d t : string) (mw : MainWindow) : MainWindow :=
  mkMainWindow d t (altmans_sleep mw) (altmans_speech mw)
    (altmans_activity mw) (altmans_cheer mw) (altmans_confidence mw)
    (altmans_summary mw) (connected mw) (db_manager mw) (geometry mw) (windowState mw).

(** [signal.connect(slot)] *)
Definition connect (sig : Signal) (slot : Slot) : Window unit :=
  modify (λ s, (set_connected (connected (fst s) ++ [(sig, slot)]) (fst s), snd s)).

(** Run a method of [self.db_manager]. *)
Definition on_db_manager {A} (m : DataManager.Method A) : Window A :=
  λ s, match m (db_manager (fst s), snd s) with
       | (r, (d, p)) => (r, (set_db_manager d (fst s), p))
       end.

(** Python's [sum(values)]. *)
Definition sum (values : list Z) : Z := fold_left Z.add values 0.

(** Lines 288-293: the values of the scale widgets that are above zero,
    added up. *)
Definition sumabitch (mw : MainWindow) : Z :=
  let values :=
    List.filter (λ v, 0 <? v)
      (value <$> [altmans_sleep mw; altmans_speech mw; altmans_activity mw;
                  altmans_cheer mw; altmans_confidence mw]) in
  sum values.

(** Lines 280-298. *)
Definition update_altmans_summary : Window unit :=
  try_except
    (mw <- gets fst ;;
     modify (λ s, (set_altmans_summary
                     (setValue (sumabitch mw) (altmans_summary (fst s))) (fst s),
                   snd s)))
    (λ e, on_process (logger.error (str e) [] true)).

(** Modelled from the spec: [add_altmans_data] of
    [database/altman_add_data.py] is not among the sources.  On commit it
    reads the current value of each named widget and calls the insert
    operation it was given, here [self.db_manager.insert_into_altman_table],
    with the eight values in order. *)
Definition add_altmans_data : Window unit :=
  mw <- gets fst ;;
  on_db_manager
    (DataManager.insert_into_altman_table (altman_date mw) (altman_time mw)
       (value (altmans_sleep mw)) (value (altmans_speech mw))
       (value (altmans_activity mw)) (value (altmans_cheer mw))
       (value (altmans_confidence mw)) (value (altmans_summary mw))).

(** Lines 185-200. *)
Definition on_page_changed (index : Z) : Window unit :=
  try_except
    (on_process (modify (set_qsettings (λ m, <["lastPageIndex" := QInt index]> m))))
    (λ e, on_process (logger.error (str e) [] true)).

Definition run_slot (arg : Z) (slot : Slot) : Window unit :=
  match slot with
  | slot_update_altmans_summary => update_altmans_summary
  | slot_add_altmans_data => add_altmans_data
  | slot_on_page_changed => on_page_changed arg
  end.

(** Emitting a signal runs the slots connected to it, in connection order. *)
Definition emit (sig : Signal) (arg : Z) : Window unit :=
  s <- gets fst ;;
  for_each (snd <$> List.filter (λ c, Signal_eqb (fst c) sig) (connected s)) (run_slot arg).

(** A scale widget takes a new state; [valueChanged] is emitted when its
    value is no longer the old one. *)
Definition change_scale_widget (w : Scale) (f : Slider → Slider) : Window unit :=
  mw <- gets fst ;;
  let old := scale_widget w mw in
  modify (λ s, (set_scale_widget w (f old) (fst s), snd s)) ;;
  if value (f old) =? value old then ret tt
  else emit (valueChanged w) (value (f old)).

(** Lines 236-278. *)
Definition altman_table_commit : Window unit :=
  try_except
    (connect actionCommit_triggered slot_add_altmans_data)
    (λ e, on_process (logger.error ("An Error has occurred " +:+ str e) [] true)) ;;
  modify (λ s, (set_altmans_summary (setEnabled false (altmans_summary (fst s))) (fst s),
                snd s)) ;;
  for_each [sleep; speech; activity; cheer; confidence]
    (λ slider, change_scale_widget slider (setRange 0 5)) ;;
  connect (valueChanged sleep) slot_update_altmans_summary ;;
  connect (valueChanged speech) slot_update_altmans_summary ;;
  connect (valueChanged activity) slot_update_altmans_summary ;;
  connect (valueChanged cheer) slot_update_altmans_summary ;;
  connect (valueChanged confidence) slot_update_altmans_summary.

(** Lines 202-206. *)
Definition commits : Window unit :=
  altman_table_commit.

(** Lines 335-356. *)
Definition save_state : Window unit :=
  try_except
    (mw <- gets fst ;;
     on_process (modify (set_qsettings (λ m, <["geometry" := QByteArray (geometry mw)]> m))))
    (λ e, on_process (logger.error ("Error saving the minds_module geo" +:+ str e) [] true)) ;;
  try_except
    (mw <- gets fst ;;
     on_process (modify (set_qsettings (λ m, <["windowState" := QByteArray (windowState mw)]> m))))
    (λ e, on_process (logger.error ("Error saving the minds_module geo" +:+ str e) [] true)).

(** Lines 380-396. *)
Definition closeEvent : Window unit :=
  try_except
    save_state
    (λ e, on_process (logger.error ("error saving state during closure: " +:+ str e) [] true)).

(** Lines 67-88, for the window [setupUi] has built.  [DataManager()] is
    called with its default argument, [target_db_path].  The calls that
    only arrange the window through collaborators outside the two source
    files (models, geometry, navigation, the delete action, the hidden
    frame) are left out; the connection of [currentChanged] is the one of
    [app_operations] (line 173). *)
Definition MainWindow__init__ (target_db_path : string) : Window unit :=
  d <- on_process (DataManager.new target_db_path) ;;
  modify (λ s, (set_db_manager d (fst s), snd s)) ;;
  connect currentChanged slot_on_page_changed ;;
  commits ;;
  update_altmans_summary.

(** What reaches the window once it is shown. *)
Inductive Event :=
| user_sets (w : Scale) (v : Z)        (* the user drags or types at a scale widget *)
| user_sets_summary (v : Z)            (* the user tries the same at the summary widget *)
| user_sets_date_time (d t : string)
| commit_triggered
| page_changed (index : Z)
| close_requested.

(** A disabled widget takes no input from the user. *)
Definition handle (ev : Event) : Window unit :=
  match ev with
  | user_sets w v =>
      mw <- gets fst ;;
      if enabled (scale_widget w mw) then change_scale_widget w (setValue v) else ret tt
  | user_sets_summary v =>
      mw <- gets fst ;;
      if enabled (altmans_summary mw)
      then modify (λ s, (set_altmans_summary (setValue v (altmans_summary (fst s))) (fst s),
                         snd s))
      else ret tt
  | user_sets_date_time d t =>
      modify (λ s, (set_date_time d t (fst s), snd s))
  | commit_triggered => emit actionCommit_triggered 0
  | page_changed index => emit currentChanged index
  | close_requested => closeEvent
  end.

(** The states of a run: the window as constructed over the widgets [ui]
    in the process [p0], then any sequence of events. *)
Inductive reachable (target_db_path : string) (ui : MainWindow) (p0 : Process)
  : MainWindow * Process → Prop :=
| reach_init :
    reachable target_db_path ui p0 (snd (MainWindow__init__ target_db_path (ui, p0)))
| reach_event s ev :
    reachable target_db_path ui p0 s →
    reachable target_db_path ui p0 (snd (handle ev s)).

Definition set_geometry (b : string) (mw : MainWindow) : MainWindow :=
  mkMainWindow (altman_date mw) (altman_time mw) (altmans_sleep mw) (altmans_speech mw)
    (altmans_activity mw) (altmans_cheer mw) (altmans_confidence mw)
    (altmans_summary mw) (connected mw) (db_manager mw) b (windowState mw).

Definition set_windowState (b : string) (mw : MainWindow) : MainWindow :=
  mkMainWindow (altman_date mw) (altman_time mw) (altmans_sleep mw) (altmans_speech mw)
    (altmans_activity mw) (altmans_cheer mw) (altmans_confidence mw)
    (altmans_summary mw) (connected mw) (db_manager mw) (geometry mw) b.

(** [self.settings.value(key, defaultValue)] *)
Definition settings_value (key : string) (defaultValue : QVariant) : M Process QVariant :=
  gets (λ p, default defaultValue (qsettings p !! key)).

Section restore_state.

(** The text of the TypeError PyQt raises for an argument that is not a
    byte array. *)
Variable unexpected_type : QVariant → string.

(** Does Qt take a byte array for a geometry that [saveGeometry()] has
    written, and for a state that [saveState()] has written: it reads the
    marks and the version it finds at the front. *)
Variables accepts_geometry accepts_state : string → bool.

(** [QWidget.restoreGeometry] and [QMainWindow.restoreState] on a byte
    array.  The geometry of a window is held as the byte array
    [saveGeometry()] gives for it, and so is its state.  The empty byte
    array is neither, and a byte array that Qt does not accept is
    refused: the window stays as it is. *)
Definition restoreGeometry (b : string) (mw : MainWindow) : MainWindow :=
  if decide (b = "") then mw
  else if accepts_geometry b then set_geometry b mw else mw.

Definition restoreState (b : string) (mw : MainWindow) : MainWindow :=
  if decide (b = "") then mw
  else if accepts_state b then set_windowState b mw else mw.

(** Lines 358-378.  A value that is not a byte array makes the call raise
    inside the [try]; the handler logs the text of the exception. *)
Definition restore_state : Window unit :=
  (v <- on_process (settings_value "geometry" (QByteArray "")) ;;
   match v with
   | QByteArray b => modify (λ s, (restoreGeometry b (fst s), snd s))
   | _ =>
       on_process
         (logger.error
            ("Error restoring the minds module : stress state " +:+ unexpected_type v)
            [] false)
   end) ;;
  (v <- on_process (settings_value "windowState" (QByteArray "")) ;;
   match v with
   | QByteArray b => modify (λ s, (restoreState b (fst s), snd s))
   | _ =>
       on_process
         (logger.error ("Error restoring WINDOW STATE " +:+ unexpected_type v) [] true)
   end).

End restore_state.

(* ===================================================================== *)
(** ** Notions the statements are written with, and example states *)
(* ===================================================================== *)

Definition example_slider (v : Z) : Slider := mkSlider v 0 5 true.

(** The texts of one environment, for the example states. *)
Definition english_error_text (call : Call) (err : SqlError) : string :=
  match err with
  | NoDriver => "Driver not loaded"
  | DatabaseNotOpen => ""
  | ParameterCountMismatch => "Parameter count mismatch"
  | NoStatement => "Unable to fetch row"
  | _ =>
      (match err with
       | UnableToOpenFile => "unable to open database file"
       | FileIsNotADatabase => "file is not a database"
       | SyntaxError => "syntax error"
       | NoSuchTable name => "no such table: " +:+ name
       | ReadOnlyDatabase => "attempt to write a readonly database"
       | _ => "database or disk is full"
       end)
      +:+ (match call, err with
           | in_exec, _ | _, ReadOnlyDatabase | _, DatabaseFull => " Unable to fetch row"
           | _, _ => " Unable to execute statement"
           end)
  end.

(** A form holding the five given scale values; its summary widget is a
    disabled widget of range 0..99 that shows 0. *)
Definition example_form (s sp a c cf : Z) : MainWindow :=
  mkMainWindow "2024-01-01" "10:00"
    (example_slider s) (example_slider sp) (example_slider a)
    (example_slider c) (example_slider cf)
    (mkSlider 0 0 99 false) [] DataManager.blank "" "".

(** A process that has done nothing yet, on an empty file system that
    accepts writes. *)
Definition fresh_process : Process := mkProcess ∅ true [] [] [] ∅ english_error_text.

(** The summary as the specification words it: every value that is
    strictly greater than 0 is added, the others are left out. *)
Fixpoint sum_of_positive (vs : list Z) : Z :=
  match vs with
  | [] => 0
  | v :: rest => if 0 <? v then v + sum_of_positive rest else sum_of_positive rest
  end.

Definition scale_values (mw : MainWindow) : list Z :=
  [value (altmans_sleep mw); value (altmans_speech mw); value (altmans_activity mw);
   value (altmans_cheer mw); value (altmans_confidence mw)].

(** The connections after [addDatabase("QSQLITE")] followed by
    [setDatabaseName(name)] on the handle it returned. *)
Definition with_new_connection (name : string) (cs : list Connection) : list Connection :=
  (QSqlDatabase.invalidate <$> cs) ++ [mkConnection "QSQLITE" true name false].

Definition insert_columns : list (string * ColType) :=
  [("altman_date", TEXT); ("altman_time", TEXT);
   ("altmans_sleep", INTEGER); ("altmans_speech", INTEGER);
   ("altmans_activity", INTEGER); ("altmans_cheer", INTEGER);
   ("altmans_confidence", INTEGER); ("altmans_summary", INTEGER)].

(** The table as [CREATE TABLE] makes it. *)
Definition empty_altman_table : Table := mkTable [] 0.

(** The row an insert of [bound] adds to the table [t]. *)
Definition inserted_row (t : Table) (bound : list Value) : Row :=
  mkRow (next_id t) (store_cells insert_columns bound).


Definition with_inserted_row (t : Table) (bound : list Value) : Table :=
  mkTable (entries t ++ [inserted_row t bound]) (next_id t).

(** A query after [prepare(sql)] in the process [p] and the binding of
    [bound]. *)
Definition bound_query (sql : string) (bound : list Value) (p : Process) (st : Query)
  : Query :=
  mkQuery (q_connection st) (q_prepared (QSqlQuery.prepared sql p st)) bound
    (q_lastError (QSqlQuery.prepared sql p st)).

Definition with_lastError (err : string) (st : Query) : Query :=
  mkQuery (q_connection st) (q_prepared st) (q_bound st) err.

(** What [prepare(sql)], the binding of [bound] and [exec()] come to on a
    connection: without a compiled statement the bound values meet no
    parameter. *)
Definition prepared_exec (conn : option nat) (sql : string) (bound : list Value)
    (p : Process) : SqlError + Process :=
  match sqlite_prepare conn sql p with
  | inl _ =>
      inl (match bound with
           | [] => NoStatement
           | _ :: _ => ParameterCountMismatch
           end)
  | inr _ => sqlite_exec conn sql bound p
  end.

(** The three records the insert operation can log. *)
Definition mismatch_record (sql : string) (bvs : list Value) : LogRecord :=
  mkLog ERROR
    ("ValueError altman_table: "
     +:+ ("Mismatch: altman_table Expected " +:+ pretty (count_char "?" sql)
          +:+ "
                    bind values, got " +:+ pretty (length bvs) +:+ "."))
    [] false.

Definition insert_error_record (err : string) : LogRecord :=
  mkLog ERROR ("Error inserting data: altman_table - " +:+ err) [] false.

Definition insertion_exception_record (e : Exn) : LogRecord :=
  mkLog ERROR ("Error during data insertion: altman_table " +:+ str e) [] true.

(** Where an insert through [self] writes: the path of the store, its
    database and the table, when the query of [self] sits on an open
    connection to a writable store that holds [altman_table]. *)
Definition insert_target (self : DataManager.t) (p : Process)
  : option (string * Database * Table) :=
  match DataManager.query self with
  | None => None
  | Some q =>
      match queries p !! q with
      | None => None
      | Some st =>
          match database_of (q_connection st) p with
          | inl _ => None
          | inr (path, d) =>
              if writable p then
                match d !! "altman_table" with
                | None => None
                | Some t => Some (path, d, t)
                end
              else None
          end
      end
  end.

Definition row_count (path : string) (p : Process) : option nat :=
  length <$> read_table path "altman_table" p.

Definition example_store_path : string := "/home/user/altman.db".
Definition example_template_path : string := "/opt/altman/altman.db".

(** The process after start-up on an empty file system: the store was
    created by [initialize_database], then opened and given its table by
    [DataManager()]. *)
Definition started_process : Process :=
  snd (DataManager.new example_store_path
         (snd (initialize_database example_template_path example_store_path fresh_process))).

Definition started_manager : DataManager.t := DataManager.mk (Some 1%nat) (Some 0%nat).

(** The same process once the environment refuses writes (a read-only or
    full volume). *)
Definition readonly_process : Process :=
  mkProcess (fs started_process) false (connections started_process)
    (queries started_process) (log started_process) (qsettings started_process)
    (error_text started_process).

(** The row that holds the arguments of an insert themselves, each under
    the column of its name, with the id [id]. *)
Definition entry_row (id : Z) (altman_date altman_time : string)
    (altmans_sleep altmans_speech altmans_activity altmans_cheer
     altmans_confidence altmans_summary : Z) : Row :=
  mkRow id
    [("altman_date", StoredText altman_date); ("altman_time", StoredText altman_time);
     ("altmans_sleep", StoredInteger altmans_sleep);
     ("altmans_speech", StoredInteger altmans_speech);
     ("altmans_activity", StoredInteger altmans_activity);
     ("altmans_cheer", StoredInteger altmans_cheer);
     ("altmans_confidence", StoredInteger altmans_confidence);
     ("altmans_summary", StoredInteger altmans_summary)].

(** A log record written by the [except ValueError] clause of the insert. *)
Definition is_mismatch_record (r : LogRecord) : bool :=
  String.prefix "ValueError altman_table: " (message r).

(** Does [open()] on a new connection for [name] succeed. *)
Definition open_succeeds (name : string) (p : Process) : bool :=
  match fs p !! name with
  | Some (File _) => true
  | Some Directory => false
  | None => writable p
  end.

(** The process after [addDatabase], [setDatabaseName(name)] and [open()]. *)
Definition opened_process (name : string) (p : Process) : Process :=
  set_connections
    (λ cs, (QSqlDatabase.invalidate <$> cs)
             ++ [mkConnection "QSQLITE" true name (open_succeeds name p)])
    (match fs p !! name with
     | None => if writable p then set_fs (λ f, <[name := File (Sqlite ∅)]> f) p else p
     | Some _ => p
     end).

Definition open_error_record : LogRecord :=
  mkLog ERROR "Error: Unable to open database" [] false.

Definition create_error_record (err : string) : LogRecord :=
  mkLog ERROR "Error creating table: altman_table" [err] false.

(** The process in which [setup_tables] runs. *)
Definition constructed_process (name : string) (p : Process) : Process :=
  set_queries (λ qs, qs ++ [mkQuery (Some (length (connections p))) None [] ""])
    (set_log (λ l, l ++ (if open_succeeds name p then [] else [open_error_record])
                     ++ [mkLog INFO "DB INITIALIZING" [] false])
       (opened_process name p)).

(** A template store, with one entry in its table. *)
Definition template_content : Content :=
  Sqlite {["altman_table" :=
             mkTable [entry_row 1 "2023-12-31" "23:59" 1 2 3 4 5 15] 1]}.

(** A process whose file system holds only the template. *)
Definition process_with_template : Process :=
  mkProcess {[example_template_path := File template_content]} true [] [] [] ∅
    english_error_text.

Definition close_exception_record (e : Exn) : LogRecord :=
  mkLog ERROR ("Error closing database: " +:+ str e) [] true.

(** Two processes that differ in their logs at most. *)
Definition same_but_log (p p' : Process) : Prop :=
  fs p' = fs p ∧ writable p' = writable p ∧ connections p' = connections p
  ∧ queries p' = queries p ∧ qsettings p' = qsettings p
  ∧ error_text p' = error_text p.

(** The records a step has added to the log. *)
Definition new_log (before after : Process) : list LogRecord :=
  drop (length (log before)) (log after).

(** An empty file system that refuses writes. *)
Definition readonly_fresh_process : Process :=
  mkProcess ∅ false [] [] [] ∅ english_error_text.

(** The summary widget shows the sum of the current scale values, as far
    as its range lets it. *)
Definition summary_fresh (mw : MainWindow) : Prop :=
  value (altmans_summary mw)
  = qBound (minimum (altmans_summary mw)) (sumabitch mw) (maximum (altmans_summary mw)).

(** Two windows that agree on everything the summary logic looks at,
    except for the value the summary widget shows. *)
Definition window_frame (mw mw' : MainWindow) : Prop :=
  (∀ w, scale_widget w mw' = scale_widget w mw)
  ∧ connected mw' = connected mw
  ∧ minimum (altmans_summary mw') = minimum (altmans_summary mw)
  ∧ maximum (altmans_summary mw') = maximum (altmans_summary mw)
  ∧ enabled (altmans_summary mw') = enabled (altmans_summary mw)
  ∧ db_manager mw' = db_manager mw.

(** The outcome of a handler: it returns normally, and leaves the window
    and the connections of the process within the frame. *)
Definition within_frame (mw : MainWindow) (p : Process)
    (r : Res unit * (MainWindow * Process)) : Prop :=
  fst r = Ok tt
  ∧ window_frame mw (fst (snd r))
  ∧ connections (snd (snd r)) = connections p
  ∧ (summary_fresh mw → summary_fresh (fst (snd r))).

(** What stays of the window when a scale widget is given a new state. *)
Definition scale_change (w : Scale) (s : Slider) (mw mw' : MainWindow) : Prop :=
  scale_widget w mw' = s
  ∧ (∀ w', w' ≠ w → scale_widget w' mw' = scale_widget w' mw)
  ∧ connected mw' = connected mw
  ∧ minimum (altmans_summary mw') = minimum (altmans_summary mw)
  ∧ maximum (altmans_summary mw') = maximum (altmans_summary mw)
  ∧ enabled (altmans_summary mw') = enabled (altmans_summary mw)
  ∧ db_manager mw' = db_manager mw.

(** The invariants of the form. *)
Definition form_invariant (mw : MainWindow) : Prop :=
  (∀ w, minimum (scale_widget w mw) = 0 ∧ maximum (scale_widget w mw) = 5
        ∧ 0 ≤ value (scale_widget w mw) ≤ 5)
  ∧ enabled (altmans_summary mw) = false
  ∧ (∀ w, In (valueChanged w, slot_update_altmans_summary) (connected mw))
  ∧ summary_fresh mw.

(** A window as a form designer might leave it: scale widgets of range
    0..99 holding the given values, an enabled summary widget. *)
Definition designer_form (s sp a c cf : Z) : MainWindow :=
  mkMainWindow "2024-01-01" "10:00"
    (mkSlider s 0 99 true) (mkSlider sp 0 99 true) (mkSlider a 0 99 true)
    (mkSlider c 0 99 true) (mkSlider cf 0 99 true)
    (mkSlider 0 0 99 true) [] DataManager.blank "geometry" "state".

(** The window built over [designer_form 9 0 3 0 2] on an empty file
    system, after the user has set the first scale widget to 4. *)
Definition example_run : MainWindow * Process :=
  snd (handle (user_sets sleep 4)
         (snd (MainWindow__init__ example_store_path
                 (designer_form 9 0 3 0 2, fresh_process)))).

(** A table as a template may bring it: three rows that were not written
    in the order of their ids, and a counter that is behind them. *)
Definition table_with_rows : Table :=
  mkTable
    [entry_row 3 "2023-12-29" "08:00" 0 0 0 0 0 0;
     entry_row 7 "2023-12-30" "08:00" 1 0 0 0 0 1;
     entry_row 5 "2023-12-31" "08:00" 2 2 0 0 0 4] 2.

Definition process_with_rows : Process :=
  mkProcess {[example_store_path := File (Sqlite {["altman_table" := table_with_rows]})]}
    true [mkConnection "QSQLITE" true example_store_path true]
    [mkQuery (Some 0%nat) None [] ""] [] ∅ english_error_text.

(** A manager whose connection and query are the first of their process. *)
Definition opened_manager : DataManager.t := DataManager.mk (Some 0%nat) (Some 0%nat).

(** A store whose table has used the largest id. *)
Definition full_table : Table :=
  mkTable [entry_row max_rowid "2023-12-31" "23:59" 1 2 3 4 5 15] max_rowid.

Definition process_with_full_table : Process :=
  mkProcess {[example_store_path := File (Sqlite {["altman_table" := full_table]})]}
    true [mkConnection "QSQLITE" true example_store_path true]
    [mkQuery (Some 0%nat) None [] ""] [] ∅ english_error_text.

(** An integer that does not fit in 64 bits: 2^63 + 1. *)
Definition beyond_int64 : Z := 9223372036854775809.


(** A process whose store path holds a file that is no database. *)
Definition process_with_foreign_file : Process :=
  mkProcess {[example_store_path := File (NotADatabase "a letter")]} true [] [] [] ∅
    english_error_text.

(** The process of the next session: the files and the settings are those
    the last session left; connections, queries and log start empty. *)
Definition restarted (p : Process) : Process :=
  mkProcess (fs p) (writable p) [] [] [] (qsettings p) (error_text p).

(** The connections [MainWindow.__init__] makes, in the order it makes
    them. *)
Definition wired : list (Signal * Slot) :=
  [(currentChanged, slot_on_page_changed);
   (actionCommit_triggered, slot_add_altmans_data);
   (valueChanged sleep, slot_update_altmans_summary);
   (valueChanged speech, slot_update_altmans_summary);
   (valueChanged activity, slot_update_altmans_summary);
   (valueChanged cheer, slot_update_altmans_summary);
   (valueChanged confidence, slot_update_altmans_summary)].

(* ===================================================================== *)
(** ** The summary of the scale values *)
(* ===================================================================== *)

Lemma fold_left_add_shift (vs : list Z) (a : Z) :
  fold_left Z.add vs a = a + fold_left Z.add vs 0.
Proof.
  revert a. induction vs as [|v vs IH]; intros a; cbn [fold_left].
  - lia.
  - rewrite (IH (a + v)), (IH (0 + v)). lia.
Qed.

Lemma sum_filter_positive (vs : list Z) :
  sum (List.filter (λ v, 0 <? v) vs) = sum_of_positive vs.
Proof.
  unfold sum. induction vs as [|v vs IH]; simpl; [reflexivity|].
  destruct (0 <? v); simpl; [|exact IH].
  rewrite fold_left_add_shift, IH. reflexivity.
Qed.

Lemma sumabitch_spec (mw : MainWindow) :
  sumabitch mw = sum_of_positive (scale_values mw).
Proof. unfold sumabitch. apply sum_filter_positive. Qed.

Lemma sum_of_positive_nonneg (vs : list Z) :
  Forall (λ v, 0 ≤ v) vs → sum_of_positive vs = fold_right Z.add 0 vs.
Proof.
  induction 1 as [|v vs Hv _ IH]; simpl; [reflexivity|].
  destruct (Z.ltb_spec 0 v); lia.
Qed.

Lemma sum_of_positive_bounds (vs : list Z) (hi : Z) :
  Forall (λ v, 0 ≤ v ≤ hi) vs →
  0 ≤ sum_of_positive vs ≤ hi * Z.of_nat (length vs).
Proof.
  induction 1 as [|v vs Hv _ IH]; simpl length; simpl sum_of_positive; [lia|].
  destruct (0 <? v); nia.
Qed.

Lemma update_altmans_summary_run (mw : MainWindow) (p : Process) :
  update_altmans_summary (mw, p)
  = (Ok tt, (set_altmans_summary (setValue (sumabitch mw) (altmans_summary mw)) mw, p)).
Proof. reflexivity. Qed.

(** C1.  For scale values in 0..5 the summary the adapter computes is the
    sum of the values strictly above 0 (the zeros add nothing, so it is
    also the plain sum); [update_altmans_summary] returns normally and
    hands that number to the summary widget, which shows it whenever its
    range holds 0..25. *)
Theorem C1_summary_is_sum_of_positive_values (mw : MainWindow) (p : Process) :
  Forall (λ v, 0 ≤ v ≤ 5) (scale_values mw) →
  sumabitch mw = sum_of_positive (scale_values mw)
  ∧ sumabitch mw = fold_right Z.add 0 (scale_values mw)
  ∧ fst (update_altmans_summary (mw, p)) = Ok tt
  ∧ value (altmans_summary (fst (snd (update_altmans_summary (mw, p)))))
    = qBound (minimum (altmans_summary mw)) (sumabitch mw) (maximum (altmans_summary mw))
  ∧ (minimum (altmans_summary mw) ≤ 0 → 25 ≤ maximum (altmans_summary mw) →
     value (altmans_summary (fst (snd (update_altmans_summary (mw, p)))))
     = sum_of_positive (scale_values mw)).
Proof.
  intros Hrange.
  assert (Hb : 0 ≤ sum_of_positive (scale_values mw) ≤ 25).
  { apply (sum_of_positive_bounds _ 5) in Hrange.
    change (Z.of_nat (length (scale_values mw))) with 5 in Hrange. lia. }
  rewrite update_altmans_summary_run.
  cbn [fst snd altmans_summary set_altmans_summary value setValue].
  split; [apply sumabitch_spec|].
  split.
  { rewrite sumabitch_spec. apply sum_of_positive_nonneg.
    eapply Forall_impl; [exact Hrange|]. simpl. lia. }
  split; [reflexivity|]. split; [reflexivity|].
  intros Hlo Hhi. rewrite sumabitch_spec. unfold qBound. lia.
Qed.

(** The two examples of the specification: (5,0,3,0,2) gives 10 and
    (0,0,0,0,0) gives 0. *)
Lemma C1_witness :
  Forall (λ v, 0 ≤ v ≤ 5) (scale_values (example_form 5 0 3 0 2))
  ∧ sumabitch (example_form 5 0 3 0 2) = 10
  ∧ sumabitch (example_form 0 0 0 0 0) = 0
  ∧ value (altmans_summary
             (fst (snd (update_altmans_summary (example_form 5 0 3 0 2, fresh_process)))))
    = 10.
Proof.
  assert (H : Forall (λ v, 0 ≤ v ≤ 5) (scale_values (example_form 5 0 3 0 2))).
  { repeat constructor; simpl; lia. }
  split; [exact H|].
  destruct (C1_summary_is_sum_of_positive_values (example_form 5 0 3 0 2) fresh_process H)
    as (_ & _ & _ & _ & Hshown).
  split; [reflexivity|]. split; [reflexivity|].
  rewrite Hshown; [reflexivity | simpl; lia | simpl; lia].
Defined.

(* ===================================================================== *)
(** ** Connections and queries: bookkeeping lemmas *)
(* ===================================================================== *)

(** The operations of Qt are rewritten by the lemmas below, not unfolded
    in place. *)
#[local] Arguments QSqlDatabase.addDatabase : simpl never.
#[local] Arguments QSqlDatabase.setDatabaseName : simpl never.
#[local] Arguments QSqlDatabase.open : simpl never.
#[local] Arguments QSqlDatabase.close : simpl never.
#[local] Arguments QSqlDatabase.isOpen : simpl never.
#[local] Arguments QSqlQuery.new : simpl never.
#[local] Arguments QSqlQuery.exec_str : simpl never.
#[local] Arguments QSqlQuery.prepare : simpl never.
#[local] Arguments QSqlQuery.addBindValue : simpl never.
#[local] Arguments QSqlQuery.exec : simpl never.
#[local] Arguments QSqlQuery.lastError_text : simpl never.
#[local] Arguments sqlite_exec : simpl never.
#[local] Arguments sqlite_prepare : simpl never.
#[local] Arguments sql_parse : simpl never.

Lemma lookup_last_added {A} (l : list A) (x : A) (n : nat) :
  n = length l → (l ++ [x]) !! n = Some x.
Proof. intros ->. apply list_lookup_middle. reflexivity. Qed.

Lemma alter_last_added {A} (f : A → A) (l : list A) (x : A) (n : nat) :
  n = length l → alter f n (l ++ [x]) = l ++ [f x].
Proof.
  intros ->. rewrite alter_app_r_alt by lia.
  replace (length l - length l)%nat with 0%nat by lia. reflexivity.
Qed.

Lemma lookup_invalidated (cs : list Connection) (h : nat) (c : Connection) :
  (QSqlDatabase.invalidate <$> cs) !! h = Some c → valid c = false.
Proof.
  rewrite list_lookup_fmap. destruct (cs !! h); simpl; [|discriminate].
  intros [= <-]. reflexivity.
Qed.

Lemma addDatabase_run (p : Process) :
  QSqlDatabase.addDatabase "QSQLITE" p
  = (Ok (length (connections p)), set_connections (with_new_connection "") p).
Proof. reflexivity. Qed.

Lemma setDatabaseName_new (name : string) (p : Process) :
  QSqlDatabase.setDatabaseName (length (connections p)) name
    (set_connections (with_new_connection "") p)
  = (Ok tt, set_connections (with_new_connection name) p).
Proof.
  unfold QSqlDatabase.setDatabaseName, modify, set_connections, with_new_connection. simpl.
  rewrite alter_last_added by (rewrite length_fmap; reflexivity).
  reflexivity.
Qed.

Lemma with_new_connection_lookup (name : string) (cs : list Connection) :
  with_new_connection name cs !! length cs = Some (mkConnection "QSQLITE" true name false).
Proof.
  unfold with_new_connection. apply lookup_last_added. rewrite length_fmap. reflexivity.
Qed.

Lemma with_new_connection_set_opened (name : string) (b : bool) (cs : list Connection) :
  alter (λ c, mkConnection (driver c) (valid c) (databaseName c) b) (length cs)
    (with_new_connection name cs)
  = (QSqlDatabase.invalidate <$> cs) ++ [mkConnection "QSQLITE" true name b].
Proof.
  unfold with_new_connection.
  rewrite alter_last_added by (rewrite length_fmap; reflexivity). reflexivity.
Qed.

(** [db.open()] on the connection just added for [name]. *)
Lemma open_new_connection (name : string) (p : Process) :
  QSqlDatabase.open (length (connections p)) (set_connections (with_new_connection name) p)
  = match fs p !! name with
    | Some (File _) =>
        (Ok true,
         set_connections (λ cs, (QSqlDatabase.invalidate <$> cs)
                                  ++ [mkConnection "QSQLITE" true name true]) p)
    | Some Directory =>
        (Ok false, set_connections (with_new_connection name) p)
    | None =>
        if writable p
        then (Ok true,
              set_fs (λ f, <[name := File (Sqlite ∅)]> f)
                (set_connections (λ cs, (QSqlDatabase.invalidate <$> cs)
                                          ++ [mkConnection "QSQLITE" true name true]) p))
        else (Ok false, set_connections (with_new_connection name) p)
    end.
Proof.
  unfold QSqlDatabase.open, QSqlDatabase.set_opened, set_connections, set_fs. simpl.
  rewrite with_new_connection_lookup. simpl.
  rewrite !with_new_connection_set_opened.
  destruct (fs p !! name) as [[|c]|]; [reflexivity..|].
  destruct (writable p); reflexivity.
Qed.

(* ===================================================================== *)
(** ** initialize_database, branch by branch *)
(* ===================================================================== *)

Section initialize_database_cases.
Variables (db_path target_db_path : string) (p : Process).

Lemma initialize_database_exists (n : Node) :
  fs p !! target_db_path = Some n →
  initialize_database db_path target_db_path p = (Ok tt, p).
Proof.
  intros H. unfold initialize_database, try_except, bind, os_path_exists, gets.
  rewrite H. reflexivity.
Qed.

Lemma initialize_database_copies (c : Content) :
  fs p !! target_db_path = None →
  fs p !! db_path = Some (File c) →
  writable p = true →
  initialize_database db_path target_db_path p
  = (Ok tt, set_fs (λ f, <[target_db_path := File c]> f) p).
Proof.
  intros Ht Hs Hw.
  unfold initialize_database, try_except, bind, os_path_exists, gets, shutil_copy.
  rewrite Ht. simpl. rewrite Hs. simpl. rewrite Hs, Hw. reflexivity.
Qed.

Lemma initialize_database_copy_raises (n : Node) :
  fs p !! target_db_path = None →
  fs p !! db_path = Some n →
  n = Directory ∨ writable p = false →
  ∃ msg, initialize_database db_path target_db_path p
         = (Ok tt, set_log (λ l, l ++ [mkLog ERROR "Error: Unable to create database"
                                          [msg] false]) p).
Proof.
  intros Ht Hs Hfail.
  unfold initialize_database, try_except, bind, os_path_exists, gets, shutil_copy.
  rewrite Ht. simpl. rewrite Hs. simpl. rewrite Hs.
  destruct n as [|c].
  - eexists. reflexivity.
  - destruct Hfail as [|Hw]; [discriminate|]. rewrite Hw. eexists. reflexivity.
Qed.

Lemma initialize_database_creates :
  fs p !! target_db_path = None →
  fs p !! db_path = None →
  writable p = true →
  initialize_database db_path target_db_path p
  = (Ok tt,
     set_fs (λ f, <[target_db_path := File (Sqlite ∅)]> f)
       (set_connections (with_new_connection target_db_path) p)).
Proof.
  intros Ht Hs Hw.
  unfold initialize_database, try_except, bind, os_path_exists, gets.
  rewrite Ht. cbn. rewrite Hs. cbn.
  rewrite addDatabase_run. cbn.
  rewrite setDatabaseName_new. cbn.
  rewrite open_new_connection, Ht, Hw. cbn.
  unfold QSqlDatabase.close, QSqlDatabase.set_opened, modify, set_connections, set_fs,
    with_new_connection. simpl.
  rewrite alter_last_added by (rewrite length_fmap; reflexivity). reflexivity.
Qed.

Lemma initialize_database_cannot_create :
  fs p !! target_db_path = None →
  fs p !! db_path = None →
  writable p = false →
  initialize_database db_path target_db_path p
  = (Ok tt,
     set_log (λ l, l ++ [mkLog ERROR "Error: Unable to create database" [] false])
       (set_connections (with_new_connection target_db_path) p)).
Proof.
  intros Ht Hs Hw.
  unfold initialize_database, try_except, bind, os_path_exists, gets.
  rewrite Ht. cbn. rewrite Hs. cbn.
  rewrite addDatabase_run. cbn.
  rewrite setDatabaseName_new. cbn.
  rewrite open_new_connection, Ht, Hw. cbn.
  unfold QSqlDatabase.close, QSqlDatabase.set_opened, logger.error, modify,
    set_connections, set_log, with_new_connection. simpl.
  rewrite alter_last_added by (rewrite length_fmap; reflexivity). reflexivity.
Qed.

End initialize_database_cases.

(* ===================================================================== *)
(** ** The engine on the two statements *)
(* ===================================================================== *)

Lemma sql_parse_create :
  sql_parse create_altman_table_sql
  = Some (CreateTableIfNotExists "altman_table" altman_table_columns).
Proof. vm_compute. reflexivity. Qed.

Lemma sql_parse_insert :
  sql_parse insert_altman_table_sql = Some (InsertInto "altman_table" insert_columns 8).
Proof. vm_compute. reflexivity. Qed.

Lemma count_placeholders : count_char "?" insert_altman_table_sql = 8%nat.
Proof. vm_compute. reflexivity. Qed.

(** The engine changes nothing but the file system. *)
Lemma sqlite_exec_frame conn sql bound (p p' : Process) :
  sqlite_exec conn sql bound p = inr p' →
  writable p' = writable p ∧ connections p' = connections p ∧ queries p' = queries p
  ∧ log p' = log p ∧ qsettings p' = qsettings p.
Proof.
  unfold sqlite_exec. intros H.
  repeat match type of H with
         | match ?x with _ => _ end = _ => destruct x eqn:?; try discriminate
         | (if ?x then _ else _) = _ => destruct x eqn:?; try discriminate
         end;
    injection H as <-; cbn; repeat split; congruence.
Qed.

Lemma sqlite_exec_error_text conn sql bound (p p' : Process) :
  sqlite_exec conn sql bound p = inr p' → error_text p' = error_text p.
Proof.
  unfold sqlite_exec. intros H.
  repeat match type of H with
         | match ?x with _ => _ end = _ => destruct x eqn:?; try discriminate
         | (if ?x then _ else _) = _ => destruct x eqn:?; try discriminate
         end;
    injection H as <-; reflexivity.
Qed.

Lemma database_of_lookup (h : nat) (c : Connection) (p : Process) :
  connections p !! h = Some c →
  database_of (Some h) p
  = if negb (valid c && opened c) then inl DatabaseNotOpen
    else match fs p !! databaseName c with
         | Some (File content) =>
             match as_database content with
             | None => inl FileIsNotADatabase
             | Some d => inr (databaseName c, d)
             end
         | _ => inl UnableToOpenFile
         end.
Proof. intros Hc. unfold database_of. rewrite Hc. reflexivity. Qed.

(** The database a connection gives is the one in the file at its path,
    and the connection is open. *)
Lemma database_of_file (conn : option nat) (p : Process) (path : string) (d : Database) :
  database_of conn p = inr (path, d) →
  fs p !! path = Some (File (Sqlite d)) ∧ QSqlQuery.connection_open conn p = true.
Proof.
  unfold database_of, QSqlQuery.connection_open.
  destruct conn as [h|]; [|discriminate].
  destruct (connections p !! h) as [c|]; [|discriminate].
  destruct (valid c && opened c); [|discriminate]. cbn [negb].
  destruct (fs p !! databaseName c) as [[|[d0|x]]|] eqn:Hf; try discriminate.
  cbn [as_database]. intros [= <- <-]. split; [exact Hf|reflexivity].
Qed.

Lemma database_of_closed (conn : option nat) (p : Process) :
  QSqlQuery.connection_open conn p = false → ∃ err, database_of conn p = inl err.
Proof.
  unfold database_of, QSqlQuery.connection_open.
  destruct conn as [h|]; [|eexists; reflexivity].
  destruct (connections p !! h) as [c|]; [|eexists; reflexivity].
  intros ->. eexists. reflexivity.
Qed.

Lemma sqlite_prepare_open (conn : option nat) (sql : string) (p : Process) x :
  sqlite_prepare conn sql p = inr x → QSqlQuery.connection_open conn p = true.
Proof.
  unfold sqlite_prepare.
  destruct (database_of conn p) as [err|[path d]] eqn:Hd; [discriminate|].
  intros _. apply (database_of_file _ _ _ _ Hd).
Qed.

Lemma sqlite_exec_create (h : nat) (c : Connection) (p : Process) :
  connections p !! h = Some c →
  sqlite_exec (Some h) create_altman_table_sql [] p
  = if negb (valid c && opened c) then inl DatabaseNotOpen
    else match fs p !! databaseName c with
         | Some (File content) =>
             match as_database content with
             | None => inl FileIsNotADatabase
             | Some d =>
                 match d !! "altman_table" with
                 | Some _ => inr p
                 | None =>
                     if writable p
                     then inr (set_fs (λ f, <[databaseName c :=
                                 File (Sqlite (<["altman_table" := empty_altman_table]> d))]> f) p)
                     else inl ReadOnlyDatabase
                 end
             end
         | _ => inl UnableToOpenFile
         end.
Proof.
  intros Hc. unfold sqlite_exec, sqlite_prepare.
  rewrite (database_of_lookup h c p Hc), sql_parse_create.
  destruct (negb (valid c && opened c)); [reflexivity|].
  destruct (fs p !! databaseName c) as [[|content]|]; [reflexivity| |reflexivity].
  destruct (as_database content) as [d|]; [|reflexivity].
  cbn [sql_compile parameters length Nat.eqb negb sql_step].
  destruct (d !! "altman_table"); [reflexivity|].
  destruct (writable p); reflexivity.
Qed.

(** The insert statement, prepared and run with eight values, in terms of
    the database behind the connection. *)
Lemma prepared_exec_insert (conn : option nat) (bound : list Value) (p : Process) :
  length bound = 8%nat →
  prepared_exec conn insert_altman_table_sql bound p
  = match database_of conn p with
    | inl _ => inl ParameterCountMismatch
    | inr (path, d) =>
        match d !! "altman_table" with
        | None => inl ParameterCountMismatch
        | Some t =>
            if negb (writable p) then inl ReadOnlyDatabase
            else if table_full t then inl DatabaseFull
            else inr (set_fs (λ f, <[path :=
                        File (Sqlite (<["altman_table" := with_inserted_row t bound]> d))]> f) p)
        end
    end.
Proof.
  intros Hlen. unfold prepared_exec, sqlite_exec, sqlite_prepare.
  rewrite sql_parse_insert.
  destruct bound as [|v bound]; [discriminate|].
  destruct (database_of conn p) as [err|[path d]]; [reflexivity|].
  cbn [sql_compile]. destruct (d !! "altman_table") as [t|] eqn:Ht; [|reflexivity].
  cbn [parameters]. rewrite Hlen. cbn [Nat.eqb negb sql_step]. rewrite Ht.
  destruct (writable p); [|reflexivity]. cbn [negb].
  destruct (table_full t); reflexivity.
Qed.

(* ===================================================================== *)
(** ** insert_into_altman_table, step by step *)
(* ===================================================================== *)

Lemma alter_alter {A} (f g : A → A) (i : nat) (l : list A) :
  alter f i (alter g i l) = alter (λ x, f (g x)) i l.
Proof.
  revert i. induction l as [|x l IH]; intros [|i]; simpl; try reflexivity.
  f_equal. apply IH.
Qed.

Lemma alter_pointwise {A} (f g : A → A) (i : nat) (l : list A) :
  (∀ x, f x = g x) → alter f i l = alter g i l.
Proof.
  intros H. revert i. induction l as [|x l IH]; intros [|i]; simpl; try reflexivity.
  - rewrite H. reflexivity.
  - f_equal. apply IH.
Qed.

Lemma prepared_bound_query (sql : string) (p : Process) (st : Query) :
  QSqlQuery.prepared sql p st = bound_query sql [] p st.
Proof.
  unfold bound_query, QSqlQuery.prepared.
  destruct (sqlite_prepare (q_connection st) sql p) as [err|x]; reflexivity.
Qed.

Lemma sqlite_exec_set_queries (F : list Query → list Query) conn sql bound (p : Process) :
  sqlite_exec conn sql bound (set_queries F p)
  = match sqlite_exec conn sql bound p with
    | inl err => inl err
    | inr p' => inr (set_queries F p')
    end.
Proof.
  unfold sqlite_exec, sqlite_prepare, database_of. cbn [connections fs writable set_queries].
  repeat match goal with
         | |- context [match ?x with _ => _ end] =>
             lazymatch x with
             | context [match _ with _ => _ end] => fail
             | _ => destruct x
             end
         end; reflexivity.
Qed.

Section insert_steps.
Variables (self : DataManager.t) (q : nat).
Hypothesis Hq : DataManager.query self = Some q.

Lemma addBindValue_step (sql : string) (acc : list Value) (v : Value) (p0 p : Process) :
  (q' <- DataManager.self_query ;; on_process (QSqlQuery.addBindValue q' v))
    (self, set_queries (alter (bound_query sql acc p0) q) p)
  = (Ok tt, (self, set_queries (alter (bound_query sql (acc ++ [v]) p0) q) p)).
Proof.
  unfold bind, DataManager.self_query, on_process, QSqlQuery.addBindValue, modify,
    set_queries.
  cbn [fst snd]. rewrite Hq.
  cbn [fst snd queries fs writable connections log qsettings error_text].
  rewrite alter_alter. reflexivity.
Qed.

Lemma bind_loop_run (sql : string) (bvs acc : list Value) (p0 p : Process) :
  for_each bvs
    (λ value, q' <- DataManager.self_query ;;
              on_process (QSqlQuery.addBindValue q' value))
    (self, set_queries (alter (bound_query sql acc p0) q) p)
  = (Ok tt, (self, set_queries (alter (bound_query sql (acc ++ bvs) p0) q) p)).
Proof.
  revert acc. induction bvs as [|v bvs IH]; intros acc.
  - rewrite app_nil_r. reflexivity.
  - cbn [for_each]. unfold bind at 1. cbv beta.
    rewrite addBindValue_step.
    specialize (IH (acc ++ [v])). rewrite <- app_assoc in IH.
    exact IH.
Qed.

Lemma prepare_and_bind_run (sql : string) (bvs : list Value) (p : Process) :
  DataManager.prepare_and_bind sql bvs (self, p)
  = (Ok tt, (self, set_queries (alter (bound_query sql bvs p) q) p)).
Proof.
  unfold DataManager.prepare_and_bind. unfold bind at 1.
  unfold DataManager.self_query at 1. cbn [fst snd]. rewrite Hq.
  unfold bind at 1. unfold on_process at 1, QSqlQuery.prepare.
  cbn [fst snd].
  unfold set_queries at 1.
  rewrite (alter_pointwise _ _ q (queries p) (prepared_bound_query sql p)).
  apply (bind_loop_run sql bvs [] p p).
Qed.

(** What [exec()] runs on the query that was prepared and bound in [p]. *)
Lemma exec_outcome_bound (sql : string) (bvs : list Value) (p : Process) (st : Query) :
  QSqlQuery.exec_outcome (bound_query sql bvs p st)
    (set_queries (alter (bound_query sql bvs p) q) p)
  = match prepared_exec (q_connection st) sql bvs p with
    | inl err => inl err
    | inr p' => inr (set_queries (alter (bound_query sql bvs p) q) p')
    end.
Proof.
  unfold QSqlQuery.exec_outcome, prepared_exec.
  change (q_connection (bound_query sql bvs p st)) with (q_connection st).
  change (q_bound (bound_query sql bvs p st)) with bvs.
  change (q_prepared (bound_query sql bvs p st))
    with (q_prepared (QSqlQuery.prepared sql p st)).
  change (QSqlQuery.connection_open (q_connection st)
            (set_queries (alter (bound_query sql bvs p) q) p))
    with (QSqlQuery.connection_open (q_connection st) p).
  unfold QSqlQuery.prepared.
  destruct (sqlite_prepare (q_connection st) sql p) as [err|x] eqn:Hprep.
  - cbn [q_prepared]. destruct (QSqlQuery.connection_open (q_connection st) p); reflexivity.
  - cbn [q_prepared]. rewrite (sqlite_prepare_open _ _ _ _ Hprep).
    apply sqlite_exec_set_queries.
Qed.

Lemma exec_and_report_run (sql : string) (bvs : list Value) (p : Process) :
  DataManager.exec_and_report (self, set_queries (alter (bound_query sql bvs p) q) p)
  = match queries p !! q with
    | None =>
        (Ok tt, (self, set_log (λ l, l ++ [insert_error_record ""])
                         (set_queries (alter (bound_query sql bvs p) q) p)))
    | Some st =>
        match prepared_exec (q_connection st) sql bvs p with
        | inl err =>
            (Ok tt, (self, set_log (λ l, l ++ [insert_error_record
                                                 (error_text p in_exec err)])
                             (set_queries (alter (with_lastError (error_text p in_exec err)) q)
                                (set_queries (alter (bound_query sql bvs p) q) p))))
        | inr p' =>
            (Ok tt, (self, set_queries (alter (with_lastError "") q)
                             (set_queries (alter (bound_query sql bvs p) q) p')))
        end
    end.
Proof.
  unfold DataManager.exec_and_report, bind, DataManager.self_query, on_process.
  cbn [fst snd]. rewrite Hq. cbn [fst snd].
  unfold QSqlQuery.exec, QSqlQuery.finish, QSqlQuery.lastError_text, gets.
  cbn [fst snd queries set_queries]. rewrite !list_lookup_alter_eq.
  destruct (queries p !! q) as [st|] eqn:Hst; cbn [fmap option_fmap option_map].
  - pose proof (exec_outcome_bound sql bvs p st) as Hout.
    cbn [set_queries] in Hout. rewrite Hout. clear Hout.
    destruct (prepared_exec (q_connection st) sql bvs p) as [err|p'] eqn:Hexec.
    + cbn [negb fst snd]. rewrite Hq. cbn [fst snd queries set_queries error_text].
      rewrite !list_lookup_alter_eq, Hst. reflexivity.
    + reflexivity.
  - cbn [negb fst snd]. rewrite Hq. cbn [fst snd queries set_queries].
    rewrite !list_lookup_alter_eq, Hst. reflexivity.
Qed.

Lemma insert_try_run (sql : string) (bvs : list Value) (p : Process) :
  DataManager.insert_try sql bvs (self, p)
  = if negb (count_char "?" sql =? length bvs)%nat
    then (Ok tt, (self, set_log (λ l, l ++ [mismatch_record sql bvs])
                          (set_queries (alter (bound_query sql bvs p) q) p)))
    else DataManager.exec_and_report (self, set_queries (alter (bound_query sql bvs p) q) p).
Proof.
  unfold DataManager.insert_try, try_except. unfold bind at 1.
  rewrite prepare_and_bind_run.
  unfold bind at 1. unfold DataManager.check_bind_count.
  destruct (negb (count_char "?" sql =? length bvs)%nat).
  - reflexivity.
  - cbn [ret]. rewrite exec_and_report_run.
    destruct (queries p !! q) as [st|]; [|reflexivity].
    destruct (prepared_exec (q_connection st) sql bvs p); reflexivity.
Qed.

End insert_steps.

Lemma insert_try_no_query (self : DataManager.t) (sql : string) (bvs : list Value)
    (p : Process) :
  DataManager.query self = None →
  DataManager.insert_try sql bvs (self, p)
  = (Ok tt, (self, set_log (λ l, l ++ [insertion_exception_record
               (AttributeError "'DataManager' object has no attribute 'query'")]) p)).
Proof.
  intros Hq.
  unfold DataManager.insert_try, try_except, DataManager.prepare_and_bind, bind,
    DataManager.self_query.
  cbn [fst snd]. rewrite Hq. reflexivity.
Qed.

(* ===================================================================== *)
(** ** When an insert can write *)
(* ===================================================================== *)

Lemma prepared_exec_frame conn sql bound (p p' : Process) :
  prepared_exec conn sql bound p = inr p' →
  writable p' = writable p ∧ connections p' = connections p ∧ queries p' = queries p
  ∧ log p' = log p ∧ qsettings p' = qsettings p.
Proof.
  unfold prepared_exec. destruct (sqlite_prepare conn sql p); [discriminate|].
  apply sqlite_exec_frame.
Qed.


Section insert_outcomes.
Variables (self : DataManager.t) (p : Process).
Variables (altman_date altman_time : string).
Variables (altmans_sleep altmans_speech altmans_activity altmans_cheer
           altmans_confidence altmans_summary : Z).

Let bvs : list Value :=
  DataManager.bind_values_of altman_date altman_time altmans_sleep altmans_speech
    altmans_activity altmans_cheer altmans_confidence altmans_summary.

Let call : Res unit * (DataManager.t * Process) :=
  DataManager.insert_into_altman_table altman_date altman_time altmans_sleep
    altmans_speech altmans_activity altmans_cheer altmans_confidence altmans_summary
    (self, p).

(** The call, in terms of what the prepared statement does. *)
Lemma insert_call_run (q : nat) (st : Query) :
  DataManager.query self = Some q →
  queries p !! q = Some st →
  call
  = match prepared_exec (q_connection st) insert_altman_table_sql bvs p with
    | inl err =>
        (Ok tt, (self, set_log (λ l, l ++ [insert_error_record (error_text p in_exec err)])
                         (set_queries (alter (with_lastError (error_text p in_exec err)) q)
                            (set_queries (alter (bound_query insert_altman_table_sql bvs p) q)
                               p))))
    | inr p' =>
        (Ok tt, (self, set_queries (alter (with_lastError "") q)
                         (set_queries (alter (bound_query insert_altman_table_sql bvs p) q)
                            p')))
    end.
Proof.
  intros Hq Hst. subst call. unfold DataManager.insert_into_altman_table. cbv zeta.
  rewrite (insert_try_run self q Hq), count_placeholders.
  cbn [negb Nat.eqb length DataManager.bind_values_of].
  change (DataManager.bind_values_of altman_date altman_time altmans_sleep altmans_speech
            altmans_activity altmans_cheer altmans_confidence altmans_summary) with bvs.
  rewrite (exec_and_report_run self q Hq), Hst. reflexivity.
Qed.

Lemma insert_target_database (path : string) (d : Database) (t : Table) :
  insert_target self p = Some (path, d, t) →
  ∃ q st, DataManager.query self = Some q ∧ queries p !! q = Some st
          ∧ database_of (q_connection st) p = inr (path, d)
          ∧ writable p = true ∧ d !! "altman_table" = Some t.
Proof.
  unfold insert_target. intros H.
  destruct (DataManager.query self) as [q|] eqn:Hq; [|discriminate].
  destruct (queries p !! q) as [st|] eqn:Hst; [|discriminate].
  destruct (database_of (q_connection st) p) as [err|[path0 d0]] eqn:Hd; [discriminate|].
  destruct (writable p) eqn:Hw; [|discriminate].
  destruct (d0 !! "altman_table") as [t0|] eqn:Ht; [|discriminate].
  injection H as <- <- <-. exists q, st. repeat split; assumption.
Qed.

Lemma insert_when_ready (path : string) (d : Database) (t : Table) :
  insert_target self p = Some (path, d, t) →
  table_full t = false →
  ∃ p', call = (Ok tt, (self, p'))
        ∧ fs p' = <[path := File (Sqlite (<["altman_table" := with_inserted_row t bvs]> d))]> (fs p)
        ∧ fs p !! path = Some (File (Sqlite d)) ∧ d !! "altman_table" = Some t
        ∧ log p' = log p ∧ connections p' = connections p.
Proof.
  intros H Hroom.
  destruct (insert_target_database path d t H) as (q & st & Hq & Hst & Hd & Hw & Ht).
  rewrite (insert_call_run q st Hq Hst).
  rewrite prepared_exec_insert by reflexivity. rewrite Hd, Ht, Hw, Hroom. cbn [negb].
  eexists. split; [reflexivity|]. cbn.
  destruct (database_of_file _ _ _ _ Hd) as (Hf & _).
  repeat split; assumption.
Qed.

(** A table that has used the largest id takes no further row. *)
Lemma insert_when_full (path : string) (d : Database) (t : Table) :
  insert_target self p = Some (path, d, t) →
  table_full t = true →
  ∃ p', call = (Ok tt, (self, p'))
        ∧ fs p' = fs p
        ∧ log p' = log p ++ [insert_error_record (error_text p in_exec DatabaseFull)]
        ∧ connections p' = connections p.
Proof.
  intros H Hfull.
  destruct (insert_target_database path d t H) as (q & st & Hq & Hst & Hd & Hw & Ht).
  rewrite (insert_call_run q st Hq Hst).
  rewrite prepared_exec_insert by reflexivity. rewrite Hd, Ht, Hw, Hfull. cbn [negb].
  eexists. split; [reflexivity|]. cbn. repeat split; reflexivity.
Qed.

Lemma insert_when_not_ready :
  insert_target self p = None →
  ∃ p' rec, call = (Ok tt, (self, p'))
            ∧ fs p' = fs p ∧ log p' = log p ++ [rec] ∧ level rec = ERROR
            ∧ connections p' = connections p.
Proof.
  unfold insert_target. intros H.
  destruct (DataManager.query self) as [q|] eqn:Hq.
  2:{ subst call. unfold DataManager.insert_into_altman_table. cbv zeta.
      rewrite insert_try_no_query by exact Hq. do 2 eexists.
      split; [reflexivity|]. cbn. repeat split; reflexivity. }
  destruct (queries p !! q) as [st|] eqn:Hst.
  2:{ subst call. unfold DataManager.insert_into_altman_table. cbv zeta.
      rewrite (insert_try_run self q Hq), count_placeholders.
      cbn [negb Nat.eqb length DataManager.bind_values_of].
      rewrite (exec_and_report_run self q Hq), Hst.
      do 2 eexists. split; [reflexivity|]. cbn. repeat split; reflexivity. }
  rewrite (insert_call_run q st Hq Hst).
  assert (Hfail : ∃ err, prepared_exec (q_connection st) insert_altman_table_sql bvs p
                         = inl err).
  { rewrite prepared_exec_insert by reflexivity.
    destruct (database_of (q_connection st) p) as [err|[path d]]; [eexists; reflexivity|].
    destruct (writable p).
    - destruct (d !! "altman_table"); [discriminate|eexists; reflexivity].
    - destruct (d !! "altman_table"); eexists; reflexivity. }
  destruct Hfail as [err ->].
  do 2 eexists. split; [reflexivity|]. cbn. repeat split; reflexivity.
Qed.

End insert_outcomes.

(** Sorting by id leaves a row whose id is above the others at the end. *)
Lemma insert_by_id_last (r x : Row) (l : list Row) :
  row_id r < row_id x → insert_by_id r (l ++ [x]) = insert_by_id r l ++ [x].
Proof.
  intros Hlt. induction l as [|y l IH]; cbn [insert_by_id app].
  - destruct (Z.ltb_spec (row_id r) (row_id x)); [reflexivity|lia].
  - destruct (row_id r <? row_id y); [reflexivity|]. rewrite IH. reflexivity.
Qed.

Lemma by_id_last (l : list Row) (x : Row) :
  (∀ r, r ∈ l → row_id r < row_id x) → by_id (l ++ [x]) = by_id l ++ [x].
Proof.
  unfold by_id. induction l as [|a l IH]; intros Hall; cbn [foldr app].
  - reflexivity.
  - rewrite IH by (intros r Hr; apply Hall; apply elem_of_cons; right; exact Hr).
    apply insert_by_id_last. apply Hall. apply elem_of_cons. left. reflexivity.
Qed.

Lemma largest_id_bound (l : list Row) (r : Row) :
  r ∈ l → ∃ m, largest_id l = Some m ∧ row_id r ≤ m.
Proof.
  induction l as [|a l IH]; intros Hin.
  - apply elem_of_nil in Hin. destruct Hin.
  - cbn [largest_id foldr]. fold (largest_id l).
    apply elem_of_cons in Hin. destruct Hin as [->|Hin].
    + destruct (largest_id l) as [k|]; eexists; (split; [reflexivity|lia]).
    + destruct (IH Hin) as (m & -> & Hm). eexists. split; [reflexivity|lia].
Qed.

Lemma next_id_above (t : Table) (r : Row) :
  r ∈ entries t → row_id r < next_id t.
Proof.
  intros Hin. destruct (largest_id_bound _ _ Hin) as (m & Hm & Hle).
  unfold next_id. rewrite Hm. lia.
Qed.

Lemma rows_with_inserted_row (t : Table) (bound : list Value) :
  rows (with_inserted_row t bound) = rows t ++ [inserted_row t bound].
Proof.
  unfold rows, with_inserted_row. cbn [entries].
  apply by_id_last. intros r Hr. apply next_id_above, Hr.
Qed.

(** What a full-table read returns before and after an insert that can
    write. *)
Lemma insert_reads_back
    (self : DataManager.t) (p : Process) (altman_date altman_time : string)
    (altmans_sleep altmans_speech altmans_activity altmans_cheer
     altmans_confidence altmans_summary : Z) (path : string) (d : Database) (t : Table) :
  insert_target self p = Some (path, d, t) →
  table_full t = false →
  read_table path "altman_table" p = Some (rows t)
  ∧ read_table path "altman_table"
      (snd (snd (DataManager.insert_into_altman_table altman_date altman_time
                   altmans_sleep altmans_speech altmans_activity altmans_cheer
                   altmans_confidence altmans_summary (self, p))))
    = Some (rows t ++ [inserted_row t
                         (DataManager.bind_values_of altman_date altman_time altmans_sleep
                            altmans_speech altmans_activity altmans_cheer
                            altmans_confidence altmans_summary)])
  ∧ log (snd (snd (DataManager.insert_into_altman_table altman_date altman_time
                     altmans_sleep altmans_speech altmans_activity altmans_cheer
                     altmans_confidence altmans_summary (self, p))))
    = log p.
Proof.
  intros Ht Hroom.
  destruct (insert_when_ready self p altman_date altman_time altmans_sleep
              altmans_speech altmans_activity altmans_cheer altmans_confidence
              altmans_summary path d t Ht Hroom)
    as (p' & -> & Hfs & Hbefore & Htab & Hlog & _).
  cbn [fst snd]. unfold read_table.
  rewrite Hfs, Hbefore, lookup_insert_eq. cbn [as_database].
  rewrite Htab, lookup_insert_eq. cbn [fmap option_fmap option_map].
  rewrite rows_with_inserted_row.
  repeat split; assumption.
Qed.

(** Integers of 64 bits are stored as they are bound. *)
Lemma inserted_row_exact (t : Table) (altman_date altman_time : string)
    (altmans_sleep altmans_speech altmans_activity altmans_cheer
     altmans_confidence altmans_summary : Z) :
  Forall (λ z, int64 z = true)
    [altmans_sleep; altmans_speech; altmans_activity; altmans_cheer;
     altmans_confidence; altmans_summary] →
  inserted_row t (DataManager.bind_values_of altman_date altman_time altmans_sleep
                    altmans_speech altmans_activity altmans_cheer altmans_confidence
                    altmans_summary)
  = entry_row (next_id t) altman_date altman_time altmans_sleep altmans_speech
      altmans_activity altmans_cheer altmans_confidence altmans_summary.
Proof.
  intros H. repeat (apply Forall_cons in H; destruct H as [? H]).
  unfold inserted_row, entry_row, store_cells, insert_columns, DataManager.bind_values_of.
  cbn [zip_with fst snd store].
  repeat match goal with Hx : int64 _ = true |- _ => rewrite Hx; clear Hx end.
  reflexivity.
Qed.

(* ===================================================================== *)
(** ** Claims on insert_into_altman_table *)
(* ===================================================================== *)

(** C2, as stated, fails: eight values for eight placeholders do not make
    the insert succeed.  On a store that has become read-only the call
    returns and the table has as many rows as before. *)
Lemma C2_counterexample :
  length (DataManager.bind_values_of "2024-01-01" "10:00" 5 0 3 0 2 10)
  = count_char "?" insert_altman_table_sql
  ∧ row_count example_store_path readonly_process = Some 0%nat
  ∧ row_count example_store_path
      (snd (snd (DataManager.insert_into_altman_table "2024-01-01" "10:00" 5 0 3 0 2 10
                   (started_manager, readonly_process))))
    = Some 0%nat.
Proof. vm_compute. repeat split; reflexivity. Qed.

(** C2, amended.  A call binds eight values for the eight placeholders,
    so that no call has a mismatch, and returns normally.  It adds exactly
    one row, as the last row of the table, when the query of the manager
    is on an open connection to a writable store that holds altman_table
    ([insert_target]) and the table has not used the largest 64-bit id.
    In every other state it writes nothing and logs one error: when the
    ids of the table are used up, and when the store is not ready. *)
Theorem C2_insert_adds_one_row_when_store_ready
    (self : DataManager.t) (p : Process) (altman_date altman_time : string)
    (altmans_sleep altmans_speech altmans_activity altmans_cheer
     altmans_confidence altmans_summary : Z) :
  let bind_values :=
    DataManager.bind_values_of altman_date altman_time altmans_sleep altmans_speech
      altmans_activity altmans_cheer altmans_confidence altmans_summary in
  let after :=
    DataManager.insert_into_altman_table altman_date altman_time altmans_sleep
      altmans_speech altmans_activity altmans_cheer altmans_confidence altmans_summary
      (self, p) in
  length bind_values = 8%nat
  ∧ count_char "?" insert_altman_table_sql = 8%nat
  ∧ fst after = Ok tt
  ∧ (∀ path d t, insert_target self p = Some (path, d, t) → table_full t = false →
       read_table path "altman_table" p = Some (rows t)
       ∧ read_table path "altman_table" (snd (snd after))
         = Some (rows t ++ [inserted_row t bind_values])
       ∧ row_count path (snd (snd after)) = Some (S (length (rows t)))
       ∧ log (snd (snd after)) = log p)
  ∧ (∀ path d t, insert_target self p = Some (path, d, t) → table_full t = true →
       fs (snd (snd after)) = fs p
       ∧ ∃ rec, log (snd (snd after)) = log p ++ [rec] ∧ level rec = ERROR)
  ∧ (insert_target self p = None →
       fs (snd (snd after)) = fs p
       ∧ ∃ rec, log (snd (snd after)) = log p ++ [rec] ∧ level rec = ERROR).
Proof.
  cbv zeta.
  split; [reflexivity|]. split; [apply count_placeholders|].
  split.
  { destruct (insert_target self p) as [[[path d] t]|] eqn:Ht.
    - destruct (table_full t) eqn:Hfull.
      + destruct (insert_when_full self p altman_date altman_time altmans_sleep
                    altmans_speech altmans_activity altmans_cheer altmans_confidence
                    altmans_summary path d t Ht Hfull) as (p' & -> & _). reflexivity.
      + destruct (insert_when_ready self p altman_date altman_time altmans_sleep
                    altmans_speech altmans_activity altmans_cheer altmans_confidence
                    altmans_summary path d t Ht Hfull) as (p' & -> & _). reflexivity.
    - destruct (insert_when_not_ready self p altman_date altman_time altmans_sleep
                  altmans_speech altmans_activity altmans_cheer altmans_confidence
                  altmans_summary Ht) as (p' & rec & -> & _). reflexivity. }
  split.
  { intros path d t Ht Hroom.
    destruct (insert_reads_back self p altman_date altman_time altmans_sleep
                altmans_speech altmans_activity altmans_cheer altmans_confidence
                altmans_summary path d t Ht Hroom) as (Hbefore & Hafter & Hlog).
    unfold row_count. rewrite Hafter. cbn [fmap option_fmap option_map].
    repeat split; try assumption.
    rewrite length_app. cbn. f_equal. f_equal. lia. }
  split.
  { intros path d t Ht Hfull.
    destruct (insert_when_full self p altman_date altman_time altmans_sleep
                altmans_speech altmans_activity altmans_cheer altmans_confidence
                altmans_summary path d t Ht Hfull) as (p' & -> & Hfs & Hlog & _).
    cbn [fst snd]. split; [assumption|]. eexists. split; [exact Hlog|reflexivity]. }
  intros Ht.
  destruct (insert_when_not_ready self p altman_date altman_time altmans_sleep
              altmans_speech altmans_activity altmans_cheer altmans_confidence
              altmans_summary Ht) as (p' & rec & -> & Hfs & Hlog & Hlevel & _).
  cbn [fst snd]. split; [assumption|]. exists rec. split; assumption.
Qed.

Lemma C2_witness :
  insert_target started_manager started_process
  = Some (example_store_path, {["altman_table" := empty_altman_table]}, empty_altman_table)
  ∧ table_full empty_altman_table = false
  ∧ row_count example_store_path started_process = Some 0%nat
  ∧ row_count example_store_path
      (snd (snd (DataManager.insert_into_altman_table "2024-01-01" "10:00" 5 0 3 0 2 10
                   (started_manager, started_process))))
    = Some 1%nat
  ∧ insert_target opened_manager process_with_full_table
    = Some (example_store_path, {["altman_table" := full_table]}, full_table)
  ∧ table_full full_table = true
  ∧ fs (snd (snd (DataManager.insert_into_altman_table "2024-01-01" "10:00" 5 0 3 0 2 10
                    (opened_manager, process_with_full_table))))
    = fs process_with_full_table
  ∧ insert_target started_manager readonly_process = None
  ∧ fs (snd (snd (DataManager.insert_into_altman_table "2024-01-01" "10:00" 5 0 3 0 2 10
                    (started_manager, readonly_process))))
    = fs readonly_process.
Proof.
  assert (Hready : insert_target started_manager started_process
                   = Some (example_store_path, {["altman_table" := empty_altman_table]},
                           empty_altman_table)) by (vm_compute; reflexivity).
  assert (Hroom : table_full empty_altman_table = false) by reflexivity.
  assert (Hthere : insert_target opened_manager process_with_full_table
                   = Some (example_store_path, {["altman_table" := full_table]}, full_table))
    by (vm_compute; reflexivity).
  assert (Hfull : table_full full_table = true) by reflexivity.
  assert (Hnot : insert_target started_manager readonly_process = None)
    by (vm_compute; reflexivity).
  destruct (C2_insert_adds_one_row_when_store_ready started_manager started_process
              "2024-01-01" "10:00" 5 0 3 0 2 10)
    as (_ & _ & _ & Hadd & _ & _).
  destruct (C2_insert_adds_one_row_when_store_ready opened_manager process_with_full_table
              "2024-01-01" "10:00" 5 0 3 0 2 10)
    as (_ & _ & _ & _ & Hstop & _).
  destruct (C2_insert_adds_one_row_when_store_ready started_manager readonly_process
              "2024-01-01" "10:00" 5 0 3 0 2 10)
    as (_ & _ & _ & _ & _ & Hkeep).
  destruct (Hadd _ _ _ Hready Hroom) as (_ & _ & Hcount & _).
  destruct (Hstop _ _ _ Hthere Hfull) as (Hfs0 & _).
  destruct (Hkeep Hnot) as (Hfs & _).
  split; [exact Hready|]. split; [exact Hroom|]. split; [vm_compute; reflexivity|].
  split; [exact Hcount|]. split; [exact Hthere|]. split; [exact Hfull|].
  split; [exact Hfs0|]. split; [exact Hnot|exact Hfs].
Defined.

(** C3, as stated, fails: a call can succeed and the row read back not
    hold the argument.  SQLite's integers have 64 bits; a summary of
    2^63 + 1 is inserted without an error, and the cell read back is not
    that integer. *)
Lemma C3_counterexample :
  log (snd (snd (DataManager.insert_into_altman_table "2024-01-01" "10:00" 5 0 3 0 2
                   beyond_int64 (started_manager, started_process))))
  = log started_process
  ∧ read_table example_store_path "altman_table"
      (snd (snd (DataManager.insert_into_altman_table "2024-01-01" "10:00" 5 0 3 0 2
                   beyond_int64 (started_manager, started_process))))
    = Some [mkRow 1
              [("altman_date", StoredText "2024-01-01"); ("altman_time", StoredText "10:00");
               ("altmans_sleep", StoredInteger 5); ("altmans_speech", StoredInteger 0);
               ("altmans_activity", StoredInteger 3); ("altmans_cheer", StoredInteger 0);
               ("altmans_confidence", StoredInteger 2);
               ("altmans_summary", Converted INTEGER (VInt beyond_int64))]]
  ∧ Converted INTEGER (VInt beyond_int64) ≠ StoredInteger beyond_int64.
Proof.
  split; [vm_compute; reflexivity|]. split; [vm_compute; reflexivity|]. discriminate.
Qed.

(** C3, amended.  For integers of 64 bits, as the widgets of the form give
    them, on a table of the layout [setup_altman_table] declares: a call
    that succeeds (it logs nothing) leaves, for the store it wrote to, a
    full-table read that is the read before it followed by one row, and
    that row holds each argument under the column of its name. *)
Theorem C3_insert_round_trip
    (self : DataManager.t) (p : Process) (altman_date altman_time : string)
    (altmans_sleep altmans_speech altmans_activity altmans_cheer
     altmans_confidence altmans_summary : Z) :
  let after :=
    DataManager.insert_into_altman_table altman_date altman_time altmans_sleep
      altmans_speech altmans_activity altmans_cheer altmans_confidence altmans_summary
      (self, p) in
  Forall (λ z, int64 z = true)
    [altmans_sleep; altmans_speech; altmans_activity; altmans_cheer;
     altmans_confidence; altmans_summary] →
  log (snd (snd after)) = log p →
  ∃ path before id,
    read_table path "altman_table" p = Some before
    ∧ read_table path "altman_table" (snd (snd after))
      = Some (before ++ [entry_row id altman_date altman_time altmans_sleep altmans_speech
                           altmans_activity altmans_cheer altmans_confidence
                           altmans_summary]).
Proof.
  cbv zeta. intros Hints Hlog.
  destruct (insert_target self p) as [[[path d] t]|] eqn:Ht.
  - destruct (table_full t) eqn:Hfull.
    + destruct (insert_when_full self p altman_date altman_time altmans_sleep
                  altmans_speech altmans_activity altmans_cheer altmans_confidence
                  altmans_summary path d t Ht Hfull) as (p' & Hcall & _ & Hgrow & _).
      rewrite Hcall in Hlog. cbn [fst snd] in Hlog. rewrite Hgrow in Hlog.
      apply (f_equal length) in Hlog. rewrite length_app in Hlog. cbn in Hlog. lia.
    + destruct (insert_reads_back self p altman_date altman_time altmans_sleep
                  altmans_speech altmans_activity altmans_cheer altmans_confidence
                  altmans_summary path d t Ht Hfull) as (Hbefore & Hafter & _).
      exists path, (rows t), (next_id t). split; [exact Hbefore|].
      rewrite Hafter, (inserted_row_exact t _ _ _ _ _ _ _ _ Hints). reflexivity.
  - destruct (insert_when_not_ready self p altman_date altman_time altmans_sleep
                altmans_speech altmans_activity altmans_cheer altmans_confidence
                altmans_summary Ht) as (p' & rec & Hcall & _ & Hgrow & _).
    rewrite Hcall in Hlog. cbn [fst snd] in Hlog. rewrite Hgrow in Hlog.
    apply (f_equal length) in Hlog. rewrite length_app in Hlog. cbn in Hlog. lia.
Qed.

Lemma C3_witness :
  Forall (λ z, int64 z = true) [5; 0; 3; 0; 2; 10]
  ∧ log (snd (snd (DataManager.insert_into_altman_table "2024-01-01" "10:00" 5 0 3 0 2 10
                     (started_manager, started_process))))
    = log started_process
  ∧ ∃ path before id,
      read_table path "altman_table" started_process = Some before
      ∧ read_table path "altman_table"
          (snd (snd (DataManager.insert_into_altman_table "2024-01-01" "10:00" 5 0 3 0 2 10
                       (started_manager, started_process))))
        = Some (before ++ [entry_row id "2024-01-01" "10:00" 5 0 3 0 2 10]).
Proof.
  assert (Hints : Forall (λ z, int64 z = true) [5; 0; 3; 0; 2; 10])
    by (repeat constructor).
  assert (Hlog : log (snd (snd (DataManager.insert_into_altman_table
                                  "2024-01-01" "10:00" 5 0 3 0 2 10
                                  (started_manager, started_process))))
                 = log started_process) by (vm_compute; reflexivity).
  split; [exact Hints|]. split; [exact Hlog|].
  exact (C3_insert_round_trip started_manager started_process
           "2024-01-01" "10:00" 5 0 3 0 2 10 Hints Hlog).
Defined.

(** A step that returns at once and changes nothing can be left out. *)
Lemma bind_skip {S A C} (m1 : M S A) (m2 : M S unit) (m3 : M S C) (s : S) :
  (∀ s', m2 s' = (Ok tt, s')) →
  (m1 ;; m2 ;; m3) s = (m1 ;; m3) s.
Proof.
  intros H. unfold bind. destruct (m1 s) as [[a|e] s1]; [|reflexivity].
  rewrite H. reflexivity.
Qed.

(** The check of lines 152-154 passes in every state, for the statement
    and the values of the insert. *)
Lemma check_bind_count_passes (altman_date altman_time : string)
    (altmans_sleep altmans_speech altmans_activity altmans_cheer
     altmans_confidence altmans_summary : Z) (s : DataManager.t * Process) :
  DataManager.check_bind_count insert_altman_table_sql
    (DataManager.bind_values_of altman_date altman_time altmans_sleep altmans_speech
       altmans_activity altmans_cheer altmans_confidence altmans_summary) s
  = (Ok tt, s).
Proof.
  unfold DataManager.check_bind_count. rewrite count_placeholders. reflexivity.
Qed.

(** What one call of the insert appends to the log. *)
Lemma insert_log_cases
    (self : DataManager.t) (p : Process) (altman_date altman_time : string)
    (altmans_sleep altmans_speech altmans_activity altmans_cheer
     altmans_confidence altmans_summary : Z) :
  let after :=
    DataManager.insert_into_altman_table altman_date altman_time altmans_sleep
      altmans_speech altmans_activity altmans_cheer altmans_confidence altmans_summary
      (self, p) in
  log (snd (snd after)) = log p
  ∨ (∃ err, log (snd (snd after)) = log p ++ [insert_error_record err])
  ∨ (∃ e, log (snd (snd after)) = log p ++ [insertion_exception_record e]).
Proof.
  cbv zeta. unfold DataManager.insert_into_altman_table. cbv zeta.
  destruct (DataManager.query self) as [q|] eqn:Hq.
  - rewrite (insert_try_run self q Hq), count_placeholders.
    cbn [negb Nat.eqb length DataManager.bind_values_of].
    rewrite (exec_and_report_run self q Hq).
    destruct (queries p !! q) as [st|].
    + match goal with
      | |- context [prepared_exec ?c ?s ?b ?p] =>
          destruct (prepared_exec c s b p) as [err|p'] eqn:Hx
      end.
      * right. left. eexists. reflexivity.
      * left. cbn. apply prepared_exec_frame in Hx. tauto.
    + right. left. exists "". reflexivity.
  - rewrite insert_try_no_query by exact Hq. right. right. eexists. reflexivity.
Qed.

(** C7.  The statement has eight [?] marks and the call binds eight
    values.  The count check stands after the binding: the state it runs
    in is the one [prepare_and_bind] leaves, in which the query already
    holds all eight values.  The check passes in every state, so the call
    is the same computation as the [try] statement without the check, and
    no call writes the record of the [except ValueError] clause. *)
Theorem C7_mismatch_check_is_dead
    (self : DataManager.t) (p : Process) (altman_date altman_time : string)
    (altmans_sleep altmans_speech altmans_activity altmans_cheer
     altmans_confidence altmans_summary : Z) :
  let sql := insert_altman_table_sql in
  let bind_values :=
    DataManager.bind_values_of altman_date altman_time altmans_sleep altmans_speech
      altmans_activity altmans_cheer altmans_confidence altmans_summary in
  let call :=
    DataManager.insert_into_altman_table altman_date altman_time altmans_sleep
      altmans_speech altmans_activity altmans_cheer altmans_confidence altmans_summary in
  count_char "?" sql = 8%nat
  ∧ length bind_values = 8%nat
  ∧ (∀ q st, DataManager.query self = Some q → queries p !! q = Some st →
       ∃ p1, DataManager.prepare_and_bind sql bind_values (self, p) = (Ok tt, (self, p1))
             ∧ q_bound <$> queries p1 !! q = Some bind_values)
  ∧ (∀ s, DataManager.check_bind_count sql bind_values s = (Ok tt, s))
  ∧ call (self, p)
    = try_except
        (DataManager.prepare_and_bind sql bind_values ;; DataManager.exec_and_report)
        (λ e, if is_ValueError e
              then on_process (logger.error ("ValueError altman_table: " +:+ str e) [] false)
              else on_process (logger.error
                                 ("Error during data insertion: altman_table " +:+ str e)
                                 [] true))
        (self, p)
  ∧ Forall (λ r, is_mismatch_record r = false)
      (drop (length (log p)) (log (snd (snd (call (self, p)))))).
Proof.
  cbv zeta.
  split; [apply count_placeholders|]. split; [reflexivity|].
  split.
  { intros q st Hq Hst. eexists. split; [apply (prepare_and_bind_run self q Hq)|].
    cbn [queries set_queries]. rewrite list_lookup_alter_eq, Hst. reflexivity. }
  split; [intros s; apply check_bind_count_passes|].
  split.
  { unfold DataManager.insert_into_altman_table, DataManager.insert_try, try_except.
    cbv zeta. rewrite bind_skip by (intros s; apply check_bind_count_passes).
    reflexivity. }
  destruct (insert_log_cases self p altman_date altman_time altmans_sleep altmans_speech
              altmans_activity altmans_cheer altmans_confidence altmans_summary)
    as [H|[[err H]|[e H]]]; cbv zeta in H; rewrite H.
  - rewrite drop_all. constructor.
  - rewrite drop_app_length. repeat constructor.
  - rewrite drop_app_length. repeat constructor.
Qed.

Lemma C7_witness :
  DataManager.query started_manager = Some 0%nat
  ∧ queries started_process !! 0%nat = Some (mkQuery (Some 1%nat) None [] "")
  ∧ ∃ p1, DataManager.prepare_and_bind insert_altman_table_sql
            (DataManager.bind_values_of "2024-01-01" "10:00" 5 0 3 0 2 10)
            (started_manager, started_process)
          = (Ok tt, (started_manager, p1))
          ∧ q_bound <$> queries p1 !! 0%nat
            = Some (DataManager.bind_values_of "2024-01-01" "10:00" 5 0 3 0 2 10).
Proof.
  assert (Hq : DataManager.query started_manager = Some 0%nat) by reflexivity.
  assert (Hst : queries started_process !! 0%nat = Some (mkQuery (Some 1%nat) None [] ""))
    by (vm_compute; reflexivity).
  split; [exact Hq|]. split; [exact Hst|].
  destruct (C7_mismatch_check_is_dead started_manager started_process
              "2024-01-01" "10:00" 5 0 3 0 2 10) as (_ & _ & Hbound & _).
  exact (Hbound _ _ Hq Hst).
Defined.

(* ===================================================================== *)
(** ** DataManager(): the constructor, in closed form *)
(* ===================================================================== *)

Lemma open_new_connection_closed (name : string) (p : Process) :
  QSqlDatabase.open (length (connections p)) (set_connections (with_new_connection name) p)
  = (Ok (open_succeeds name p), opened_process name p).
Proof.
  rewrite open_new_connection. unfold opened_process, open_succeeds.
  destruct (fs p !! name) as [[|c]|]; [reflexivity..|].
  destruct (writable p); reflexivity.
Qed.

Lemma connections_opened_process (name : string) (p : Process) :
  connections (opened_process name p)
  = (QSqlDatabase.invalidate <$> connections p)
      ++ [mkConnection "QSQLITE" true name (open_succeeds name p)].
Proof.
  unfold opened_process.
  destruct (fs p !! name); [reflexivity|]. destruct (writable p); reflexivity.
Qed.

Lemma queries_opened_process (name : string) (p : Process) :
  queries (opened_process name p) = queries p.
Proof.
  unfold opened_process.
  destruct (fs p !! name); [reflexivity|]. destruct (writable p); reflexivity.
Qed.

Lemma log_opened_process (name : string) (p : Process) :
  log (opened_process name p) = log p.
Proof.
  unfold opened_process.
  destruct (fs p !! name); [reflexivity|]. destruct (writable p); reflexivity.
Qed.

Lemma writable_opened_process (name : string) (p : Process) :
  writable (opened_process name p) = writable p.
Proof.
  unfold opened_process.
  destruct (fs p !! name); [reflexivity|]. destruct (writable p) eqn:Hw; cbn; congruence.
Qed.

Lemma error_text_opened_process (name : string) (p : Process) :
  error_text (opened_process name p) = error_text p.
Proof.
  unfold opened_process.
  destruct (fs p !! name); [reflexivity|]. destruct (writable p); reflexivity.
Qed.

#[local] Arguments opened_process : simpl never.

Lemma sqlite_exec_set_log (F : list LogRecord → list LogRecord) conn sql bound (p : Process) :
  sqlite_exec conn sql bound (set_log F p)
  = match sqlite_exec conn sql bound p with
    | inl err => inl err
    | inr p' => inr (set_log F p')
    end.
Proof.
  unfold sqlite_exec, sqlite_prepare, database_of. cbn [connections fs writable set_log].
  repeat match goal with
         | |- context [match ?x with _ => _ end] =>
             lazymatch x with
             | context [match _ with _ => _ end] => fail
             | _ => destruct x
             end
         end; reflexivity.
Qed.

Lemma QSqlQuery_new_run (l : list Connection) (x : Connection) (p : Process) :
  connections p = l ++ [x] →
  QSqlQuery.new p
  = (Ok (length (queries p)),
     set_queries (λ qs, qs ++ [mkQuery (Some (length l)) None [] ""]) p).
Proof.
  intros H. unfold QSqlQuery.new. rewrite H.
  destruct (l ++ [x]) eqn:Hl; [destruct l; discriminate|].
  rewrite <- Hl, length_app. cbn [length].
  replace (length l + 1 - 1)%nat with (length l) by lia. reflexivity.
Qed.

Lemma DataManager_new_run (name : string) (p : Process) :
  DataManager.new name p
  = let self := DataManager.mk (Some (length (connections p))) (Some (length (queries p))) in
    match sqlite_exec (Some (length (connections p))) create_altman_table_sql []
            (opened_process name p) with
    | inl err =>
        (Ok self,
         set_log (λ l, l ++ [create_error_record (error_text p in_exec_str err)])
           (set_queries (alter (with_lastError (error_text p in_exec_str err))
                           (length (queries p)))
              (constructed_process name p)))
    | inr p' =>
        (Ok self,
         set_queries (λ qs, qs ++ [mkQuery (Some (length (connections p))) None [] ""])
           (set_log (λ l, l ++ (if open_succeeds name p then [] else [open_error_record])
                            ++ [mkLog INFO "DB INITIALIZING" [] false]) p'))
    end.
Proof.
  unfold DataManager.new, DataManager.__init__, try_except.
  unfold bind at 1. unfold on_process at 1. cbn [fst snd DataManager.blank].
  rewrite addDatabase_run.
  unfold bind at 1. unfold DataManager.set_self_db at 1, modify at 1. cbn [fst snd].
  unfold bind at 1. unfold DataManager.self_db at 1. cbn [fst snd DataManager.db].
  unfold bind at 1. unfold on_process at 1. cbn [fst snd].
  rewrite setDatabaseName_new.
  unfold bind at 1. unfold DataManager.self_db at 1. cbn [fst snd DataManager.db].
  unfold bind at 1. unfold on_process at 1. cbn [fst snd].
  rewrite open_new_connection_closed.
  unfold bind at 1.
  assert (Hlog :
    (if negb (open_succeeds name p)
     then on_process (logger.error "Error: Unable to open database" [] false)
     else ret tt)
      (DataManager.mk (Some (length (connections p))) (DataManager.query DataManager.blank),
       opened_process name p)
    = (Ok tt, (DataManager.mk (Some (length (connections p))) None,
               set_log (λ l, l ++ (if open_succeeds name p then [] else [open_error_record]))
                 (opened_process name p)))).
  { destruct (open_succeeds name p); cbn.
    - unfold set_log. rewrite app_nil_r. destruct (opened_process name p); reflexivity.
    - reflexivity. }
  rewrite Hlog. clear Hlog.
  unfold bind at 1. unfold on_process at 1, logger.info. cbn [fst snd modify].
  unfold bind at 1. unfold on_process at 1. cbn [fst snd].
  erewrite QSqlQuery_new_run
    by (cbn [connections set_log]; apply connections_opened_process).
  rewrite length_fmap.
  cbn [queries set_log]. rewrite queries_opened_process.
  unfold bind at 1. unfold DataManager.set_self_query at 1, modify at 1.
  cbn [fst snd DataManager.db DataManager.query].
  unfold DataManager.setup_tables, DataManager.setup_altman_table.
  unfold bind at 1. unfold DataManager.self_query at 1. cbn [fst snd DataManager.query].
  unfold bind at 1. unfold on_process at 1. cbn [fst snd].
  unfold QSqlQuery.exec_str, QSqlQuery.finish.
  cbn [queries set_queries set_log error_text]. rewrite queries_opened_process.
  rewrite error_text_opened_process.
  rewrite lookup_last_added by reflexivity. cbn [q_connection].
  rewrite sqlite_exec_set_queries.
  match goal with
  | |- context [set_log ?F (set_log ?G ?x)] =>
      change (set_log F (set_log G x)) with (set_log (λ l, F (G l)) x)
  end.
  rewrite sqlite_exec_set_log.
  destruct (sqlite_exec (Some (length (connections p))) create_altman_table_sql []
              (opened_process name p)) as [err|p'] eqn:Hexec.
  - cbn [negb]. unfold bind at 1. unfold DataManager.self_query at 1.
    cbn [fst snd DataManager.query].
    unfold bind at 1. unfold on_process at 1, QSqlQuery.lastError_text, gets.
    cbn [fst snd queries set_queries set_log]. rewrite queries_opened_process.
    rewrite list_lookup_alter_eq, lookup_last_added by reflexivity.
    cbn. unfold constructed_process, create_error_record, with_lastError, set_log, set_queries.
    cbn. rewrite <- !app_assoc. reflexivity.
  - cbn [negb ret]. unfold set_queries, set_log. cbn.
    apply sqlite_exec_frame in Hexec. destruct Hexec as (_ & _ & Hqs & _).
    rewrite Hqs, queries_opened_process.
    rewrite alter_last_added by reflexivity. cbn. rewrite <- !app_assoc. reflexivity.
Qed.

Lemma sqlite_exec_create_ok (h : nat) (c : Connection) (p p' : Process) :
  connections p !! h = Some c →
  sqlite_exec (Some h) create_altman_table_sql [] p = inr p' →
  ∃ rs, read_table (databaseName c) "altman_table" p' = Some rs.
Proof.
  intros Hc. rewrite (sqlite_exec_create h c p Hc). unfold read_table.
  destruct (negb (valid c && opened c)); [discriminate|].
  destruct (fs p !! databaseName c) as [[|content]|] eqn:Hf; try discriminate.
  destruct (as_database content) as [d|] eqn:Hd; [|discriminate].
  destruct (d !! "altman_table") as [t|] eqn:Ht.
  - intros [= <-]. rewrite Hf, Hd, Ht. eexists. reflexivity.
  - destruct (writable p); [|discriminate]. intros [= <-].
    cbn [fs set_fs]. rewrite lookup_insert_eq. cbn [as_database].
    rewrite lookup_insert_eq. eexists. reflexivity.
Qed.

Lemma opened_process_lookup (name : string) (p : Process) :
  connections (opened_process name p) !! length (connections p)
  = Some (mkConnection "QSQLITE" true name (open_succeeds name p)).
Proof.
  rewrite connections_opened_process. apply lookup_last_added.
  rewrite length_fmap. reflexivity.
Qed.

Section constructor_facts.
Variables (name : string) (p : Process).

(** The object the constructor returns and the connection it leaves. *)
Lemma DataManager_new_object :
  fst (DataManager.new name p)
  = Ok (DataManager.mk (Some (length (connections p))) (Some (length (queries p)))).
Proof.
  rewrite DataManager_new_run. cbv zeta.
  destruct (sqlite_exec _ _ _ _); reflexivity.
Qed.

Lemma DataManager_new_connections :
  connections (snd (DataManager.new name p))
  = (QSqlDatabase.invalidate <$> connections p)
      ++ [mkConnection "QSQLITE" true name (open_succeeds name p)].
Proof.
  rewrite DataManager_new_run. cbv zeta.
  destruct (sqlite_exec _ _ _ _) as [err|p'] eqn:Hexec; unfold constructed_process; cbn.
  - apply connections_opened_process.
  - apply sqlite_exec_frame in Hexec. destruct Hexec as (_ & -> & _).
    apply connections_opened_process.
Qed.

Lemma DataManager_new_query :
  ∃ err, queries (snd (DataManager.new name p))
         = queries p ++ [mkQuery (Some (length (connections p))) None [] err].
Proof.
  rewrite DataManager_new_run. cbv zeta.
  destruct (sqlite_exec _ _ _ _) as [err|p'] eqn:Hexec; unfold constructed_process; cbn.
  - eexists. rewrite queries_opened_process.
    rewrite alter_last_added by reflexivity. reflexivity.
  - exists "". apply sqlite_exec_frame in Hexec. destruct Hexec as (_ & _ & -> & _).
    rewrite queries_opened_process. reflexivity.
Qed.

(** A failed [open()] is in the log. *)
Lemma DataManager_new_logs_open_failure :
  open_succeeds name p = false →
  open_error_record ∈ log (snd (DataManager.new name p)).
Proof.
  intros Hfail. rewrite DataManager_new_run. cbv zeta.
  destruct (sqlite_exec _ _ _ _) as [err|p'] eqn:Hexec; unfold constructed_process; cbn;
    rewrite Hfail.
  - rewrite !elem_of_app, !elem_of_cons. naive_solver.
  - rewrite !elem_of_app, !elem_of_cons. naive_solver.
Qed.

(** A failed creation of the table is in the log. *)
Lemma DataManager_new_logs_schema_failure :
  read_table name "altman_table" (snd (DataManager.new name p)) = None →
  ∃ err, create_error_record err ∈ log (snd (DataManager.new name p)).
Proof.
  rewrite DataManager_new_run. cbv zeta.
  destruct (sqlite_exec _ _ _ _) as [err|p'] eqn:Hexec.
  - intros _. eexists. cbn. rewrite !elem_of_app, !elem_of_cons. naive_solver.
  - destruct (sqlite_exec_create_ok _ _ _ _ (opened_process_lookup name p) Hexec)
      as [rs Hrs].
    cbn [databaseName] in Hrs. unfold read_table in *. cbn in *. rewrite Hrs. discriminate.
Qed.

(** On a store without the table that can be written, the constructor
    leaves the table, with no rows. *)
Lemma DataManager_new_creates_table (d : Database) :
  fs p !! name = Some (File (Sqlite d)) →
  d !! "altman_table" = None →
  writable p = true →
  fs (snd (DataManager.new name p))
  = <[name := File (Sqlite (<["altman_table" := empty_altman_table]> d))]> (fs p)
  ∧ read_table name "altman_table" (snd (DataManager.new name p)) = Some []
  ∧ log (snd (DataManager.new name p)) = log p ++ [mkLog INFO "DB INITIALIZING" [] false].
Proof.
  intros Hf Hd Hw. rewrite DataManager_new_run. cbv zeta.
  rewrite (sqlite_exec_create _ _ _ (opened_process_lookup name p)).
  cbn [valid opened databaseName].
  assert (Hok : open_succeeds name p = true) by (unfold open_succeeds; rewrite Hf; reflexivity).
  assert (Hop : fs (opened_process name p) = fs p) by (unfold opened_process; rewrite Hf; reflexivity).
  rewrite Hok, Hop, Hf. cbn [andb negb as_database]. rewrite Hd, writable_opened_process, Hw.
  unfold read_table. cbn. rewrite Hop, log_opened_process, lookup_insert_eq. cbn.
  rewrite lookup_insert_eq. repeat split; reflexivity.
Qed.

End constructor_facts.

(* ===================================================================== *)
(** ** Claims on initialize_database *)
(* ===================================================================== *)

(** C4, as stated, fails: on a fresh state without a template,
    [initialize_database] leaves a store file without any table. *)
Lemma C4_counterexample :
  fs fresh_process !! example_store_path = None
  ∧ fs fresh_process !! example_template_path = None
  ∧ fs (snd (initialize_database example_template_path example_store_path fresh_process))
      !! example_store_path = Some (File (Sqlite ∅))
  ∧ read_table example_store_path "altman_table"
      (snd (initialize_database example_template_path example_store_path fresh_process))
    = None.
Proof. vm_compute. repeat split; reflexivity. Qed.

(** C4, amended.  In a state without a store file that accepts writes:
    without a template, [initialize_database] creates an empty store, one
    without tables, and the table, with zero rows, is there once the
    constructor of [DataManager] has run on that store; with a template
    that is a regular file, the store file created is identical to the
    template, which stays as it was. *)
Theorem C4_fresh_store (db_path target_db_path : string) (p : Process) :
  fs p !! target_db_path = None →
  writable p = true →
  let created := snd (initialize_database db_path target_db_path p) in
  (fs p !! db_path = None →
     fs created !! target_db_path = Some (File (Sqlite ∅))
     ∧ read_table target_db_path "altman_table" created = None
     ∧ read_table target_db_path "altman_table"
         (snd (DataManager.new target_db_path created)) = Some []
     ∧ log created = log p)
  ∧ (∀ c, fs p !! db_path = Some (File c) →
       fs created !! target_db_path = Some (File c)
       ∧ fs created !! db_path = Some (File c)
       ∧ log created = log p).
Proof.
  intros Ht Hw. cbv zeta. split.
  - intros Hs. rewrite (initialize_database_creates _ _ _ Ht Hs Hw). cbn [snd].
    assert (Hf : fs (set_fs (λ f, <[target_db_path := File (Sqlite ∅)]> f)
                       (set_connections (with_new_connection target_db_path) p))
                 !! target_db_path = Some (File (Sqlite ∅)))
      by (cbn; apply lookup_insert_eq).
    split; [exact Hf|].
    split; [unfold read_table; rewrite Hf; reflexivity|].
    split; [|reflexivity].
    apply (DataManager_new_creates_table target_db_path _ ∅ Hf); [apply lookup_empty|exact Hw].
  - intros c Hs. rewrite (initialize_database_copies _ _ _ c Ht Hs Hw). cbn.
    split; [apply lookup_insert_eq|]. split; [|reflexivity].
    rewrite lookup_insert_ne; [exact Hs|]. intros ->. congruence.
Qed.

Lemma C4_witness :
  fs fresh_process !! example_store_path = None
  ∧ writable fresh_process = true
  ∧ read_table example_store_path "altman_table"
      (snd (DataManager.new example_store_path
              (snd (initialize_database example_template_path example_store_path
                      fresh_process))))
    = Some []
  ∧ fs process_with_template !! example_template_path = Some (File template_content)
  ∧ fs (snd (initialize_database example_template_path example_store_path
               process_with_template))
      !! example_store_path = Some (File template_content).
Proof.
  assert (Ht : fs fresh_process !! example_store_path = None) by reflexivity.
  assert (Hs : fs fresh_process !! example_template_path = None) by reflexivity.
  assert (Ht' : fs process_with_template !! example_store_path = None)
    by (vm_compute; reflexivity).
  assert (Hs' : fs process_with_template !! example_template_path
                = Some (File template_content)) by (vm_compute; reflexivity).
  destruct (C4_fresh_store example_template_path example_store_path fresh_process
              Ht eq_refl) as [Hnew _].
  destruct (C4_fresh_store example_template_path example_store_path process_with_template
              Ht' eq_refl) as [_ Hcopy].
  destruct (Hnew Hs) as (_ & _ & Htable & _).
  destruct (Hcopy _ Hs') as (Hsame & _).
  split; [exact Ht|]. split; [reflexivity|]. split; [exact Htable|].
  split; [exact Hs'|exact Hsame].
Defined.

(** C5.  Where something exists at the target path, [initialize_database]
    returns normally and leaves the whole process as it was.  From any
    state, the call returns normally, a second call returns normally, and
    the second call leaves the file system of the first; once the first
    call has left a store, the second changes nothing at all. *)
Theorem C5_initialize_database_idempotent (db_path target_db_path : string) (p : Process) :
  let once := initialize_database db_path target_db_path p in
  let twice := initialize_database db_path target_db_path (snd once) in
  (∀ n, fs p !! target_db_path = Some n → once = (Ok tt, p))
  ∧ fst once = Ok tt
  ∧ fst twice = Ok tt
  ∧ fs (snd twice) = fs (snd once)
  ∧ (∀ n, fs (snd once) !! target_db_path = Some n → twice = (Ok tt, snd once)).
Proof.
  cbv zeta.
  split; [intros n Hn; apply (initialize_database_exists _ _ _ n Hn)|].
  assert (Hlast : ∀ q n, fs q !! target_db_path = Some n →
                         initialize_database db_path target_db_path q = (Ok tt, q))
    by (intros q n Hn; apply (initialize_database_exists _ _ _ n Hn)).
  destruct (fs p !! target_db_path) as [n|] eqn:Ht.
  { rewrite (Hlast p n Ht). cbn [fst snd]. rewrite (Hlast p n Ht).
    repeat split; intros; reflexivity. }
  destruct (fs p !! db_path) as [[|c]|] eqn:Hs.
  - (* the template path is a directory: the copy raises *)
    destruct (initialize_database_copy_raises _ _ p Directory Ht Hs (or_introl eq_refl))
      as [msg ->].
    cbn [fst snd].
    destruct (initialize_database_copy_raises db_path target_db_path
                (set_log (λ l, l ++ [mkLog ERROR "Error: Unable to create database" [msg] false]) p)
                Directory Ht Hs (or_introl eq_refl)) as [msg' ->].
    cbn. repeat split. intros n Hn. congruence.
  - destruct (writable p) eqn:Hw.
    + rewrite (initialize_database_copies _ _ _ c Ht Hs Hw). cbn [fst snd].
      erewrite Hlast by (cbn; apply lookup_insert_eq).
      repeat split; intros; reflexivity.
    + destruct (initialize_database_copy_raises _ _ p (File c) Ht Hs (or_intror Hw))
        as [msg ->].
      cbn [fst snd].
      destruct (initialize_database_copy_raises db_path target_db_path
                  (set_log (λ l, l ++ [mkLog ERROR "Error: Unable to create database" [msg] false]) p)
                  (File c) Ht Hs (or_intror Hw)) as [msg' ->].
      cbn. repeat split. intros n Hn. congruence.
  - destruct (writable p) eqn:Hw.
    + rewrite (initialize_database_creates _ _ _ Ht Hs Hw). cbn [fst snd].
      erewrite Hlast by (cbn; apply lookup_insert_eq).
      repeat split; intros; reflexivity.
    + rewrite (initialize_database_cannot_create _ _ _ Ht Hs Hw). cbn [fst snd].
      rewrite (initialize_database_cannot_create db_path target_db_path
                 (set_log _ (set_connections _ p)) Ht Hs Hw).
      cbn. repeat split. intros n Hn. congruence.
Qed.

Lemma C5_witness :
  fs started_process !! example_store_path
  = Some (File (Sqlite {["altman_table" := empty_altman_table]}))
  ∧ initialize_database example_template_path example_store_path started_process
    = (Ok tt, started_process).
Proof.
  assert (H : fs started_process !! example_store_path
              = Some (File (Sqlite {["altman_table" := empty_altman_table]})))
    by (vm_compute; reflexivity).
  split; [exact H|].
  destruct (C5_initialize_database_idempotent example_template_path example_store_path
              started_process) as (Hkeep & _).
  exact (Hkeep _ H).
Defined.

(* ===================================================================== *)
(** ** close_database, in closed form *)
(* ===================================================================== *)

Lemma close_database_run (self : DataManager.t) (p : Process) :
  close_database (self, p)
  = match DataManager.db self with
    | None =>
        (Ok tt,
         (self,
          set_log (λ l, l ++ [mkLog INFO "if database is open" [] false;
                              close_exception_record
                                (AttributeError "'DataManager' object has no attribute 'db'")])
            p))
    | Some h =>
        if QSqlDatabase.is_open h p
        then (Ok tt,
              (self,
               set_connections (alter QSqlDatabase.close_connection h)
                 (set_log (λ l, l ++ [mkLog INFO "if database is open" [] false;
                                     mkLog INFO "the database is closed successfully" [] false])
                    p)))
        else (Ok tt,
              (self, set_log (λ l, l ++ [mkLog INFO "if database is open" [] false]) p))
    end.
Proof.
  unfold close_database, try_except, bind, on_process, DataManager.self_db,
    QSqlDatabase.isOpen, QSqlDatabase.close, logger.info, logger.exception, gets, modify.
  destruct self as [[h|] q]; cbn [fst snd DataManager.db].
  - change (QSqlDatabase.is_open h (set_log _ p)) with (QSqlDatabase.is_open h p).
    destruct (QSqlDatabase.is_open h p); cbn [fst snd].
    + unfold set_log, set_connections. cbn.
      rewrite <- app_assoc. reflexivity.
    + reflexivity.
  - unfold set_log, close_exception_record. cbn. rewrite <- app_assoc. reflexivity.
Qed.

Lemma is_open_after_close (h : nat) (p : Process) :
  QSqlDatabase.is_open h (set_connections (alter QSqlDatabase.close_connection h) p) = false.
Proof.
  unfold QSqlDatabase.is_open. cbn [connections set_connections].
  rewrite list_lookup_alter_eq. destruct (connections p !! h) as [c|]; [|reflexivity].
  cbn. unfold QSqlDatabase.close_connection.
  destruct (valid c) eqn:Hv; cbn; [reflexivity|]. rewrite Hv. reflexivity.
Qed.

(** Closing a connection that is not open changes no connection. *)
Lemma close_closed (h : nat) (cs : list Connection) :
  match cs !! h with Some c => valid c && opened c | None => false end = false →
  alter QSqlDatabase.close_connection h cs = cs.
Proof.
  intros Hclosed.
  apply list_eq. intros i. destruct (decide (h = i)) as [<-|Hne].
  - rewrite list_lookup_alter_eq. destruct (cs !! h) as [c|] eqn:Hc; [|reflexivity].
    cbn. f_equal. unfold QSqlDatabase.close_connection.
    destruct c as [drv v name o]. cbn in *. destruct v; [|reflexivity].
    cbn in Hclosed. subst. reflexivity.
  - apply list_lookup_alter_ne. exact Hne.
Qed.

(* ===================================================================== *)
(** ** Claims on close_database *)
(* ===================================================================== *)

(** C8.  [close_database] returns normally from every state, and so does
    a second call.  After the first call the connection of the object is
    not open; a connection that was not open is left alone; nothing but
    the connections and the log is touched, and the object is the same.
    The second call changes the log only.  An object without a [db]
    attribute makes the call log the error, with its traceback, and
    return. *)
Theorem C8_close_database_idempotent (self : DataManager.t) (p : Process) :
  let once := close_database (self, p) in
  let twice := close_database (snd once) in
  fst once = Ok tt
  ∧ fst twice = Ok tt
  ∧ fst (snd once) = self
  ∧ fst (snd twice) = self
  ∧ (∀ h, DataManager.db self = Some h →
       QSqlDatabase.is_open h (snd (snd once)) = false)
  ∧ (∀ h, DataManager.db self = Some h → QSqlDatabase.is_open h p = false →
       same_but_log p (snd (snd once)))
  ∧ fs (snd (snd once)) = fs p
  ∧ queries (snd (snd once)) = queries p
  ∧ same_but_log (snd (snd once)) (snd (snd twice))
  ∧ (DataManager.db self = None →
       same_but_log p (snd (snd once))
       ∧ log (snd (snd once))
         = log p ++ [mkLog INFO "if database is open" [] false;
                     close_exception_record
                       (AttributeError "'DataManager' object has no attribute 'db'")]).
Proof.
  cbv zeta. rewrite (close_database_run self p).
  destruct (DataManager.db self) as [h|] eqn:Hdb.
  - destruct (QSqlDatabase.is_open h p) eqn:Hopen; cbn [fst snd];
      rewrite close_database_run, Hdb.
    + change (QSqlDatabase.is_open h (set_connections ?F (set_log ?G p)))
        with (QSqlDatabase.is_open h (set_connections F p)).
      rewrite is_open_after_close. cbn [fst snd].
      repeat split; try reflexivity; try discriminate; try congruence.
      intros h' [= <-]. apply is_open_after_close.
    + change (QSqlDatabase.is_open h (set_log ?G p)) with (QSqlDatabase.is_open h p).
      rewrite Hopen. cbn [fst snd].
      repeat split; try reflexivity; try discriminate; try congruence.
      intros h' [= <-]. exact Hopen.
  - cbn [fst snd]. rewrite close_database_run, Hdb. cbn [fst snd].
    repeat split; try reflexivity; discriminate.
Qed.

Lemma C8_witness :
  DataManager.db started_manager = Some 1%nat
  ∧ QSqlDatabase.is_open 1 started_process = true
  ∧ QSqlDatabase.is_open 1 (snd (snd (close_database (started_manager, started_process))))
    = false
  ∧ DataManager.db DataManager.blank = None
  ∧ fst (close_database (DataManager.blank, started_process)) = Ok tt
  ∧ same_but_log started_process
      (snd (snd (close_database (DataManager.blank, started_process)))).
Proof.
  destruct (C8_close_database_idempotent started_manager started_process)
    as (_ & _ & _ & _ & Hclosed & _).
  destruct (C8_close_database_idempotent DataManager.blank started_process)
    as (Hok & _ & _ & _ & _ & _ & _ & _ & _ & Hnone).
  split; [reflexivity|]. split; [vm_compute; reflexivity|].
  split; [exact (Hclosed 1%nat eq_refl)|]. split; [reflexivity|].
  split; [exact Hok|]. exact (proj1 (Hnone eq_refl)).
Defined.

(* ===================================================================== *)
(** ** Failures are logged and suppressed *)
(* ===================================================================== *)

Lemma new_log_app (p p' : Process) (added : list LogRecord) :
  log p' = log p ++ added → new_log p p' = added.
Proof. intros H. unfold new_log. rewrite H. apply drop_app_length. Qed.

Lemma initialize_database_failure_logged (db_path target_db_path : string) (p : Process) :
  fs p !! target_db_path = None →
  fs (snd (initialize_database db_path target_db_path p)) !! target_db_path = None →
  ∃ args, new_log p (snd (initialize_database db_path target_db_path p))
          = [mkLog ERROR "Error: Unable to create database" args false].
Proof.
  intros Ht.
  destruct (fs p !! db_path) as [[|c]|] eqn:Hs.
  - destruct (initialize_database_copy_raises _ _ p Directory Ht Hs (or_introl eq_refl))
      as [msg ->].
    intros _. exists [msg]. apply new_log_app. reflexivity.
  - destruct (writable p) eqn:Hw.
    + rewrite (initialize_database_copies _ _ _ c Ht Hs Hw). cbn.
      rewrite lookup_insert_eq. discriminate.
    + destruct (initialize_database_copy_raises _ _ p (File c) Ht Hs (or_intror Hw))
        as [msg ->].
      intros _. exists [msg]. apply new_log_app. reflexivity.
  - destruct (writable p) eqn:Hw.
    + rewrite (initialize_database_creates _ _ _ Ht Hs Hw). cbn.
      rewrite lookup_insert_eq. discriminate.
    + rewrite (initialize_database_cannot_create _ _ _ Ht Hs Hw).
      intros _. exists []. apply new_log_app. reflexivity.
Qed.

Lemma initialize_database_returns (db_path target_db_path : string) (p : Process) :
  fst (initialize_database db_path target_db_path p) = Ok tt.
Proof.
  unfold initialize_database, try_except.
  match goal with |- context [match ?b p with _ => _ end] => destruct (b p) as [[[]|e] p'] end;
    reflexivity.
Qed.

Lemma DataManager_new_log (name : string) (p : Process) :
  ∃ tail,
    log (snd (DataManager.new name p))
    = log p ++ (if open_succeeds name p then [] else [open_error_record])
        ++ [mkLog INFO "DB INITIALIZING" [] false] ++ tail
    ∧ (read_table name "altman_table" (snd (DataManager.new name p)) = None →
       ∃ err, tail = [create_error_record err]).
Proof.
  rewrite DataManager_new_run. cbv zeta.
  destruct (sqlite_exec _ _ _ _) as [err|p'] eqn:Hexec.
  - exists [create_error_record (error_text p in_exec_str err)].
    unfold constructed_process. cbn.
    rewrite log_opened_process, <- ?app_assoc. split; [reflexivity|].
    intros _. eexists. reflexivity.
  - exists []. cbn.
    destruct (sqlite_exec_create_ok _ _ _ _ (opened_process_lookup name p) Hexec)
      as [rs Hrs].
    apply sqlite_exec_frame in Hexec. destruct Hexec as (_ & _ & _ & -> & _).
    rewrite log_opened_process, <- ?app_assoc. split; [reflexivity|].
    cbn [databaseName] in Hrs. unfold read_table in *. cbn in *. rewrite Hrs. discriminate.
Qed.

Lemma DataManager_new_is_open (name : string) (p : Process) :
  QSqlDatabase.is_open (length (connections p)) (snd (DataManager.new name p))
  = open_succeeds name p.
Proof.
  unfold QSqlDatabase.is_open. rewrite DataManager_new_connections.
  rewrite lookup_last_added by (rewrite length_fmap; reflexivity). reflexivity.
Qed.

Lemma insert_without_write_logged
    (self : DataManager.t) (p : Process) (altman_date altman_time : string)
    (altmans_sleep altmans_speech altmans_activity altmans_cheer
     altmans_confidence altmans_summary : Z) :
  let after :=
    DataManager.insert_into_altman_table altman_date altman_time altmans_sleep
      altmans_speech altmans_activity altmans_cheer altmans_confidence altmans_summary
      (self, p) in
  fs (snd (snd after)) = fs p →
  ∃ rec, new_log p (snd (snd after)) = [rec] ∧ level rec = ERROR.
Proof.
  cbv zeta.
  destruct (insert_target self p) as [[[path d] t]|] eqn:Ht.
  - destruct (table_full t) eqn:Hfull.
    { destruct (insert_when_full self p altman_date altman_time altmans_sleep
                  altmans_speech altmans_activity altmans_cheer altmans_confidence
                  altmans_summary path d t Ht Hfull) as (p' & -> & _ & Hlog & _).
      cbn [fst snd]. intros _.
      exists (insert_error_record (error_text p in_exec DatabaseFull)).
      split; [|reflexivity]. apply new_log_app. exact Hlog. }
    destruct (insert_when_ready self p altman_date altman_time altmans_sleep
                altmans_speech altmans_activity altmans_cheer altmans_confidence
                altmans_summary path d t Ht Hfull) as (p' & -> & Hfs & Hbefore & Htab & _).
    cbn [fst snd]. intros Hsame. exfalso.
    rewrite Hsame in Hfs. apply (f_equal (λ f, f !! path)) in Hfs.
    rewrite lookup_insert_eq, Hbefore in Hfs. injection Hfs as Hd.
    apply (f_equal (λ m, entries <$> m !! "altman_table")) in Hd.
    rewrite lookup_insert_eq, Htab in Hd. cbn in Hd. injection Hd as Hrows.
    apply (f_equal length) in Hrows. rewrite length_app in Hrows. cbn in Hrows. lia.
  - destruct (insert_when_not_ready self p altman_date altman_time altmans_sleep
                altmans_speech altmans_activity altmans_cheer altmans_confidence
                altmans_summary Ht) as (p' & rec & -> & _ & Hlog & Hlevel & _).
    cbn [fst snd]. intros _. exists rec. split; [|exact Hlevel].
    apply new_log_app. exact Hlog.
Qed.

Lemma insert_returns
    (self : DataManager.t) (p : Process) (altman_date altman_time : string)
    (altmans_sleep altmans_speech altmans_activity altmans_cheer
     altmans_confidence altmans_summary : Z) :
  fst (DataManager.insert_into_altman_table altman_date altman_time altmans_sleep
         altmans_speech altmans_activity altmans_cheer altmans_confidence altmans_summary
         (self, p)) = Ok tt.
Proof.
  destruct (insert_target self p) as [[[path d] t]|] eqn:Ht.
  - destruct (table_full t) eqn:Hfull.
    + destruct (insert_when_full self p altman_date altman_time altmans_sleep
                  altmans_speech altmans_activity altmans_cheer altmans_confidence
                  altmans_summary path d t Ht Hfull) as (p' & -> & _). reflexivity.
    + destruct (insert_when_ready self p altman_date altman_time altmans_sleep
                  altmans_speech altmans_activity altmans_cheer altmans_confidence
                  altmans_summary path d t Ht Hfull) as (p' & -> & _). reflexivity.
  - destruct (insert_when_not_ready self p altman_date altman_time altmans_sleep
                altmans_speech altmans_activity altmans_cheer altmans_confidence
                altmans_summary Ht) as (p' & rec & -> & _). reflexivity.
Qed.

(** C6.  Each persistence operation returns normally from every state and
    for every input: creating the store ([initialize_database]), opening
    it and creating the schema (the constructor of [DataManager]), the
    insert, and the close.  Where the operation does not achieve its
    effect (no store file, a connection that is not open, no table, no
    row written, no [db] to close), the records it added to the log hold
    the error. *)
Theorem C6_persistence_errors_are_logged_and_suppressed :
  (∀ (db_path target_db_path : string) (p : Process),
     let after := initialize_database db_path target_db_path p in
     fst after = Ok tt
     ∧ (fs p !! target_db_path = None → fs (snd after) !! target_db_path = None →
        ∃ args, new_log p (snd after)
                = [mkLog ERROR "Error: Unable to create database" args false]))
  ∧ (∀ (db_name : string) (p : Process),
       let after := DataManager.new db_name p in
       fst after
       = Ok (DataManager.mk (Some (length (connections p))) (Some (length (queries p))))
       ∧ (QSqlDatabase.is_open (length (connections p)) (snd after) = false →
          open_error_record ∈ new_log p (snd after))
       ∧ (read_table db_name "altman_table" (snd after) = None →
          ∃ err, create_error_record err ∈ new_log p (snd after)))
  ∧ (∀ (self : DataManager.t) (p : Process) (altman_date altman_time : string)
       (altmans_sleep altmans_speech altmans_activity altmans_cheer
        altmans_confidence altmans_summary : Z),
       let after :=
         DataManager.insert_into_altman_table altman_date altman_time altmans_sleep
           altmans_speech altmans_activity altmans_cheer altmans_confidence
           altmans_summary (self, p) in
       fst after = Ok tt
       ∧ (fs (snd (snd after)) = fs p →
          ∃ rec, new_log p (snd (snd after)) = [rec] ∧ level rec = ERROR))
  ∧ (∀ (self : DataManager.t) (p : Process),
       let after := close_database (self, p) in
       fst after = Ok tt
       ∧ (DataManager.db self = None →
          close_exception_record
            (AttributeError "'DataManager' object has no attribute 'db'")
          ∈ new_log p (snd (snd after)))).
Proof.
  split; [|split; [|split]].
  - intros db_path target_db_path p. cbv zeta.
    split; [apply initialize_database_returns|].
    apply initialize_database_failure_logged.
  - intros db_name p. cbv zeta.
    split; [apply DataManager_new_object|].
    destruct (DataManager_new_log db_name p) as (tail & Hlog & Htail).
    rewrite (new_log_app _ _ _ Hlog). split.
    + rewrite DataManager_new_is_open. intros ->.
      rewrite !elem_of_app, !elem_of_cons. naive_solver.
    + intros Hnone. apply Htail in Hnone. destruct Hnone as [err Herr].
      rewrite Herr. exists err.
      rewrite !elem_of_app, !elem_of_cons. tauto.
  - intros. cbv zeta. split; [apply insert_returns|].
    apply insert_without_write_logged.
  - intros self p. cbv zeta. rewrite close_database_run.
    destruct (DataManager.db self) as [h|].
    + destruct (QSqlDatabase.is_open h p); split; try reflexivity; discriminate.
    + split; [reflexivity|]. intros _.
      erewrite new_log_app by (cbn; reflexivity).
      rewrite !elem_of_cons. naive_solver.
Qed.

Lemma C6_witness :
  (fs readonly_fresh_process !! example_store_path = None
   ∧ fs (snd (initialize_database example_template_path example_store_path
                readonly_fresh_process)) !! example_store_path = None
   ∧ ∃ args, new_log readonly_fresh_process
               (snd (initialize_database example_template_path example_store_path
                       readonly_fresh_process))
             = [mkLog ERROR "Error: Unable to create database" args false])
  ∧ (QSqlDatabase.is_open 0
       (snd (DataManager.new example_store_path readonly_fresh_process)) = false
     ∧ open_error_record
       ∈ new_log readonly_fresh_process
           (snd (DataManager.new example_store_path readonly_fresh_process)))
  ∧ (read_table example_store_path "altman_table"
       (snd (DataManager.new example_store_path readonly_fresh_process)) = None
     ∧ ∃ err, create_error_record err
              ∈ new_log readonly_fresh_process
                  (snd (DataManager.new example_store_path readonly_fresh_process)))
  ∧ (fs (snd (snd (DataManager.insert_into_altman_table "2024-01-01" "10:00" 5 0 3 0 2 10
                     (started_manager, readonly_process))))
     = fs readonly_process
     ∧ ∃ rec, new_log readonly_process
                (snd (snd (DataManager.insert_into_altman_table
                             "2024-01-01" "10:00" 5 0 3 0 2 10
                             (started_manager, readonly_process))))
              = [rec] ∧ level rec = ERROR)
  ∧ (DataManager.db DataManager.blank = None
     ∧ close_exception_record (AttributeError "'DataManager' object has no attribute 'db'")
       ∈ new_log started_process
           (snd (snd (close_database (DataManager.blank, started_process))))).
Proof.
  destruct C6_persistence_errors_are_logged_and_suppressed
    as (Hinit & Hnew & Hinsert & Hclose).
  assert (H1 : fs readonly_fresh_process !! example_store_path = None) by reflexivity.
  assert (H2 : fs (snd (initialize_database example_template_path example_store_path
                          readonly_fresh_process)) !! example_store_path = None)
    by (vm_compute; reflexivity).
  assert (H3 : QSqlDatabase.is_open 0
                 (snd (DataManager.new example_store_path readonly_fresh_process)) = false)
    by (vm_compute; reflexivity).
  assert (H4 : read_table example_store_path "altman_table"
                 (snd (DataManager.new example_store_path readonly_fresh_process)) = None)
    by (vm_compute; reflexivity).
  assert (H5 : fs (snd (snd (DataManager.insert_into_altman_table
                               "2024-01-01" "10:00" 5 0 3 0 2 10
                               (started_manager, readonly_process))))
               = fs readonly_process)
    by (vm_compute; reflexivity).
  split; [split; [exact H1|split; [exact H2|]]|].
  { exact (proj2 (Hinit example_template_path example_store_path readonly_fresh_process)
             H1 H2). }
  destruct (Hnew example_store_path readonly_fresh_process) as (_ & Hopen & Hschema).
  split; [split; [exact H3|exact (Hopen H3)]|].
  split; [split; [exact H4|exact (Hschema H4)]|].
  split.
  { split; [exact H5|].
    exact (proj2 (Hinsert started_manager readonly_process "2024-01-01" "10:00"
                    5 0 3 0 2 10) H5). }
  split; [reflexivity|].
  exact (proj2 (Hclose DataManager.blank started_process) eq_refl).
Defined.

(* ===================================================================== *)
(** ** The form: what slots and signals do to the window *)
(* ===================================================================== *)

Lemma window_frame_refl (mw : MainWindow) : window_frame mw mw.
Proof. repeat split; reflexivity. Qed.

Lemma window_frame_trans (a b c : MainWindow) :
  window_frame a b → window_frame b c → window_frame a c.
Proof.
  intros (H1 & H2 & H3 & H4 & H5 & H6) (K1 & K2 & K3 & K4 & K5 & K6).
  repeat split; try congruence.
Qed.

Lemma sumabitch_scale_widgets (mw mw' : MainWindow) :
  (∀ w, value (scale_widget w mw') = value (scale_widget w mw)) →
  sumabitch mw' = sumabitch mw.
Proof.
  intros H. unfold sumabitch. cbn [fmap list_fmap].
  pose proof (H sleep) as H1. pose proof (H speech) as H2. pose proof (H activity) as H3.
  pose proof (H cheer) as H4. pose proof (H confidence) as H5.
  cbn [scale_widget] in H1, H2, H3, H4, H5.
  rewrite H1, H2, H3, H4, H5. reflexivity.
Qed.

Lemma summary_fresh_frame (mw mw' : MainWindow) :
  window_frame mw mw' →
  value (altmans_summary mw') = value (altmans_summary mw) →
  summary_fresh mw → summary_fresh mw'.
Proof.
  intros (H1 & _ & H3 & H4 & _) Hv Hf. unfold summary_fresh in *.
  rewrite Hv, H3, H4, Hf. f_equal.
  symmetry. apply sumabitch_scale_widgets. intros w. rewrite H1. reflexivity.
Qed.

Lemma Signal_eqb_refl (sig : Signal) : Signal_eqb sig sig = true.
Proof. destruct sig as [[]| |]; reflexivity. Qed.

(** The insert leaves the object and the connections as they were. *)
Lemma insert_effect
    (self : DataManager.t) (p : Process) (altman_date altman_time : string)
    (altmans_sleep altmans_speech altmans_activity altmans_cheer
     altmans_confidence altmans_summary : Z) :
  ∃ p', DataManager.insert_into_altman_table altman_date altman_time altmans_sleep
          altmans_speech altmans_activity altmans_cheer altmans_confidence altmans_summary
          (self, p) = (Ok tt, (self, p'))
        ∧ connections p' = connections p.
Proof.
  destruct (insert_target self p) as [[[path d] t]|] eqn:Ht.
  - destruct (table_full t) eqn:Hfull.
    + destruct (insert_when_full self p altman_date altman_time altmans_sleep
                  altmans_speech altmans_activity altmans_cheer altmans_confidence
                  altmans_summary path d t Ht Hfull) as (p' & Hcall & _ & _ & Hc).
      exists p'. split; assumption.
    + destruct (insert_when_ready self p altman_date altman_time altmans_sleep
                  altmans_speech altmans_activity altmans_cheer altmans_confidence
                  altmans_summary path d t Ht Hfull) as (p' & Hcall & _ & _ & _ & _ & Hc).
      exists p'. split; assumption.
  - destruct (insert_when_not_ready self p altman_date altman_time altmans_sleep
                altmans_speech altmans_activity altmans_cheer altmans_confidence
                altmans_summary Ht) as (p' & rec & Hcall & _ & _ & _ & Hc).
    exists p'. split; assumption.
Qed.

Lemma run_slot_effect (arg : Z) (slot : Slot) (mw : MainWindow) (p : Process) :
  within_frame mw p (run_slot arg slot (mw, p))
  ∧ (slot = slot_update_altmans_summary →
     summary_fresh (fst (snd (run_slot arg slot (mw, p))))).
Proof.
  destruct slot; cbn [run_slot].
  - rewrite update_altmans_summary_run. cbn [fst snd].
    assert (Hfresh : summary_fresh
              (set_altmans_summary (setValue (sumabitch mw) (altmans_summary mw)) mw))
      by reflexivity.
    repeat split; try reflexivity; try (intros []; reflexivity); intros; exact Hfresh.
  - unfold add_altmans_data, bind, gets, on_db_manager. cbn [fst snd].
    match goal with
    | |- context [DataManager.insert_into_altman_table ?a ?b ?c ?d ?e ?f ?g ?h (?s, p)] =>
        destruct (insert_effect s p a b c d e f g h) as (p' & -> & Hc)
    end.
    cbn [fst snd]. split; [|discriminate].
    repeat split; try reflexivity; try (intros []; reflexivity); try exact Hc.
    intros Hf. exact Hf.
  - split; [|discriminate].
    repeat split; try reflexivity. intros Hf. exact Hf.
Qed.

Lemma slots_effect (arg : Z) (slots : list Slot) (mw : MainWindow) (p : Process) :
  within_frame mw p (for_each slots (run_slot arg) (mw, p))
  ∧ (In slot_update_altmans_summary slots →
     summary_fresh (fst (snd (for_each slots (run_slot arg) (mw, p))))).
Proof.
  revert mw p. induction slots as [|slot slots IH]; intros mw p.
  - split; [|intros []].
    repeat split; try reflexivity. intros Hf. exact Hf.
  - cbn [for_each]. unfold bind.
    destruct (run_slot_effect arg slot mw p) as ((Hok & Hframe & Hc & Hkeep) & Hupd).
    destruct (run_slot arg slot (mw, p)) as [r [mw1 p1]]. cbn [fst snd] in *. subst r.
    destruct (IH mw1 p1) as ((Hok' & Hframe' & Hc' & Hkeep') & Hupd').
    split.
    + split; [exact Hok'|]. split; [eapply window_frame_trans; eassumption|].
      split; [congruence|]. intros Hf. apply Hkeep', Hkeep, Hf.
    + intros [Heq|Hin]; [apply Hkeep', Hupd, Heq|apply Hupd', Hin].
Qed.

Lemma emit_effect (sig : Signal) (arg : Z) (mw : MainWindow) (p : Process) :
  within_frame mw p (emit sig arg (mw, p))
  ∧ (In (sig, slot_update_altmans_summary) (connected mw) →
     summary_fresh (fst (snd (emit sig arg (mw, p))))).
Proof.
  unfold emit, bind, gets. cbn [fst snd].
  destruct (slots_effect arg
              (snd <$> List.filter (λ c, Signal_eqb (fst c) sig) (connected mw)) mw p)
    as (Hframe & Hupd).
  split; [exact Hframe|]. intros Hin. apply Hupd.
  apply (in_map snd _ (sig, slot_update_altmans_summary)).
  apply filter_In. split; [exact Hin|]. apply Signal_eqb_refl.
Qed.

Lemma scale_widget_set_eq (w : Scale) (s : Slider) (mw : MainWindow) :
  scale_widget w (set_scale_widget w s mw) = s.
Proof. destruct w; reflexivity. Qed.

Lemma scale_widget_set_ne (w w' : Scale) (s : Slider) (mw : MainWindow) :
  w' ≠ w → scale_widget w' (set_scale_widget w s mw) = scale_widget w' mw.
Proof. destruct w, w'; intros H; try reflexivity; contradiction. Qed.

Lemma change_scale_widget_effect (w : Scale) (f : Slider → Slider) (mw : MainWindow)
    (p : Process) :
  fst (change_scale_widget w f (mw, p)) = Ok tt
  ∧ scale_change w (f (scale_widget w mw)) mw (fst (snd (change_scale_widget w f (mw, p))))
  ∧ connections (snd (snd (change_scale_widget w f (mw, p)))) = connections p
  ∧ (summary_fresh mw → In (valueChanged w, slot_update_altmans_summary) (connected mw) →
     summary_fresh (fst (snd (change_scale_widget w f (mw, p))))).
Proof.
  unfold change_scale_widget, bind, gets, modify. cbn [fst snd].
  set (s := f (scale_widget w mw)).
  set (mw1 := set_scale_widget w s mw).
  assert (Hchange : scale_change w s mw mw1).
  { split; [apply scale_widget_set_eq|].
    split; [intros w' Hne; apply scale_widget_set_ne, Hne|].
    repeat split; reflexivity. }
  destruct (Z.eqb_spec (value s) (value (scale_widget w mw))) as [Hsame|Hdiff].
  - cbn [ret fst snd]. split; [reflexivity|]. split; [exact Hchange|]. split; [reflexivity|].
    intros Hf _. unfold summary_fresh in *.
    change (altmans_summary mw1) with (altmans_summary mw). rewrite Hf. f_equal.
    symmetry. apply sumabitch_scale_widgets. intros w'.
    destruct Hchange as (Heq & Hne & _).
    destruct (decide (w' = w)) as [->|Hw]; [rewrite Heq; exact Hsame|rewrite Hne; auto].
  - destruct (emit_effect (valueChanged w) (value s) mw1 p)
      as ((Hok & Hframe & Hc & _) & Hupd).
    destruct Hframe as (F1 & F2 & F3 & F4 & F5 & F6).
    destruct Hchange as (Heq & Hne & C2 & C3 & C4 & C5 & C6).
    split; [exact Hok|]. split.
    { split; [rewrite F1; exact Heq|].
      split; [intros w' Hw; rewrite F1; apply Hne, Hw|].
      repeat split; congruence. }
    split; [exact Hc|].
    intros _ Hin. apply Hupd. rewrite C2. exact Hin.
Qed.

(** The loop of lines 269-272, for any list of distinct widgets. *)
Lemma ranges_loop (f : Slider → Slider) (ws : list Scale) (mw : MainWindow) (p : Process) :
  NoDup ws →
  fst (for_each ws (λ slider, change_scale_widget slider f) (mw, p)) = Ok tt
  ∧ (∀ w, scale_widget w (fst (snd (for_each ws (λ slider, change_scale_widget slider f)
                                      (mw, p))))
          = if decide (w ∈ ws) then f (scale_widget w mw) else scale_widget w mw)
  ∧ connected (fst (snd (for_each ws (λ slider, change_scale_widget slider f) (mw, p))))
    = connected mw
  ∧ minimum (altmans_summary
               (fst (snd (for_each ws (λ slider, change_scale_widget slider f) (mw, p)))))
    = minimum (altmans_summary mw)
  ∧ maximum (altmans_summary
               (fst (snd (for_each ws (λ slider, change_scale_widget slider f) (mw, p)))))
    = maximum (altmans_summary mw)
  ∧ enabled (altmans_summary
               (fst (snd (for_each ws (λ slider, change_scale_widget slider f) (mw, p)))))
    = enabled (altmans_summary mw)
  ∧ db_manager (fst (snd (for_each ws (λ slider, change_scale_widget slider f) (mw, p))))
    = db_manager mw
  ∧ connections (snd (snd (for_each ws (λ slider, change_scale_widget slider f) (mw, p))))
    = connections p.
Proof.
  intros Hnd. revert mw p. induction Hnd as [|w0 ws Hnotin Hnd IH]; intros mw p.
  - repeat split; reflexivity.
  - cbn [for_each]. unfold bind.
    destruct (change_scale_widget_effect w0 f mw p) as (Hok & Hchange & Hc & _).
    destruct (change_scale_widget w0 f (mw, p)) as [r [mw1 p1]]. cbn [fst snd] in *. subst r.
    destruct Hchange as (Heq & Hne & C2 & C3 & C4 & C5 & C6).
    destruct (IH mw1 p1) as (Hok' & Hw & K2 & K3 & K4 & K5 & K6 & Kc).
    split; [exact Hok'|]. split; [|repeat split; congruence].
    intros w. rewrite Hw.
    destruct (decide (w = w0)) as [->|Hw0].
    + rewrite decide_False by exact Hnotin.
      rewrite decide_True by (apply elem_of_cons; left; reflexivity).
      rewrite Heq. reflexivity.
    + rewrite Hne by exact Hw0.
      destruct (decide (w ∈ ws)) as [Hin|Hout].
      * rewrite decide_True by (apply elem_of_cons; right; exact Hin). reflexivity.
      * rewrite decide_False; [reflexivity|].
        rewrite elem_of_cons. intros [?|?]; contradiction.
Qed.

Lemma scale_widgets_distinct : NoDup [sleep; speech; activity; cheer; confidence].
Proof.
  repeat constructor; rewrite ?elem_of_cons, ?elem_of_nil; intuition discriminate.
Qed.

Lemma every_scale_widget (w : Scale) : w ∈ [sleep; speech; activity; cheer; confidence].
Proof. destruct w; rewrite !elem_of_cons; tauto. Qed.

(* ===================================================================== *)
(** ** The window after construction and after each event *)
(* ===================================================================== *)

Lemma setRange_0_5 (s : Slider) :
  minimum (setRange 0 5 s) = 0 ∧ maximum (setRange 0 5 s) = 5
  ∧ 0 ≤ value (setRange 0 5 s) ≤ 5.
Proof. unfold setRange, qBound. cbn. lia. Qed.

Lemma setValue_in_range (v : Z) (s : Slider) :
  minimum s = 0 → maximum s = 5 →
  minimum (setValue v s) = 0 ∧ maximum (setValue v s) = 5 ∧ 0 ≤ value (setValue v s) ≤ 5.
Proof. intros Hlo Hhi. unfold setValue, qBound. cbn. rewrite Hlo, Hhi. lia. Qed.

Lemma form_invariant_frame (mw mw' : MainWindow) :
  window_frame mw mw' → summary_fresh mw' → form_invariant mw → form_invariant mw'.
Proof.
  intros (F1 & F2 & F3 & F4 & F5 & F6) Hfresh (I1 & I2 & I3 & _).
  split; [intros w; rewrite F1; apply I1|].
  split; [congruence|]. split; [intros w; rewrite F2; apply I3|exact Hfresh].
Qed.

Lemma MainWindow_init_effect (target_db_path : string) (ui : MainWindow) (p0 : Process) :
  fst (MainWindow__init__ target_db_path (ui, p0)) = Ok tt
  ∧ (∀ w, scale_widget w (fst (snd (MainWindow__init__ target_db_path (ui, p0))))
          = setRange 0 5 (scale_widget w ui))
  ∧ (∀ w, In (valueChanged w, slot_update_altmans_summary)
            (connected (fst (snd (MainWindow__init__ target_db_path (ui, p0))))))
  ∧ minimum (altmans_summary (fst (snd (MainWindow__init__ target_db_path (ui, p0)))))
    = minimum (altmans_summary ui)
  ∧ maximum (altmans_summary (fst (snd (MainWindow__init__ target_db_path (ui, p0)))))
    = maximum (altmans_summary ui)
  ∧ enabled (altmans_summary (fst (snd (MainWindow__init__ target_db_path (ui, p0)))))
    = false
  ∧ db_manager (fst (snd (MainWindow__init__ target_db_path (ui, p0))))
    = DataManager.mk (Some (length (connections p0))) (Some (length (queries p0)))
  ∧ connections (snd (snd (MainWindow__init__ target_db_path (ui, p0))))
    = connections (snd (DataManager.new target_db_path p0))
  ∧ summary_fresh (fst (snd (MainWindow__init__ target_db_path (ui, p0)))).
Proof.
  unfold MainWindow__init__, commits, altman_table_commit.
  unfold bind, try_except, connect, modify, on_process. cbn [fst snd].
  pose proof (DataManager_new_object target_db_path p0) as Hobj.
  destruct (DataManager.new target_db_path p0) as [r1 p1]. cbn [fst] in Hobj. subst r1.
  cbn -[for_each change_scale_widget update_altmans_summary].
  match goal with
  | |- context [for_each ?ws ?body (?mw, ?p)] =>
      destruct (ranges_loop (setRange 0 5) ws mw p scale_widgets_distinct)
        as (Hok & Hw & K2 & K3 & K4 & K5 & K6 & Kc);
      destruct (for_each ws body (mw, p)) as [r [mw1 p2]]
  end.
  cbn [fst snd] in *. subst r.
  rewrite update_altmans_summary_run.
  cbn in K2, K3, K4, K5, K6. cbn [fst snd].
  split; [reflexivity|].
  split.
  { intros w.
    transitivity (scale_widget w mw1); [destruct w; reflexivity|].
    rewrite Hw, decide_True by apply every_scale_widget. destruct w; reflexivity. }
  split.
  { intros w. cbn. rewrite !in_app_iff. cbn. destruct w; tauto. }
  cbn. repeat split; try assumption. 
Qed.

Lemma closeEvent_run (mw : MainWindow) (p : Process) :
  closeEvent (mw, p)
  = (Ok tt,
     (mw, set_qsettings (λ m, <["windowState" := QByteArray (windowState mw)]>
                                (<["geometry" := QByteArray (geometry mw)]> m)) p)).
Proof. reflexivity. Qed.

(** One event on a window that satisfies the invariants. *)
Lemma handle_effect (ev : Event) (mw : MainWindow) (p : Process) :
  form_invariant mw →
  fst (handle ev (mw, p)) = Ok tt
  ∧ form_invariant (fst (snd (handle ev (mw, p))))
  ∧ minimum (altmans_summary (fst (snd (handle ev (mw, p)))))
    = minimum (altmans_summary mw)
  ∧ maximum (altmans_summary (fst (snd (handle ev (mw, p)))))
    = maximum (altmans_summary mw)
  ∧ db_manager (fst (snd (handle ev (mw, p)))) = db_manager mw
  ∧ connections (snd (snd (handle ev (mw, p)))) = connections p.
Proof.
  intros Hinv. pose proof Hinv as (I1 & I2 & I3 & I4).
  destruct ev as [w v|v|d t| |index|]; cbn [handle].
  - (* the user moves a scale widget *)
    unfold bind, gets. cbn [fst snd].
    destruct (enabled (scale_widget w mw)).
    + destruct (change_scale_widget_effect w (setValue v) mw p)
        as (Hok & Hchange & Hc & Hfresh).
      destruct (change_scale_widget w (setValue v) (mw, p)) as [r [mw1 p1]].
      cbn [fst snd] in *.
      destruct Hchange as (Heq & Hne & C2 & C3 & C4 & C5 & C6).
      split; [exact Hok|]. split; [|repeat split; assumption].
      split.
      { intros w'. destruct (decide (w' = w)) as [->|Hw].
        - rewrite Heq. destruct (I1 w) as (Hlo & Hhi & _).
          apply setValue_in_range; assumption.
        - rewrite Hne by exact Hw. apply I1. }
      split; [congruence|].
      split; [intros w'; rewrite C2; apply I3|].
      apply Hfresh; [exact I4|apply I3].
    + cbn [ret fst snd]. repeat split; first [assumption | apply I1].
  - (* the user tries the summary widget: it is disabled *)
    unfold bind, gets. cbn [fst snd]. rewrite I2. cbn [ret fst snd].
    repeat split; first [assumption | apply I1].
  - (* date and time *)
    unfold modify. cbn [fst snd].
    split; [reflexivity|]. split; [|repeat split; reflexivity].
    apply (form_invariant_frame mw); [|exact I4|exact Hinv].
    repeat split; reflexivity.
  - (* commit *)
    destruct (emit_effect actionCommit_triggered 0 mw p) as ((Hok & Hframe & Hc & Hkeep) & _).
    split; [exact Hok|].
    split; [apply (form_invariant_frame mw); auto|].
    destruct Hframe as (_ & _ & F3 & F4 & _ & F6). repeat split; assumption.
  - (* the page changes *)
    destruct (emit_effect currentChanged index mw p) as ((Hok & Hframe & Hc & Hkeep) & _).
    split; [exact Hok|].
    split; [apply (form_invariant_frame mw); auto|].
    destruct Hframe as (_ & _ & F3 & F4 & _ & F6). repeat split; assumption.
  - (* the window closes *)
    rewrite closeEvent_run. cbn [fst snd]. repeat split; first [assumption | apply I1].
Qed.

(** What holds in every state of a run. *)
Lemma reachable_invariant (target_db_path : string) (ui : MainWindow) (p0 : Process)
    (s : MainWindow * Process) :
  reachable target_db_path ui p0 s →
  form_invariant (fst s)
  ∧ minimum (altmans_summary (fst s)) = minimum (altmans_summary ui)
  ∧ maximum (altmans_summary (fst s)) = maximum (altmans_summary ui)
  ∧ db_manager (fst s)
    = DataManager.mk (Some (length (connections p0))) (Some (length (queries p0)))
  ∧ connections (snd s) = connections (snd (DataManager.new target_db_path p0)).
Proof.
  induction 1 as [|s ev Hreach IH].
  - destruct (MainWindow_init_effect target_db_path ui p0)
      as (_ & Hw & Hconn & Hmin & Hmax & Hen & Hdb & Hc & Hfresh).
    split; [|repeat split; assumption].
    split; [intros w; rewrite Hw; apply setRange_0_5|].
    repeat split; assumption.
  - destruct IH as (Hinv & Hmin & Hmax & Hdb & Hc). destruct s as [mw p].
    destruct (handle_effect ev mw p Hinv) as (_ & Hinv' & Hmin' & Hmax' & Hdb' & Hc').
    cbn [fst snd] in *. split; [exact Hinv'|]. repeat split; congruence.
Qed.

(* ===================================================================== *)
(** ** Claims on the form and on the life of the connection *)
(* ===================================================================== *)

(** C9.  In every state of a run, from the constructed window on: each of
    the five scale widgets has the range 0..5 and a value inside it; the
    summary widget is disabled, and a user's attempt to set it changes
    nothing; the value change of every scale widget is connected to
    [update_altmans_summary]; and the summary widget shows the sum of the
    current scale values as far as its own range lets it, which is the sum
    of the values above zero whenever that range holds 0..25. *)
Theorem C9_form_invariants (target_db_path : string) (ui : MainWindow) (p0 : Process)
    (s : MainWindow * Process) :
  reachable target_db_path ui p0 s →
  (∀ w, minimum (scale_widget w (fst s)) = 0 ∧ maximum (scale_widget w (fst s)) = 5
        ∧ 0 ≤ value (scale_widget w (fst s)) ≤ 5)
  ∧ enabled (altmans_summary (fst s)) = false
  ∧ (∀ v, handle (user_sets_summary v) s = (Ok tt, s))
  ∧ (∀ w, In (valueChanged w, slot_update_altmans_summary) (connected (fst s)))
  ∧ value (altmans_summary (fst s))
    = qBound (minimum (altmans_summary ui)) (sumabitch (fst s)) (maximum (altmans_summary ui))
  ∧ (minimum (altmans_summary ui) ≤ 0 → 25 ≤ maximum (altmans_summary ui) →
     value (altmans_summary (fst s)) = sum_of_positive (scale_values (fst s))).
Proof.
  intros Hreach.
  destruct (reachable_invariant _ _ _ _ Hreach) as ((I1 & I2 & I3 & I4) & Hmin & Hmax & _).
  split; [exact I1|]. split; [exact I2|].
  split.
  { intros v. destruct s as [mw p]. cbn [handle]. unfold bind, gets. cbn [fst snd] in *.
    rewrite I2. reflexivity. }
  split; [exact I3|].
  unfold summary_fresh in I4. rewrite Hmin, Hmax in I4.
  split; [exact I4|].
  intros Hlo Hhi. rewrite I4, sumabitch_spec.
  assert (Hb : 0 ≤ sum_of_positive (scale_values (fst s)) ≤ 5 * Z.of_nat 5).
  { apply (sum_of_positive_bounds (scale_values (fst s)) 5).
    unfold scale_values.
    repeat constructor;
      [apply (I1 sleep)|apply (I1 sleep)|apply (I1 speech)|apply (I1 speech)
      |apply (I1 activity)|apply (I1 activity)|apply (I1 cheer)|apply (I1 cheer)
      |apply (I1 confidence)|apply (I1 confidence)]. }
  unfold qBound. lia.
Qed.

Lemma C9_witness :
  reachable example_store_path (designer_form 9 0 3 0 2) fresh_process example_run
  ∧ minimum (altmans_summary (designer_form 9 0 3 0 2)) ≤ 0
  ∧ 25 ≤ maximum (altmans_summary (designer_form 9 0 3 0 2))
  ∧ scale_values (fst example_run) = [4; 0; 3; 0; 2]
  ∧ value (altmans_summary (fst example_run)) = sum_of_positive (scale_values (fst example_run)).
Proof.
  assert (Hreach : reachable example_store_path (designer_form 9 0 3 0 2) fresh_process
                     example_run)
    by (unfold example_run; apply reach_event, reach_init).
  destruct (C9_form_invariants _ _ _ _ Hreach) as (_ & _ & _ & _ & _ & Hsum).
  split; [exact Hreach|].
  split; [cbn; lia|]. split; [cbn; lia|].
  split; [vm_compute; reflexivity|].
  apply Hsum; cbn; lia.
Defined.

Lemma exec_str_connections (q : nat) (sql : string) (p : Process) :
  connections (snd (QSqlQuery.exec_str q sql p)) = connections p.
Proof.
  unfold QSqlQuery.exec_str, QSqlQuery.finish.
  destruct (queries p !! q) as [st|]; [|reflexivity].
  destruct (sqlite_exec (q_connection st) sql [] p) as [err|p'] eqn:Hexec; [reflexivity|].
  apply sqlite_exec_frame in Hexec. cbn. tauto.
Qed.

Lemma setup_altman_table_connections (self : DataManager.t) (p : Process) :
  connections (snd (snd (DataManager.setup_altman_table (self, p)))) = connections p.
Proof.
  unfold DataManager.setup_altman_table, bind, DataManager.self_query, on_process.
  destruct self as [h [q|]]; cbn [fst snd DataManager.query]; [|reflexivity].
  pose proof (exec_str_connections q create_altman_table_sql p) as Hc.
  destruct (QSqlQuery.exec_str q create_altman_table_sql p) as [[ok|e] p1];
    cbn [fst snd] in *; [|exact Hc].
  destruct ok; cbn; exact Hc.
Qed.

(** C10.  In every state of a run, the state after [closeEvent] among
    them, the database manager of the window is the object the constructor
    made and the connections of the process are those the constructor
    left: a connection that was opened at start-up is still open.
    [closeEvent] writes the geometry and the state of the window to the
    settings and touches nothing else.  No method of [DataManager] changes
    a connection.  The function that does close the connection of an
    object is [close_database], which stands outside the class and which
    none of the above calls. *)
Theorem C10_connection_never_closed :
  (∀ (target_db_path : string) (ui : MainWindow) (p0 : Process) (s : MainWindow * Process),
     reachable target_db_path ui p0 s →
     db_manager (fst s)
     = DataManager.mk (Some (length (connections p0))) (Some (length (queries p0)))
     ∧ connections (snd s) = connections (snd (DataManager.new target_db_path p0))
     ∧ QSqlDatabase.is_open (length (connections p0)) (snd s)
       = open_succeeds target_db_path p0
     ∧ QSqlDatabase.is_open (length (connections p0)) (snd (snd (handle close_requested s)))
       = open_succeeds target_db_path p0)
  ∧ (∀ (mw : MainWindow) (p : Process),
       closeEvent (mw, p)
       = (Ok tt,
          (mw, set_qsettings (λ m, <["windowState" := QByteArray (windowState mw)]>
                                     (<["geometry" := QByteArray (geometry mw)]> m)) p)))
  ∧ (∀ (self : DataManager.t) (p : Process),
       connections (snd (snd (DataManager.setup_tables (self, p)))) = connections p
       ∧ connections (snd (snd (DataManager.setup_altman_table (self, p)))) = connections p)
  ∧ (∀ (self : DataManager.t) (p : Process) (altman_date altman_time : string)
       (altmans_sleep altmans_speech altmans_activity altmans_cheer
        altmans_confidence altmans_summary : Z),
       connections
         (snd (snd (DataManager.insert_into_altman_table altman_date altman_time
                      altmans_sleep altmans_speech altmans_activity altmans_cheer
                      altmans_confidence altmans_summary (self, p))))
       = connections p)
  ∧ (∀ (self : DataManager.t) (p : Process) (h : nat),
       DataManager.db self = Some h →
       QSqlDatabase.is_open h (snd (snd (close_database (self, p)))) = false).
Proof.
  split; [|split; [|split; [|split]]].
  - intros target_db_path ui p0 s Hreach.
    assert (Hopen : ∀ s', reachable target_db_path ui p0 s' →
              QSqlDatabase.is_open (length (connections p0)) (snd s')
              = open_succeeds target_db_path p0).
    { intros s' Hr. destruct (reachable_invariant _ _ _ _ Hr) as (_ & _ & _ & _ & Hc).
      unfold QSqlDatabase.is_open. rewrite Hc.
      apply (DataManager_new_is_open target_db_path p0). }
    destruct (reachable_invariant _ _ _ _ Hreach) as (_ & _ & _ & Hdb & Hc).
    split; [exact Hdb|]. split; [exact Hc|]. split; [apply Hopen, Hreach|].
    apply Hopen. apply reach_event, Hreach.
  - intros mw p. apply closeEvent_run.
  - intros self p. split; apply setup_altman_table_connections.
  - intros. 
    match goal with
    | |- context [DataManager.insert_into_altman_table ?a ?b ?c ?d ?e ?f ?g ?h (?s, ?p)] =>
        destruct (insert_effect s p a b c d e f g h) as (p' & -> & Hc)
    end.
    exact Hc.
  - intros self p h Hdb. rewrite close_database_run, Hdb.
    destruct (QSqlDatabase.is_open h p) eqn:Hopen; cbn [fst snd].
    + change (QSqlDatabase.is_open h (set_connections ?F (set_log ?G p)))
        with (QSqlDatabase.is_open h (set_connections F p)).
      apply is_open_after_close.
    + exact Hopen.
Qed.

Lemma C10_witness :
  reachable example_store_path (designer_form 9 0 3 0 2) fresh_process
    (snd (handle close_requested example_run))
  ∧ open_succeeds example_store_path fresh_process = true
  ∧ QSqlDatabase.is_open 0 (snd (snd (handle close_requested example_run))) = true
  ∧ DataManager.db (db_manager (fst example_run)) = Some 0%nat
  ∧ QSqlDatabase.is_open 0
      (snd (snd (close_database (db_manager (fst example_run), snd example_run))))
    = false.
Proof.
  destruct C10_connection_never_closed as (Hrun & _ & _ & _ & Hclose).
  assert (Hreach : reachable example_store_path (designer_form 9 0 3 0 2) fresh_process
                     (snd (handle close_requested example_run)))
    by (unfold example_run; apply reach_event, reach_event, reach_init).
  assert (Hdb : DataManager.db (db_manager (fst example_run)) = Some 0%nat)
    by (vm_compute; reflexivity).
  destruct (Hrun _ _ _ _ Hreach) as (_ & _ & Hopen & _).
  split; [exact Hreach|]. split; [reflexivity|].
  split; [exact Hopen|]. split; [exact Hdb|].
  exact (Hclose _ (snd example_run) _ Hdb).
Defined.

(* ===================================================================== *)
(** ** Further properties of the persistence component *)
(* ===================================================================== *)

(** X1.  [initialize_database] touches no path but the target: every other
    path of the file system, the template among them, holds after the call
    what it held before, and so do the queries and the settings.  What
    stands at the target afterwards is what stood there before, or an
    empty store, or the content of the template. *)
Theorem X1_initialize_database_touches_only_the_target
    (db_path target_db_path : string) (p : Process) :
  let after := snd (initialize_database db_path target_db_path p) in
  (∀ path, path ≠ target_db_path → fs after !! path = fs p !! path)
  ∧ queries after = queries p
  ∧ qsettings after = qsettings p
  ∧ writable after = writable p
  ∧ (∀ n, fs after !! target_db_path = Some n →
       fs p !! target_db_path = Some n
       ∨ (fs p !! target_db_path = None ∧ fs p !! db_path = None ∧ n = File (Sqlite ∅))
       ∨ (fs p !! target_db_path = None ∧ ∃ c, n = File c ∧ fs p !! db_path = Some (File c))).
Proof.
  cbv zeta.
  destruct (fs p !! target_db_path) as [n0|] eqn:Ht.
  { rewrite (initialize_database_exists _ _ _ n0 Ht). cbn [snd].
    repeat split; try reflexivity. intros n Hn. left. congruence. }
  destruct (fs p !! db_path) as [[|c]|] eqn:Hs.
  - destruct (initialize_database_copy_raises _ _ p Directory Ht Hs (or_introl eq_refl))
      as [msg ->].
    cbn. repeat split; try reflexivity. intros n Hn. congruence.
  - destruct (writable p) eqn:Hw.
    + rewrite (initialize_database_copies _ _ _ c Ht Hs Hw). cbn.
      split; [intros path Hne; apply lookup_insert_ne; congruence|].
      repeat split; try assumption.
      intros n. rewrite lookup_insert_eq. intros [= <-].
      right. right. split; [reflexivity|]. exists c. split; reflexivity.
    + destruct (initialize_database_copy_raises _ _ p (File c) Ht Hs (or_intror Hw))
        as [msg ->].
      cbn. repeat split; try assumption; try reflexivity. intros n Hn. congruence.
  - destruct (writable p) eqn:Hw.
    + rewrite (initialize_database_creates _ _ _ Ht Hs Hw). cbn.
      split; [intros path Hne; apply lookup_insert_ne; congruence|].
      repeat split; try assumption.
      intros n. rewrite lookup_insert_eq. intros [= <-].
      right. left. repeat split; reflexivity.
    + rewrite (initialize_database_cannot_create _ _ _ Ht Hs Hw). cbn.
      repeat split; try assumption; try reflexivity. intros n Hn. congruence.
Qed.

Lemma X1_witness :
  example_template_path ≠ example_store_path
  ∧ fs (snd (initialize_database example_template_path example_store_path
               process_with_template)) !! example_template_path
    = Some (File template_content).
Proof.
  assert (Hne : example_template_path ≠ example_store_path) by discriminate.
  destruct (X1_initialize_database_touches_only_the_target example_template_path
              example_store_path process_with_template) as (Hframe & _).
  split; [exact Hne|]. rewrite (Hframe _ Hne). vm_compute. reflexivity.
Defined.

(** An insert whose prepared statement fails writes nothing and logs the
    text of the failure. *)
Lemma insert_engine_error
    (self : DataManager.t) (p : Process) (q : nat) (st : Query) (err : SqlError)
    (altman_date altman_time : string)
    (altmans_sleep altmans_speech altmans_activity altmans_cheer
     altmans_confidence altmans_summary : Z) :
  DataManager.query self = Some q →
  queries p !! q = Some st →
  prepared_exec (q_connection st) insert_altman_table_sql
    (DataManager.bind_values_of altman_date altman_time altmans_sleep altmans_speech
       altmans_activity altmans_cheer altmans_confidence altmans_summary) p = inl err →
  ∃ p', DataManager.insert_into_altman_table altman_date altman_time altmans_sleep
          altmans_speech altmans_activity altmans_cheer altmans_confidence altmans_summary
          (self, p) = (Ok tt, (self, p'))
        ∧ fs p' = fs p
        ∧ log p' = log p ++ [insert_error_record (error_text p in_exec err)]
        ∧ error_text p' = error_text p.
Proof.
  intros Hq Hst Hexec.
  rewrite (insert_call_run self p altman_date altman_time altmans_sleep altmans_speech
             altmans_activity altmans_cheer altmans_confidence altmans_summary q st Hq Hst).
  rewrite Hexec. eexists. split; [reflexivity|]. repeat split; reflexivity.
Qed.

(** On a connection that is not open, [prepare] compiles nothing, and the
    eight values meet no parameter. *)
Lemma prepared_exec_not_open (conn : option nat) (bound : list Value) (p : Process) :
  QSqlQuery.connection_open conn p = false →
  length bound = 8%nat →
  prepared_exec conn insert_altman_table_sql bound p = inl ParameterCountMismatch.
Proof.
  intros Hclosed Hlen. rewrite prepared_exec_insert by exact Hlen.
  destruct (database_of_closed conn p Hclosed) as [err ->]. reflexivity.
Qed.

Lemma fs_opened_process_existing (name : string) (p : Process) (n : Node) :
  fs p !! name = Some n → fs (opened_process name p) = fs p.
Proof. intros H. unfold opened_process. rewrite H. reflexivity. Qed.

(** The constructor on a regular file that needs no write: a store that
    has the table already, or a file that is no database. *)
Lemma DataManager_new_keeps_file (name : string) (p : Process) (c : Content) :
  fs p !! name = Some (File c) →
  match as_database c with
  | None => True
  | Some d => is_Some (d !! "altman_table")
  end →
  fs (snd (DataManager.new name p)) = fs p
  ∧ log (snd (DataManager.new name p))
    = log p ++ mkLog INFO "DB INITIALIZING" [] false
        :: match as_database c with
           | None => [create_error_record (error_text p in_exec_str FileIsNotADatabase)]
           | Some _ => []
           end.
Proof.
  intros Hf Hc. rewrite DataManager_new_run. cbv zeta.
  rewrite (sqlite_exec_create _ _ _ (opened_process_lookup name p)).
  cbn [valid opened databaseName].
  assert (Hok : open_succeeds name p = true) by (unfold open_succeeds; rewrite Hf; reflexivity).
  pose proof (fs_opened_process_existing name p _ Hf) as Hop.
  rewrite Hok, Hop, Hf. cbn [andb negb].
  destruct (as_database c) as [d|].
  - destruct Hc as [t ->]. cbn. rewrite Hop, log_opened_process. split; reflexivity.
  - unfold constructed_process. cbn. rewrite Hop, log_opened_process, Hok.
    rewrite <- app_assoc. split; reflexivity.
Qed.


Lemma DataManager_new_error_text (name : string) (p : Process) :
  error_text (snd (DataManager.new name p)) = error_text p.
Proof.
  rewrite DataManager_new_run. cbv zeta.
  destruct (sqlite_exec _ _ _ _) as [err|p'] eqn:Hexec; unfold constructed_process; cbn.
  - apply error_text_opened_process.
  - apply sqlite_exec_error_text in Hexec. rewrite Hexec.
    apply error_text_opened_process.
Qed.

(** The query of a newly constructed manager and the connection it is on. *)
Lemma DataManager_new_handles (name : string) (p : Process) :
  ∃ err,
    queries (snd (DataManager.new name p)) !! length (queries p)
    = Some (mkQuery (Some (length (connections p))) None [] err)
    ∧ connections (snd (DataManager.new name p)) !! length (connections p)
      = Some (mkConnection "QSQLITE" true name (open_succeeds name p)).
Proof.
  destruct (DataManager_new_query name p) as [err Hq]. exists err.
  rewrite Hq, DataManager_new_connections. split.
  - apply lookup_last_added. reflexivity.
  - apply lookup_last_added. rewrite length_fmap. reflexivity.
Qed.



(** X3.  On a file that SQLite does not take for a database the
    constructor opens the connection (the file is not read by then), logs
    that the table could not be created and leaves the file as it is.  An
    insert through the manager then writes nothing: its [prepare] compiles
    no statement, so that [exec()] meets eight values without a parameter
    and the error logged is Qt's parameter count mismatch. *)
Theorem X3_constructor_leaves_a_foreign_file
    (db_name : string) (p : Process) (content : string)
    (altman_date altman_time : string)
    (altmans_sleep altmans_speech altmans_activity altmans_cheer
     altmans_confidence altmans_summary : Z) :
  fs p !! db_name = Some (File (NotADatabase content)) →
  let after := snd (DataManager.new db_name p) in
  let self := DataManager.mk (Some (length (connections p))) (Some (length (queries p))) in
  let inserted :=
    snd (snd (DataManager.insert_into_altman_table altman_date altman_time altmans_sleep
                altmans_speech altmans_activity altmans_cheer altmans_confidence
                altmans_summary (self, after))) in
  fst (DataManager.new db_name p) = Ok self
  ∧ fs after = fs p
  ∧ QSqlDatabase.is_open (length (connections p)) after = true
  ∧ new_log p after
    = [mkLog INFO "DB INITIALIZING" [] false;
       create_error_record (error_text p in_exec_str FileIsNotADatabase)]
  ∧ fs inserted = fs p
  ∧ new_log after inserted
    = [insert_error_record (error_text p in_exec ParameterCountMismatch)].
Proof.
  intros Hf. cbv zeta.
  destruct (DataManager_new_keeps_file db_name p (NotADatabase content) Hf I)
    as (Hfs & Hlog).
  cbn [as_database] in Hlog.
  assert (Hok : open_succeeds db_name p = true) by (unfold open_succeeds; rewrite Hf; reflexivity).
  destruct (DataManager_new_handles db_name p) as (err0 & Hq & Hc).
  edestruct (insert_engine_error
               (DataManager.mk (Some (length (connections p))) (Some (length (queries p))))
               (snd (DataManager.new db_name p)) _ _ ParameterCountMismatch
               altman_date altman_time altmans_sleep altmans_speech altmans_activity
               altmans_cheer altmans_confidence altmans_summary eq_refl Hq)
    as (p' & -> & Hfs' & Hlog' & _).
  { rewrite prepared_exec_insert by reflexivity. cbn [q_connection].
    rewrite (database_of_lookup _ _ _ Hc). cbn [valid opened databaseName].
    rewrite Hok, Hfs, Hf. reflexivity. }
  cbn [fst snd].
  split; [apply DataManager_new_object|]. split; [exact Hfs|].
  split; [rewrite DataManager_new_is_open; exact Hok|].
  split; [apply new_log_app; exact Hlog|].
  split; [congruence|]. apply new_log_app.
  rewrite Hlog', DataManager_new_error_text. reflexivity.
Qed.

Lemma X3_witness :
  fs process_with_foreign_file !! example_store_path
  = Some (File (NotADatabase "a letter"))
  ∧ fs (snd (snd (DataManager.insert_into_altman_table "2024-01-01" "10:00" 5 0 3 0 2 10
                    (opened_manager,
                     snd (DataManager.new example_store_path process_with_foreign_file)))))
    = fs process_with_foreign_file.
Proof.
  assert (Hf : fs process_with_foreign_file !! example_store_path
               = Some (File (NotADatabase "a letter")))
    by (vm_compute; reflexivity).
  destruct (X3_constructor_leaves_a_foreign_file example_store_path _ _
              "2024-01-01" "10:00" 5 0 3 0 2 10 Hf) as (_ & _ & _ & _ & Hkept & _).
  split; [exact Hf|exact Hkept].
Defined.

(* ===================================================================== *)
(** ** Inserts, one after the other *)
(* ===================================================================== *)









Lemma table_full_spec (t : Table) :
  table_full t = false ↔ next_id t ≤ max_rowid.
Proof.
  unfold table_full, next_id. rewrite orb_false_iff, Z.leb_gt.
  destruct (largest_id (entries t)) as [m|].
  - rewrite Z.leb_gt. unfold max_rowid. lia.
  - unfold max_rowid. split; [lia|]. intros H. split; [lia|reflexivity].
Qed.



Lemma elem_of_insert_by_id (r x : Row) (l : list Row) :
  x ∈ insert_by_id r l → x = r ∨ x ∈ l.
Proof.
  induction l as [|y l IH]; cbn [insert_by_id].
  - rewrite list_elem_of_singleton. tauto.
  - destruct (row_id r <? row_id y).
    + rewrite elem_of_cons. tauto.
    + rewrite !elem_of_cons. intros [->|H]; [tauto|]. destruct (IH H); tauto.
Qed.

Lemma elem_of_by_id (x : Row) (l : list Row) : x ∈ by_id l → x ∈ l.
Proof.
  unfold by_id. induction l as [|a l IH]; cbn [foldr]; [tauto|].
  intros H. apply elem_of_insert_by_id in H. rewrite elem_of_cons.
  destruct H as [->|H]; [tauto|]. right. apply IH, H.
Qed.

(** X6.  The id of an inserted row is above the id of every row the
    table holds and above the counter of the table, which remembers the
    ids of rows that are gone; it is a 64-bit integer.  So a table whose
    ids are pairwise distinct keeps them pairwise distinct, and the new
    row is the last row of a read, in whatever order the older rows were
    written. *)
Theorem X6_inserted_id_is_fresh
    (self : DataManager.t) (p : Process) (path : string) (d : Database) (t : Table)
    (altman_date altman_time : string)
    (altmans_sleep altmans_speech altmans_activity altmans_cheer
     altmans_confidence altmans_summary : Z) :
  insert_target self p = Some (path, d, t) →
  table_full t = false →
  let after :=
    snd (snd (DataManager.insert_into_altman_table altman_date altman_time altmans_sleep
                altmans_speech altmans_activity altmans_cheer altmans_confidence
                altmans_summary (self, p))) in
  let new_row :=
    inserted_row t
      (DataManager.bind_values_of altman_date altman_time altmans_sleep altmans_speech
         altmans_activity altmans_cheer altmans_confidence altmans_summary) in
  read_table path "altman_table" after = Some (rows t ++ [new_row])
  ∧ seq t < row_id new_row ≤ max_rowid
  ∧ (∀ r, r ∈ rows t → row_id r < row_id new_row)
  ∧ (NoDup (row_id <$> rows t) → NoDup (row_id <$> (rows t ++ [new_row]))).
Proof.
  intros Ht Hroom. cbv zeta.
  destruct (insert_reads_back self p altman_date altman_time altmans_sleep
              altmans_speech altmans_activity altmans_cheer altmans_confidence
              altmans_summary path d t Ht Hroom) as (_ & Hread & _).
  split; [exact Hread|].
  assert (Habove : ∀ r, r ∈ rows t → row_id r < next_id t).
  { intros r Hin. apply next_id_above, elem_of_by_id, Hin. }
  split.
  { cbn [row_id inserted_row]. apply table_full_spec in Hroom.
    split; [unfold next_id; lia|exact Hroom]. }
  split; [exact Habove|].
  intros Hnd. rewrite fmap_app. apply NoDup_app. split; [exact Hnd|].
  split; [|cbn; apply NoDup_singleton].
  intros x Hx. cbn. rewrite list_elem_of_singleton. intros ->.
  apply list_elem_of_fmap in Hx. destruct Hx as (r & Hid & Hin).
  specialize (Habove r Hin). lia.
Qed.

Lemma X6_witness :
  insert_target opened_manager process_with_rows
  = Some (example_store_path, {["altman_table" := table_with_rows]}, table_with_rows)
  ∧ table_full table_with_rows = false
  ∧ read_table example_store_path "altman_table"
      (snd (snd (DataManager.insert_into_altman_table "2024-01-01" "10:00" 5 0 3 0 2 10
                   (opened_manager, process_with_rows))))
    = Some [entry_row 3 "2023-12-29" "08:00" 0 0 0 0 0 0;
            entry_row 5 "2023-12-31" "08:00" 2 2 0 0 0 4;
            entry_row 7 "2023-12-30" "08:00" 1 0 0 0 0 1;
            entry_row 8 "2024-01-01" "10:00" 5 0 3 0 2 10].
Proof.
  assert (Hready : insert_target opened_manager process_with_rows
                   = Some (example_store_path, {["altman_table" := table_with_rows]},
                           table_with_rows)) by (vm_compute; reflexivity).
  assert (Hroom : table_full table_with_rows = false) by reflexivity.
  split; [exact Hready|]. split; [exact Hroom|].
  exact (proj1 (X6_inserted_id_is_fresh _ _ _ _ _ "2024-01-01" "10:00" 5 0 3 0 2 10
                  Hready Hroom)).
Defined.



(* ===================================================================== *)
(** ** The life of a connection: close, a second manager, a restart *)
(* ===================================================================== *)

Lemma connection_open_is_open (h : nat) (p : Process) :
  QSqlQuery.connection_open (Some h) p = QSqlDatabase.is_open h p.
Proof. reflexivity. Qed.



(** X9.  Every [DataManager()] takes the default connection: once a
    second manager has been constructed, the query of the first is on a
    connection that is no longer open, and an insert through the first
    manager writes nothing and logs one error, Qt's parameter count
    mismatch: its [prepare] compiles no statement. *)
Theorem X9_second_manager_disables_the_first
    (self : DataManager.t) (p : Process) (h q : nat) (st : Query) (c : Connection)
    (db_name : string) (altman_date altman_time : string)
    (altmans_sleep altmans_speech altmans_activity altmans_cheer
     altmans_confidence altmans_summary : Z) :
  DataManager.query self = Some q →
  queries p !! q = Some st →
  q_connection st = Some h →
  connections p !! h = Some c →
  let second := snd (DataManager.new db_name p) in
  let after :=
    snd (snd (DataManager.insert_into_altman_table altman_date altman_time altmans_sleep
                altmans_speech altmans_activity altmans_cheer altmans_confidence
                altmans_summary (self, second))) in
  QSqlDatabase.is_open h second = false
  ∧ fs after = fs second
  ∧ new_log second after
    = [insert_error_record (error_text p in_exec ParameterCountMismatch)].
Proof.
  intros Hq Hst Hh Hc. cbv zeta.
  assert (Hc2 : connections (snd (DataManager.new db_name p)) !! h
                = Some (QSqlDatabase.invalidate c)).
  { rewrite DataManager_new_connections.
    apply lookup_app_l_Some. rewrite list_lookup_fmap, Hc. reflexivity. }
  assert (Hclosed : QSqlDatabase.is_open h (snd (DataManager.new db_name p)) = false)
    by (unfold QSqlDatabase.is_open; rewrite Hc2; reflexivity).
  assert (Hst2 : queries (snd (DataManager.new db_name p)) !! q = Some st).
  { destruct (DataManager_new_query db_name p) as [err ->].
    apply lookup_app_l_Some. exact Hst. }
  split; [exact Hclosed|].
  edestruct (insert_engine_error self (snd (DataManager.new db_name p)) q st
               ParameterCountMismatch) as (p' & -> & Hfs' & Hlog' & _).
  - exact Hq.
  - exact Hst2.
  - rewrite Hh. apply prepared_exec_not_open; [|reflexivity].
    rewrite connection_open_is_open. exact Hclosed.
  - cbn [fst snd]. split; [exact Hfs'|]. apply new_log_app.
    rewrite Hlog', DataManager_new_error_text. reflexivity.
Qed.

Lemma X9_witness :
  DataManager.query started_manager = Some 0%nat
  ∧ queries started_process !! 0%nat = Some (mkQuery (Some 1%nat) None [] "")
  ∧ connections started_process !! 1%nat
    = Some (mkConnection "QSQLITE" true example_store_path true)
  ∧ row_count example_store_path
      (snd (snd (DataManager.insert_into_altman_table "2024-01-01" "10:00" 5 0 3 0 2 10
                   (started_manager,
                    snd (DataManager.new example_store_path started_process)))))
    = Some 0%nat.
Proof.
  assert (Hst : queries started_process !! 0%nat = Some (mkQuery (Some 1%nat) None [] ""))
    by (vm_compute; reflexivity).
  assert (Hc : connections started_process !! 1%nat
               = Some (mkConnection "QSQLITE" true example_store_path true))
    by (vm_compute; reflexivity).
  destruct (X9_second_manager_disables_the_first started_manager started_process
              1%nat 0%nat _ _ example_store_path "2024-01-01" "10:00" 5 0 3 0 2 10
              eq_refl Hst eq_refl Hc) as (_ & Hfs & _).
  split; [reflexivity|]. split; [exact Hst|]. split; [exact Hc|].
  unfold row_count, read_table. rewrite Hfs. vm_compute. reflexivity.
Defined.





(** X11.  Start-up from a template: where no store exists and the
    template is a store that holds [altman_table], [initialize_database]
    followed by [DataManager()] leaves a store identical to the template,
    whose full-table read returns the rows of the template, and logs
    nothing but the start-up line. *)
Theorem X11_start_up_from_a_template
    (db_path target_db_path : string) (p : Process) (d : Database) (t : Table) :
  fs p !! target_db_path = None →
  fs p !! db_path = Some (File (Sqlite d)) →
  d !! "altman_table" = Some t →
  writable p = true →
  let started :=
    snd (DataManager.new target_db_path
           (snd (initialize_database db_path target_db_path p))) in
  fs started !! target_db_path = Some (File (Sqlite d))
  ∧ fs started !! db_path = Some (File (Sqlite d))
  ∧ read_table target_db_path "altman_table" started = Some (rows t)
  ∧ new_log p started = [mkLog INFO "DB INITIALIZING" [] false].
Proof.
  intros Ht Hs Htab Hw. cbv zeta.
  rewrite (initialize_database_copies _ _ _ _ Ht Hs Hw). cbn [snd].
  set (copied := set_fs (λ f, <[target_db_path := File (Sqlite d)]> f) p).
  assert (Hf : fs copied !! target_db_path = Some (File (Sqlite d)))
    by (cbn; apply lookup_insert_eq).
  destruct (DataManager_new_keeps_file target_db_path copied _ Hf) as (Hfs & Hlog).
  { cbn. rewrite Htab. eexists. reflexivity. }
  cbn [as_database] in Hlog.
  split; [rewrite Hfs; exact Hf|].
  split.
  { rewrite Hfs. cbn. rewrite lookup_insert_ne; [exact Hs|]. intros ->. congruence. }
  split; [unfold read_table; rewrite Hfs, Hf; cbn; rewrite Htab; reflexivity|].
  apply new_log_app. exact Hlog.
Qed.

Lemma X11_witness :
  fs process_with_template !! example_store_path = None
  ∧ fs process_with_template !! example_template_path = Some (File template_content)
  ∧ read_table example_store_path "altman_table"
      (snd (DataManager.new example_store_path
              (snd (initialize_database example_template_path example_store_path
                      process_with_template))))
    = Some [entry_row 1 "2023-12-31" "23:59" 1 2 3 4 5 15].
Proof.
  assert (Ht : fs process_with_template !! example_store_path = None)
    by (vm_compute; reflexivity).
  assert (Hs : fs process_with_template !! example_template_path
               = Some (File template_content)) by (vm_compute; reflexivity).
  destruct (X11_start_up_from_a_template example_template_path example_store_path
              process_with_template _ _ Ht Hs eq_refl eq_refl) as (_ & _ & Hread & _).
  split; [exact Ht|]. split; [exact Hs|exact Hread].
Defined.

(* ===================================================================== *)
(** ** Further properties of the form *)
(* ===================================================================== *)

(** A signal nothing is connected to runs nothing. *)
Lemma emit_no_slots (sig : Signal) (arg : Z) (mw : MainWindow) (p : Process) :
  List.filter (λ c, Signal_eqb (fst c) sig) (connected mw) = [] →
  emit sig arg (mw, p) = (Ok tt, (mw, p)).
Proof. intros H. unfold emit, bind, gets. cbn [fst snd]. rewrite H. reflexivity. Qed.

Lemma change_scale_widget_no_slots (w : Scale) (f : Slider → Slider) (mw : MainWindow)
    (p : Process) :
  List.filter (λ c, Signal_eqb (fst c) (valueChanged w)) (connected mw) = [] →
  change_scale_widget w f (mw, p)
  = (Ok tt, (set_scale_widget w (f (scale_widget w mw)) mw, p)).
Proof.
  intros H. unfold change_scale_widget, bind, gets, modify. cbn [fst snd].
  destruct (value (f (scale_widget w mw)) =? value (scale_widget w mw)); [reflexivity|].
  apply emit_no_slots. exact H.
Qed.

(** X12.  [altman_table_commit] does not bring the summary up to date: on
    a window to whose signals nothing is connected yet, it sets the five
    ranges (which clamps the values), disables the summary widget and
    makes its six connections, and leaves the value of the summary widget
    and the whole process as they were.  The ranges are set before the
    value changes are connected, so the clamping runs no slot. *)
Theorem X12_altman_table_commit_leaves_the_summary
    (ui : MainWindow) (p : Process) :
  connected ui = [] →
  let after := altman_table_commit (ui, p) in
  fst after = Ok tt
  ∧ snd (snd after) = p
  ∧ (∀ w, scale_widget w (fst (snd after)) = setRange 0 5 (scale_widget w ui))
  ∧ value (altmans_summary (fst (snd after))) = value (altmans_summary ui)
  ∧ enabled (altmans_summary (fst (snd after))) = false
  ∧ connected (fst (snd after))
    = [(actionCommit_triggered, slot_add_altmans_data);
       (valueChanged sleep, slot_update_altmans_summary);
       (valueChanged speech, slot_update_altmans_summary);
       (valueChanged activity, slot_update_altmans_summary);
       (valueChanged cheer, slot_update_altmans_summary);
       (valueChanged confidence, slot_update_altmans_summary)].
Proof.
  intros Hc. cbv zeta.
  unfold altman_table_commit.
  unfold bind, try_except, connect, modify. cbn [fst snd for_each].
  unfold bind.
  repeat (rewrite change_scale_widget_no_slots by (cbn; rewrite Hc; reflexivity);
          cbn [fst snd]).
  cbn -[setRange]. rewrite Hc.
  repeat split; try reflexivity. intros []; reflexivity.
Qed.

Lemma X12_witness :
  connected (designer_form 9 0 3 0 2) = []
  ∧ scale_values (fst (snd (altman_table_commit (designer_form 9 0 3 0 2, fresh_process))))
    = [5; 0; 3; 0; 2]
  ∧ value (altmans_summary
             (fst (snd (altman_table_commit (designer_form 9 0 3 0 2, fresh_process)))))
    = 0.
Proof.
  destruct (X12_altman_table_commit_leaves_the_summary (designer_form 9 0 3 0 2)
              fresh_process eq_refl) as (_ & _ & _ & Hsum & _).
  split; [reflexivity|]. split; [vm_compute; reflexivity|].
  rewrite Hsum. reflexivity.
Defined.

Lemma MainWindow_init_connected (target_db_path : string) (ui : MainWindow) (p0 : Process) :
  connected (fst (snd (MainWindow__init__ target_db_path (ui, p0)))) = connected ui ++ wired.
Proof.
  unfold MainWindow__init__, commits, altman_table_commit.
  unfold bind, try_except, connect, modify, on_process. cbn [fst snd].
  pose proof (DataManager_new_object target_db_path p0) as Hobj.
  destruct (DataManager.new target_db_path p0) as [r1 p1]. cbn [fst] in Hobj. subst r1.
  cbn -[for_each change_scale_widget update_altmans_summary].
  match goal with
  | |- context [for_each ?ws ?body (?mw, ?p)] =>
      destruct (ranges_loop (setRange 0 5) ws mw p scale_widgets_distinct)
        as (Hok & _ & K2 & _);
      destruct (for_each ws body (mw, p)) as [r [mw1 p2]]
  end.
  cbn [fst snd] in *. subst r.
  rewrite update_altmans_summary_run.
  cbn in K2. cbn. rewrite K2. unfold wired. rewrite <- !app_assoc. reflexivity.
Qed.

Lemma handle_connected (ev : Event) (mw : MainWindow) (p : Process) :
  connected (fst (snd (handle ev (mw, p)))) = connected mw.
Proof.
  destruct ev as [w v|v|d t| |index|]; cbn [handle].
  - unfold bind, gets. cbn [fst snd].
    destruct (enabled (scale_widget w mw)); [|reflexivity].
    destruct (change_scale_widget_effect w (setValue v) mw p) as (_ & Hchange & _).
    destruct Hchange as (_ & _ & C2 & _). exact C2.
  - unfold bind, gets. cbn [fst snd].
    destruct (enabled (altmans_summary mw)); reflexivity.
  - reflexivity.
  - destruct (emit_effect actionCommit_triggered 0 mw p) as ((_ & Hframe & _) & _).
    destruct Hframe as (_ & F2 & _). exact F2.
  - destruct (emit_effect currentChanged index mw p) as ((_ & Hframe & _) & _).
    destruct Hframe as (_ & F2 & _). exact F2.
  - rewrite closeEvent_run. reflexivity.
Qed.

Lemma reachable_connected (target_db_path : string) (ui : MainWindow) (p0 : Process)
    (s : MainWindow * Process) :
  reachable target_db_path ui p0 s → connected (fst s) = connected ui ++ wired.
Proof.
  induction 1 as [|s ev Hreach IH].
  - apply MainWindow_init_connected.
  - destruct s as [mw p]. rewrite handle_connected. exact IH.
Qed.

(** With the connections of [MainWindow.__init__] and no other, a change
    of a scale widget leaves the process as it is. *)
Lemma change_scale_widget_process (w : Scale) (f : Slider → Slider) (mw : MainWindow)
    (p : Process) :
  connected mw = wired →
  snd (snd (change_scale_widget w f (mw, p))) = p.
Proof.
  intros Hc. unfold change_scale_widget, bind, gets, modify. cbn [fst snd].
  destruct (value (f (scale_widget w mw)) =? value (scale_widget w mw)); [reflexivity|].
  unfold emit, bind, gets. cbn [fst snd].
  change (connected (set_scale_widget w (f (scale_widget w mw)) mw)) with (connected mw).
  rewrite Hc.
  destruct w; cbn -[update_altmans_summary]; unfold bind;
    rewrite update_altmans_summary_run; reflexivity.
Qed.

(** X13.  Moving a scale widget never reaches the store.  In every state
    of a run of a window whose signals had no connection before
    [MainWindow.__init__], a user's change of a scale widget returns
    normally and leaves the whole process (files, connections, queries,
    log, settings) as it is: the only slot on [valueChanged] is
    [update_altmans_summary].  The other four scale widgets keep their
    state; the widget itself, when enabled, takes the value clamped to
    0..5, and when disabled the window does not change at all.  Values
    reach the store only through the commit action. *)
Theorem X13_scale_change_never_writes
    (target_db_path : string) (ui : MainWindow) (p0 : Process)
    (s : MainWindow * Process) (w : Scale) (v : Z) :
  connected ui = [] →
  reachable target_db_path ui p0 s →
  let after := handle (user_sets w v) s in
  fst after = Ok tt
  ∧ snd (snd after) = snd s
  ∧ (∀ w', w' ≠ w → scale_widget w' (fst (snd after)) = scale_widget w' (fst s))
  ∧ (enabled (scale_widget w (fst s)) = true →
     value (scale_widget w (fst (snd after))) = qBound 0 v 5)
  ∧ (enabled (scale_widget w (fst s)) = false → fst (snd after) = fst s).
Proof.
  intros Hui Hreach. cbv zeta.
  pose proof (reachable_connected _ _ _ _ Hreach) as Hconn.
  rewrite Hui in Hconn. cbn [app] in Hconn.
  destruct (reachable_invariant _ _ _ _ Hreach) as ((I1 & _) & _).
  destruct s as [mw p]. cbn [fst snd] in *.
  cbn [handle]. unfold bind, gets. cbn [fst snd].
  destruct (enabled (scale_widget w mw)) eqn:Hen.
  - pose proof (change_scale_widget_process w (setValue v) mw p Hconn) as Hp.
    destruct (change_scale_widget_effect w (setValue v) mw p) as (Hok & Hchange & _).
    destruct Hchange as (Heq & Hne & _).
    split; [exact Hok|]. split; [exact Hp|]. split; [exact Hne|].
    split; [|discriminate].
    intros _. rewrite Heq. destruct (I1 w) as (Hlo & Hhi & _).
    unfold setValue. cbn. rewrite Hlo, Hhi. reflexivity.
  - cbn [ret fst snd]. repeat split; try reflexivity. discriminate.
Qed.

Lemma X13_witness :
  connected (designer_form 9 0 3 0 2) = []
  ∧ reachable example_store_path (designer_form 9 0 3 0 2) fresh_process example_run
  ∧ snd (snd (handle (user_sets speech 7) example_run)) = snd example_run
  ∧ value (altmans_speech (fst (snd (handle (user_sets speech 7) example_run)))) = 5.
Proof.
  assert (Hreach : reachable example_store_path (designer_form 9 0 3 0 2) fresh_process
                     example_run)
    by (unfold example_run; apply reach_event, reach_init).
  destruct (X13_scale_change_never_writes example_store_path (designer_form 9 0 3 0 2)
              fresh_process example_run speech 7 eq_refl Hreach)
    as (_ & Hp & _ & Hv & _).
  split; [reflexivity|]. split; [exact Hreach|]. split; [exact Hp|].
  apply Hv. vm_compute. reflexivity.
Defined.

(* ===================================================================== *)
(** ** The window geometry, from one session to the next *)
(* ===================================================================== *)

Section restoring.
Variable unexpected_type : QVariant → string.
Variables accepts_geometry accepts_state : string → bool.

Lemma restore_state_run (mw : MainWindow) (p : Process) (g w : QVariant) :
  default (QByteArray "") (qsettings p !! "geometry") = g →
  default (QByteArray "") (qsettings p !! "windowState") = w →
  restore_state unexpected_type accepts_geometry accepts_state (mw, p)
  = (Ok tt,
     match g, w with
     | QByteArray bg, QByteArray bw =>
         (restoreState accepts_state bw (restoreGeometry accepts_geometry bg mw), p)
     | QByteArray bg, _ =>
         (restoreGeometry accepts_geometry bg mw,
          set_log (λ l, l ++ [mkLog ERROR ("Error restoring WINDOW STATE "
                                            +:+ unexpected_type w) [] true]) p)
     | _, QByteArray bw =>
         (restoreState accepts_state bw mw,
          set_log (λ l, l ++ [mkLog ERROR
                                ("Error restoring the minds module : stress state "
                                 +:+ unexpected_type g) [] false]) p)
     | _, _ =>
         (mw,
          set_log (λ l, l ++ [mkLog ERROR ("Error restoring WINDOW STATE "
                                            +:+ unexpected_type w) [] true])
            (set_log (λ l, l ++ [mkLog ERROR
                                   ("Error restoring the minds module : stress state "
                                    +:+ unexpected_type g) [] false]) p))
     end).
Proof.
  intros Hg Hw.
  unfold restore_state, bind, on_process, settings_value, gets. cbn [fst snd].
  rewrite Hg. destruct g as [zg|bg].
  - unfold logger.error, modify. cbn [fst snd set_log qsettings].
    rewrite Hw. destruct w; reflexivity.
  - unfold modify. cbn [fst snd]. rewrite Hw. destruct w; reflexivity.
Qed.

End restoring.

Lemma saved_window_state (mw : MainWindow) (p : Process) :
  qsettings (restarted (snd (snd (closeEvent (mw, p))))) !! "geometry"
  = Some (QByteArray (geometry mw))
  ∧ qsettings (restarted (snd (snd (closeEvent (mw, p))))) !! "windowState"
    = Some (QByteArray (windowState mw)).
Proof.
  rewrite closeEvent_run. cbn [fst snd restarted set_qsettings qsettings]. split.
  - rewrite lookup_insert_ne by discriminate. apply lookup_insert_eq.
  - apply lookup_insert_eq.
Qed.

(** X14.  The geometry and the state of the window make the round trip
    from one session to the next: what [closeEvent] saves through
    [save_state], [restore_state] finds under the same two keys in the
    next session and hands to the window, for any window of the next
    session; it changes nothing else of that window and nothing of the
    process, and logs nothing.  The byte arrays are those [saveGeometry()]
    and [saveState()] gave, which Qt accepts.  On a first start, with
    nothing saved under either key, [restore_state] changes nothing at
    all. *)
Theorem X14_window_state_round_trip
    (unexpected_type : QVariant → string) (accepts_geometry accepts_state : string → bool)
    (mw next : MainWindow) (p : Process) :
  geometry mw ≠ "" →
  windowState mw ≠ "" →
  accepts_geometry (geometry mw) = true →
  accepts_state (windowState mw) = true →
  let saved := restarted (snd (snd (closeEvent (mw, p)))) in
  let after := restore_state unexpected_type accepts_geometry accepts_state (next, saved) in
  fst after = Ok tt
  ∧ geometry (fst (snd after)) = geometry mw
  ∧ windowState (fst (snd after)) = windowState mw
  ∧ fst (snd after) = set_windowState (windowState mw) (set_geometry (geometry mw) next)
  ∧ snd (snd after) = saved
  ∧ (∀ q : Process,
       qsettings q !! "geometry" = None → qsettings q !! "windowState" = None →
       restore_state unexpected_type accepts_geometry accepts_state (next, q)
       = (Ok tt, (next, q))).
Proof.
  intros Hg Hw Ag Aw. cbv zeta.
  destruct (saved_window_state mw p) as (Sg & Sw).
  rewrite (restore_state_run unexpected_type accepts_geometry accepts_state next _
             (QByteArray (geometry mw)) (QByteArray (windowState mw)))
    by (first [rewrite Sg | rewrite Sw]; reflexivity).
  cbn [fst snd]. unfold restoreState, restoreGeometry.
  rewrite !decide_False by assumption. rewrite Ag, Aw.
  repeat split; try reflexivity.
  intros q Qg Qw.
  rewrite (restore_state_run unexpected_type accepts_geometry accepts_state next q
             (QByteArray "") (QByteArray ""))
    by (first [rewrite Qg | rewrite Qw]; reflexivity).
  reflexivity.
Qed.

Lemma X14_witness :
  geometry (designer_form 9 0 3 0 2) ≠ ""
  ∧ windowState (designer_form 9 0 3 0 2) ≠ ""
  ∧ geometry
      (fst (snd (restore_state (λ _, "unexpected type") (λ _, true) (λ _, true)
                   (example_form 0 0 0 0 0,
                    restarted (snd (snd (closeEvent (designer_form 9 0 3 0 2,
                                                     fresh_process))))))))
    = "geometry".
Proof.
  assert (Hg : geometry (designer_form 9 0 3 0 2) ≠ "") by discriminate.
  assert (Hw : windowState (designer_form 9 0 3 0 2) ≠ "") by discriminate.
  destruct (X14_window_state_round_trip (λ _, "unexpected type") (λ _, true) (λ _, true)
              (designer_form 9 0 3 0 2) (example_form 0 0 0 0 0) fresh_process Hg Hw
              eq_refl eq_refl)
    as (_ & Hgeo & _).
  split; [exact Hg|]. split; [exact Hw|]. exact Hgeo.
Defined.

(** X15.  The two halves of [restore_state] do not depend on each other:
    when the value under "geometry" is not a byte array, one error record
    is logged for it and the geometry stays, and a window state under
    "windowState" that Qt accepts is restored all the same; the call
    returns normally. *)
Theorem X15_restore_state_halves_are_independent
    (unexpected_type : QVariant → string) (accepts_geometry accepts_state : string → bool)
    (mw : MainWindow) (p : Process) (z : Z) (state : string) :
  qsettings p !! "geometry" = Some (QInt z) →
  qsettings p !! "windowState" = Some (QByteArray state) →
  state ≠ "" →
  accepts_state state = true →
  let after := restore_state unexpected_type accepts_geometry accepts_state (mw, p) in
  fst after = Ok tt
  ∧ geometry (fst (snd after)) = geometry mw
  ∧ windowState (fst (snd after)) = state
  ∧ log (snd (snd after))
    = log p ++ [mkLog ERROR ("Error restoring the minds module : stress state "
                             +:+ unexpected_type (QInt z)) [] false]
  ∧ qsettings (snd (snd after)) = qsettings p.
Proof.
  intros Hg Hw Hne Hacc. cbv zeta.
  rewrite (restore_state_run unexpected_type accepts_geometry accepts_state mw p
             (QInt z) (QByteArray state))
    by (first [rewrite Hg | rewrite Hw]; reflexivity).
  cbn [fst snd]. unfold restoreState. rewrite decide_False by assumption. rewrite Hacc.
  repeat split; reflexivity.
Qed.

Lemma X15_witness :
  windowState
    (fst (snd (restore_state (λ _, "unexpected type") (λ _, true) (λ _, true)
                 (example_form 0 0 0 0 0,
                  set_qsettings (λ _, {["geometry" := QInt 3;
                                        "windowState" := QByteArray "state"]})
                    fresh_process))))
  = "state".
Proof.
  assert (Hne : "state" ≠ "") by discriminate.
  set (p := set_qsettings (λ _, {["geometry" := QInt 3;
                                  "windowState" := QByteArray "state"]})
              fresh_process).
  assert (Hg : qsettings p !! "geometry" = Some (QInt 3))
    by (vm_compute; reflexivity).
  assert (Hw : qsettings p !! "windowState" = Some (QByteArray "state"))
    by (vm_compute; reflexivity).
  destruct (X15_restore_state_halves_are_independent (λ _, "unexpected type")
              (λ _, true) (λ _, true)
              (example_form 0 0 0 0 0) p 3 "state" Hg Hw Hne eq_refl)
    as (_ & _ & Hs & _).
  exact Hs.
Defined.
